(** * MTAP: DUT simulator, runner and analytics -- a shallow embedding

    The Python sources of [mtap] are embedded as Rocq functions.  Python
    [float] is IEEE-754 binary64 and is modelled by Rocq's primitive
    [float]; Python [int] is [Z]; [str] is [string]; dictionaries with
    string keys are [gmap]s.  Wall-clock reads ([time.time()]) and the
    pseudo-random generator ([random.Random]) are the two effects of the
    DUT process: the clock is an oracle [nat -> float] indexed by the number
    of reads made so far, the generator is an interface ([RandomGen]). *)

From Stdlib Require Import ZArith Floats Ascii String List.
From stdpp Require Import gmap strings pretty.

Set Warnings "-inexact-float,-register-all".

(** ** Python numerics *)

Module PyNum.

(** [float(n)] for an [int] n: the nearest binary64. *)
Definition Z2float (z : Z) : float :=
  SF2Prim (binary_normalize prec emax z 0 false).

(** [max(a, b)]: the builtin keeps its first argument unless the second
    compares strictly greater. *)
Definition py_max (a b : float) : float := if (a <? b)%float then b else a.

(** [min(a, b)]: keeps the first argument unless the second compares
    strictly smaller. *)
Definition py_min (a b : float) : float := if (b <? a)%float then b else a.

Definition is_nan (x : float) : bool := negb (x =? x)%float.


End PyNum.
Export PyNum.

(** ** ASCII case conversion and tokenising ([str.upper], [str.lower],
    [str.strip], [str.split]) on ASCII request lines *)

Module PyStr.

Definition upper_ascii (c : ascii) : ascii :=
  let n := nat_of_ascii c in
  if (97 <=? n)%nat && (n <=? 122)%nat then ascii_of_nat (n - 32) else c.

Definition lower_ascii (c : ascii) : ascii :=
  let n := nat_of_ascii c in
  if (65 <=? n)%nat && (n <=? 90)%nat then ascii_of_nat (n + 32) else c.

Fixpoint map_string (f : ascii -> ascii) (s : string) : string :=
  match s with
  | EmptyString => EmptyString
  | String c s' => String (f c) (map_string f s')
  end.

Definition upper : string -> string := map_string upper_ascii.
Definition lower : string -> string := map_string lower_ascii.

(** The ASCII characters [str.split()] and [str.strip()] treat as
    white space: TAB, LF, VT, FF, CR, FS, GS, RS, US and SPACE. *)
Definition is_space (c : ascii) : bool :=
  let n := nat_of_ascii c in
  ((9 <=? n)%nat && (n <=? 13)%nat) || ((28 <=? n)%nat && (n <=? 32)%nat).

(** [s.split()]: maximal runs of non-space characters, in order.  [cur]
    holds the current token reversed. *)
Fixpoint split_go (s : string) (cur : list ascii) : list string :=
  let flush (rest : list string) :=
    match cur with
    | [] => rest
    | _ => string_of_list_ascii (rev cur) :: rest
    end in
  match s with
  | EmptyString => flush []
  | String c s' =>
      if is_space c then flush (split_go s' []) else split_go s' (c :: cur)
  end.

Definition split (s : string) : list string := split_go s [].

End PyStr.

(** ** Values and builtins shared by the components *)

(** JSON values, as carried in response [data] and in logged events. *)
Inductive jvalue : Type :=
| JNull
| JBool (b : bool)
| JInt (n : Z)
| JFloat (x : float)
| JStr (s : string)
| JList (l : list jvalue)
| JDict (d : list (string * jvalue)).

(** A JSON object: keys in insertion order, unique. *)
Abbreviation jobject := (list (string * jvalue)).

Fixpoint jget (d : jobject) (k : string) : option jvalue :=
  match d with
  | [] => None
  | (k', v) :: d' => if String.eqb k' k then Some v else jget d' k
  end.

(** [d[k] = v] on a dict: replaces in place, or appends a new key. *)
Fixpoint jset (d : jobject) (k : string) (v : jvalue) : jobject :=
  match d with
  | [] => [(k, v)]
  | (k', v') :: d' =>
      if String.eqb k' k then (k', v) :: d' else (k', v') :: jset d' k v
  end.

(** The Python builtins that are not part of the repository and have no
    counterpart among the primitive float operations: [float(s)] on a
    string ([None] when it raises [ValueError]), [round(x, ndigits)], [sum]
    over a list of floats and [str(v)] on a JSON value. *)
Class PyBuiltins := {
  float_of_string : string -> option float;
  py_round : float -> Z -> float;
  py_sum : list float -> float;
  py_str : jvalue -> string
}.

(** [random.Random]: the generator the server seeds once and shares between
    the fault injector and the device model.  [rg_seed s e] is
    [random.Random(s)]; with [s = None] the generator seeds itself from
    operating-system entropy [e]. *)
Class RandomGen (G : Type) := {
  rg_seed : option Z -> Z -> G;
  rg_random : G -> float * G;
  rg_gauss : G -> float -> float -> float * G
}.

(** [rng.uniform(a, b)] is [a + (b - a) * rng.random()]. *)
Definition rg_uniform {G} `{RandomGen G} (g : G) (a b : float) : float * G :=
  let '(r, g) := rg_random g in ((a + (b - a) * r)%float, g).

(** ** dut/protocol.py *)

Module Protocol.

Definition E_UNKNOWN_CMD : string := "E_UNKNOWN_CMD".
Definition E_BAD_ARGS : string := "E_BAD_ARGS".
Definition E_TIMEOUT : string := "E_TIMEOUT".
Definition E_INTERNAL : string := "E_INTERNAL".
Definition E_OUT_OF_RANGE : string := "E_OUT_OF_RANGE".
Definition E_BUSY : string := "E_BUSY".

Definition parse_command (line : string) : string * list string :=
  match PyStr.split line with
  | [] => (""%string, [])
  | c :: args => (PyStr.upper c, args)
  end.

(** The dictionary [Response.to_dict()] returns; [meta] is present only
    when a command name was given. *)
Record Response := {
  ok : bool;
  error_code : option string;
  message : string;
  data : jobject;
  meta : option jobject
}.

Definition meta_of (cmd : string) : option jobject :=
  if String.eqb cmd "" then None else Some [("cmd"%string, JStr cmd)].

(** [ok(data, cmd=cmd)] *)
Definition mk_ok (d : jobject) (cmd : string) : Response :=
  {| ok := true; error_code := None; message := "OK"; data := d;
     meta := meta_of cmd |}.

(** [err(code, message, cmd=cmd)] *)
Definition err (code msg cmd : string) : Response :=
  {| ok := false; error_code := Some code; message := msg; data := [];
     meta := meta_of cmd |}.

End Protocol.

(** ** The state of the DUT process *)

Inductive MarkovState := GOOD | BAD.

Record FaultContext := {
  markov_state : MarkovState;
  last_cmd_ts : float
}.

Record DeviceState := {
  sn : string;
  fw : string;
  mode : string;
  temp_c : float;
  vbat_v : float;
  temp_noise_sigma : float;
  vbat_noise_sigma : float;
  temp_drift_per_cycle_c : float;
  vbat_drift_per_cycle_v : float;
  drift_offset_c : float;
  drift_offset_v : float;
  self_test_fail_p_base : float;
  burn_in_fail_slope : float;
  cycles : Z;
  last_update_s : float
}.

(** Everything the fault injector and the device model read and write: the
    one shared generator, the wall clock (an oracle with a read counter),
    the device map and the per-(sn, cmd) fault contexts.
    [w_markov_obs] is a ghost record of the values [_markov_step] returned
    past its [enabled] check, oldest first; the code does not keep it. *)
Record World (G : Type) := {
  w_rng : G;
  w_clock : nat -> float;
  w_reads : nat;
  w_devices : gmap string DeviceState;
  w_ctx : gmap (string * string) FaultContext;
  w_markov_obs : list MarkovState
}.
Arguments w_rng {G}. Arguments w_clock {G}. Arguments w_reads {G}.
Arguments w_devices {G}. Arguments w_ctx {G}. Arguments w_markov_obs {G}.

Section WorldOps.
Context {G : Type} `{RandomGen G}.

Definition set_rng (g : G) (w : World G) : World G :=
  {| w_rng := g; w_clock := w_clock w; w_reads := w_reads w;
     w_devices := w_devices w; w_ctx := w_ctx w;
     w_markov_obs := w_markov_obs w |}.

Definition set_devices (d : gmap string DeviceState) (w : World G) : World G :=
  {| w_rng := w_rng w; w_clock := w_clock w; w_reads := w_reads w;
     w_devices := d; w_ctx := w_ctx w; w_markov_obs := w_markov_obs w |}.

Definition set_ctx (c : gmap (string * string) FaultContext) (w : World G)
  : World G :=
  {| w_rng := w_rng w; w_clock := w_clock w; w_reads := w_reads w;
     w_devices := w_devices w; w_ctx := c; w_markov_obs := w_markov_obs w |}.

Definition observe_markov (s : MarkovState) (w : World G) : World G :=
  {| w_rng := w_rng w; w_clock := w_clock w; w_reads := w_reads w;
     w_devices := w_devices w; w_ctx := w_ctx w;
     w_markov_obs := w_markov_obs w ++ [s] |}.

(** [time.time()] *)
Definition time_time (w : World G) : float * World G :=
  (w_clock w (w_reads w),
   {| w_rng := w_rng w; w_clock := w_clock w; w_reads := S (w_reads w);
      w_devices := w_devices w; w_ctx := w_ctx w;
      w_markov_obs := w_markov_obs w |}).

(** [self._rng.random()] *)
Definition random (w : World G) : float * World G :=
  let '(r, g) := rg_random (w_rng w) in (r, set_rng g w).

Definition uniform (a b : float) (w : World G) : float * World G :=
  let '(r, g) := rg_uniform (w_rng w) a b in (r, set_rng g w).

Definition gauss (mu sigma : float) (w : World G) : float * World G :=
  let '(r, g) := rg_gauss (w_rng w) mu sigma in (r, set_rng g w).

End WorldOps.

(** ** dut/fault_injection.py *)

Module FaultInjection.

Record TimeoutDecision := {
  td_should : bool;
  td_mode : string;
  td_delay_s : float
}.

Record FailDecision := {
  fd_should : bool;
  fd_error_code : string;
  fd_message : string
}.

Record BusyDecision := {
  bd_should : bool;
  bd_error_code : string;
  bd_message : string
}.

Definition FaultContext_new : FaultContext :=
  {| markov_state := GOOD; last_cmd_ts := 0 |}.

(** *** Fault profiles

    A profile is the YAML mapping held in [FaultInjector.profile].  Each
    section is a record of the keys the injector reads; [None] is an absent
    key, and an absent section is the record with every key absent. *)

Record TimeoutCfg := {
  t_p : option float;
  t_mode : option string;
  t_delay_s : option (float * float)
}.
Record FailCfg := { f_p : option float }.
Record DriftCfg := {
  temp_offset_per_cycle_c : option float;
  vbat_offset_per_cycle_v : option float
}.
Record BurnInCfg := {
  fail_p_multiplier_per_1k_cycles : option float;
  drift_multiplier_per_1k_cycles : option float
}.
Record BusyCfg := {
  min_interval_ms : option Z;
  b_p : option float
}.

Record CmdCfg := {
  timeout : TimeoutCfg;
  fail : FailCfg;
  drift : DriftCfg;
  burn_in : BurnInCfg;
  busy : BusyCfg
}.

Record MarkovCfg := {
  enabled : option bool;
  p_good_to_bad : option float;
  p_bad_to_good : option float;
  fail_p_bad_state : option float;
  timeout_p_bad_state : option float;
  timeout_delay_s : option (float * float)
}.

Record Profile := {
  prof_default : CmdCfg;
  prof_per_command : gmap string CmdCfg;
  prof_intermittent_markov : MarkovCfg
}.

Definition empty_cmd_cfg : CmdCfg :=
  {| timeout := {| t_p := None; t_mode := None; t_delay_s := None |};
     fail := {| f_p := None |};
     drift := {| temp_offset_per_cycle_c := None;
                 vbat_offset_per_cycle_v := None |};
     burn_in := {| fail_p_multiplier_per_1k_cycles := None;
                   drift_multiplier_per_1k_cycles := None |};
     busy := {| min_interval_ms := None; b_p := None |} |}.

Definition empty_markov_cfg : MarkovCfg :=
  {| enabled := None; p_good_to_bad := None; p_bad_to_good := None;
     fail_p_bad_state := None; timeout_p_bad_state := None;
     timeout_delay_s := None |}.

(** The empty mapping [{}]. *)
Definition empty_profile : Profile :=
  {| prof_default := empty_cmd_cfg; prof_per_command := ∅;
     prof_intermittent_markov := empty_markov_cfg |}.

(** [d = dict(base); d.update(per)] on one key: the override wins when
    present. *)
Definition upd {A} (base per : option A) : option A :=
  match per with Some v => Some v | None => base end.

(** [_cfg_for]: the five sections of [default], each updated with the
    per-command section of [cmd]. *)
Definition _cfg_for (prof : Profile) (cmd : string) : CmdCfg :=
  let base := prof_default prof in
  let per := default empty_cmd_cfg (prof_per_command prof !! cmd) in
  {| timeout :=
       {| t_p := upd (t_p (timeout base)) (t_p (timeout per));
          t_mode := upd (t_mode (timeout base)) (t_mode (timeout per));
          t_delay_s := upd (t_delay_s (timeout base)) (t_delay_s (timeout per)) |};
     fail := {| f_p := upd (f_p (fail base)) (f_p (fail per)) |};
     drift :=
       {| temp_offset_per_cycle_c :=
            upd (temp_offset_per_cycle_c (drift base))
                (temp_offset_per_cycle_c (drift per));
          vbat_offset_per_cycle_v :=
            upd (vbat_offset_per_cycle_v (drift base))
                (vbat_offset_per_cycle_v (drift per)) |};
     burn_in :=
       {| fail_p_multiplier_per_1k_cycles :=
            upd (fail_p_multiplier_per_1k_cycles (burn_in base))
                (fail_p_multiplier_per_1k_cycles (burn_in per));
          drift_multiplier_per_1k_cycles :=
            upd (drift_multiplier_per_1k_cycles (burn_in base))
                (drift_multiplier_per_1k_cycles (burn_in per)) |};
     busy :=
       {| min_interval_ms :=
            upd (min_interval_ms (busy base)) (min_interval_ms (busy per));
          b_p := upd (b_p (busy base)) (b_p (busy per)) |} |}.

(** [burn_in_effect]: the dictionary
    [{"fail_multiplier": .., "drift_multiplier": ..}] as a pair. *)
Record BurnInEffect := { fail_multiplier : float; drift_multiplier : float }.

Definition burn_in_effect (prof : Profile) (cycles : Z) : BurnInEffect :=
  let b := burn_in (_cfg_for prof "READ_TEMP") in
  let k := (Z2float cycles / 1000)%float in
  let fail_mult :=
    (1 + default 0%float (fail_p_multiplier_per_1k_cycles b) * k)%float in
  let drift_mult :=
    (1 + default 0%float (drift_multiplier_per_1k_cycles b) * k)%float in
  {| fail_multiplier := py_max 0 fail_mult;
     drift_multiplier := py_max 0 drift_mult |}.

Definition apply_drift (prof : Profile) (cmd : string) (cycles : Z)
    (temp_offset_c vbat_offset_v : float) : float * float :=
  let cfg := drift (_cfg_for prof cmd) in
  let dtemp := default 0%float (temp_offset_per_cycle_c cfg) in
  let dv := default 0%float (vbat_offset_per_cycle_v cfg) in
  let mult := drift_multiplier (burn_in_effect prof cycles) in
  ((temp_offset_c + dtemp * mult)%float, (vbat_offset_v + dv * mult)%float).


Section Injector.
Context {G : Type} `{RandomGen G}.

(** [_ctx_for]: the context of [(sn, cmd)], created on first use. *)
Definition _ctx_for (sn cmd : string) (w : World G)
  : FaultContext * World G :=
  match w_ctx w !! (sn, cmd) with
  | Some c => (c, w)
  | None =>
      (FaultContext_new,
       set_ctx (<[(sn, cmd) := FaultContext_new]> (w_ctx w)) w)
  end.

(** Assignment to an attribute of the context object stored under
    [(sn, cmd)]. *)
Definition set_markov_state (sn cmd : string) (s : MarkovState)
    (w : World G) : World G :=
  set_ctx (alter (fun c => {| markov_state := s;
                              last_cmd_ts := last_cmd_ts c |})
                 (sn, cmd) (w_ctx w)) w.

Definition set_last_cmd_ts (sn cmd : string) (t : float)
    (w : World G) : World G :=
  set_ctx (alter (fun c => {| markov_state := markov_state c;
                              last_cmd_ts := t |})
                 (sn, cmd) (w_ctx w)) w.

Definition markov_enabled (prof : Profile) : bool :=
  default false (enabled (prof_intermittent_markov prof)).

Definition _markov_step (prof : Profile) (cmd sn : string) (w : World G)
  : MarkovState * World G :=
  let m := prof_intermittent_markov prof in
  if negb (markov_enabled prof) then (GOOD, w) else
  let '(ctx, w) := _ctx_for sn cmd w in
  let p_gb := default 0%float (p_good_to_bad m) in
  let p_bg := default 0%float (p_bad_to_good m) in
  let '(st, w) :=
    match markov_state ctx with
    | GOOD =>
        let '(r, w) := random w in
        if (r <? p_gb)%float
        then (BAD, set_markov_state sn cmd BAD w)
        else (GOOD, w)
    | BAD =>
        let '(r, w) := random w in
        if (r <? p_bg)%float
        then (GOOD, set_markov_state sn cmd GOOD w)
        else (BAD, w)
    end in
  (st, observe_markov st w).

Definition _markov_fail_add (prof : Profile) (cmd sn : string)
    (w : World G) : float * World G :=
  let m := prof_intermittent_markov prof in
  if negb (markov_enabled prof) then (0%float, w) else
  let '(st, w) := _markov_step prof cmd sn w in
  match st with
  | BAD => (default 0%float (fail_p_bad_state m), w)
  | GOOD => (0%float, w)
  end.

Definition _markov_timeout_add (prof : Profile) (cmd sn : string)
    (w : World G) : (float * option float) * World G :=
  let m := prof_intermittent_markov prof in
  if negb (markov_enabled prof) then ((0%float, None), w) else
  let '(st, w) := _markov_step prof cmd sn w in
  match st with
  | GOOD => ((0%float, None), w)
  | BAD =>
      let p := default 0%float (timeout_p_bad_state m) in
      let '(lo, hi) := default (0%float, 0%float) (timeout_delay_s m) in
      if (0 <? hi)%float
      then let '(d, w) := uniform lo hi w in ((p, Some d), w)
      else ((p, None), w)
  end.

Definition should_timeout (prof : Profile) (cmd sn : string) (cycles : Z)
    (w : World G) : TimeoutDecision * World G :=
  let cfg := timeout (_cfg_for prof cmd) in
  let p := default 0%float (t_p cfg) in
  let '((p_markov, delay_override), w) := _markov_timeout_add prof cmd sn w in
  let p_eff := py_min 1 (p + p_markov) in
  let mode := PyStr.lower (default "delay"%string (t_mode cfg)) in
  let '(lo, hi) := default (0%float, 0%float) (t_delay_s cfg) in
  let '(delay, w) :=
    if (0 <? hi)%float then uniform lo hi w else (0%float, w) in
  let delay := match delay_override with Some d => d | None => delay end in
  let '(r, w) := random w in
  ({| td_should := (r <? p_eff)%float; td_mode := mode;
      td_delay_s := delay |}, w).

Definition should_fail (prof : Profile) (cmd sn : string) (cycles : Z)
    (w : World G) : FailDecision * World G :=
  let cfg := fail (_cfg_for prof cmd) in
  let p := default 0%float (f_p cfg) in
  let p := (p * fail_multiplier (burn_in_effect prof cycles))%float in
  let '(add, w) := _markov_fail_add prof cmd sn w in
  let p := py_min 1 (p + add) in
  let '(r, w) := random w in
  if (r <? p)%float
  then ({| fd_should := true; fd_error_code := Protocol.E_INTERNAL;
           fd_message := "Simulated intermittent/internal fault" |}, w)
  else ({| fd_should := false; fd_error_code := "";
           fd_message := "" |}, w).

Definition rate_limited_message (min_interval : Z) : string :=
  "Rate-limited: min_interval_ms=" +:+ pretty min_interval.

Definition should_busy (prof : Profile) (cmd sn : string) (w : World G)
  : BusyDecision * World G :=
  let cfg := busy (_cfg_for prof cmd) in
  let min_interval := default 0%Z (min_interval_ms cfg) in
  let p := default 0%float (b_p cfg) in
  let '(ctx, w) := _ctx_for sn cmd w in
  let '(now, w) := time_time w in
  if (0 <? min_interval)%Z
     && ((now - last_cmd_ts ctx) * 1000 <? Z2float min_interval)%float
  then ({| bd_should := true; bd_error_code := Protocol.E_BUSY;
           bd_message := rate_limited_message min_interval |}, w)
  else
    let none := {| bd_should := false; bd_error_code := "";
                   bd_message := "" |} in
    if (0 <? p)%float then
      let '(r, w) := random w in
      if (r <? p)%float
      then ({| bd_should := true; bd_error_code := Protocol.E_BUSY;
               bd_message := "Simulated resource contention (BUSY)" |}, w)
      else (none, w)
    else (none, w).

(** The dictionary [evaluate] returns, by its ["action"]. *)
Inductive Action :=
| RESPOND (error_code message : string)
| DROP (delay_s : float)
| DELAY (delay_s : float)
| PASS.

Definition evaluate (prof : Profile) (cmd sn : string) (cycles : Z)
    (w : World G) : Action * World G :=
  let '(_, w) := _ctx_for sn cmd w in
  let '(now, w) := time_time w in
  let w := set_last_cmd_ts sn cmd now w in
  let '(busy, w) := should_busy prof cmd sn w in
  if bd_should busy
  then (RESPOND (bd_error_code busy) (bd_message busy), w) else
  let '(fail, w) := should_fail prof cmd sn cycles w in
  if fd_should fail
  then (RESPOND (fd_error_code fail) (fd_message fail), w) else
  let '(to, w) := should_timeout prof cmd sn cycles w in
  if td_should to then
    if String.eqb (td_mode to) "drop"
    then (DROP (td_delay_s to), w)
    else (DELAY (td_delay_s to), w)
  else (PASS, w).

End Injector.

End FaultInjection.

(** ** dut/device_model.py *)

Module DeviceModel.

(** The [device_defaults] mapping of the DUT configuration; [None] is an
    absent key. *)
Record Defaults := {
  d_fw : option string;
  d_mode : option string;
  d_temp_c : option float;
  d_vbat_v : option float;
  d_temp_noise_sigma : option float;
  d_vbat_noise_sigma : option float;
  d_temp_drift_per_cycle_c : option float;
  d_vbat_drift_per_cycle_v : option float;
  d_self_test_fail_p_base : option float;
  d_burn_in_fail_slope : option float
}.

Definition empty_defaults : Defaults :=
  {| d_fw := None; d_mode := None; d_temp_c := None; d_vbat_v := None;
     d_temp_noise_sigma := None; d_vbat_noise_sigma := None;
     d_temp_drift_per_cycle_c := None; d_vbat_drift_per_cycle_v := None;
     d_self_test_fail_p_base := None; d_burn_in_fail_slope := None |}.

Definition new_device (defaults : Defaults) (sn : string) (now : float)
  : DeviceState :=
  let m := PyStr.upper (default "NORMAL"%string (d_mode defaults)) in
  {| sn := sn;
     fw := default "1.0.0"%string (d_fw defaults);
     mode := if String.eqb m "NORMAL" || String.eqb m "SAFE"
             then m else "NORMAL"%string;
     temp_c := default 25%float (d_temp_c defaults);
     vbat_v := default 12%float (d_vbat_v defaults);
     temp_noise_sigma := default 0.05%float (d_temp_noise_sigma defaults);
     vbat_noise_sigma := default 0.02%float (d_vbat_noise_sigma defaults);
     temp_drift_per_cycle_c :=
       default 0%float (d_temp_drift_per_cycle_c defaults);
     vbat_drift_per_cycle_v :=
       default 0%float (d_vbat_drift_per_cycle_v defaults);
     drift_offset_c := 0;
     drift_offset_v := 0;
     self_test_fail_p_base :=
       default 0.01%float (d_self_test_fail_p_base defaults);
     burn_in_fail_slope :=
       default 0.00005%float (d_burn_in_fail_slope defaults);
     cycles := 0;
     last_update_s := now |}.

(** The random-walk scales of [_update_signals]. *)
Definition wander_scale (mode : string) : float :=
  if String.eqb mode "NORMAL" then 0.01%float else 0.005%float.

Definition v_wander_scale (mode : string) : float :=
  if String.eqb mode "NORMAL" then 0.005%float else 0.003%float.

(** [_update_signals] on the device record: [now] is the clock read, [r1]
    and [r2] the two draws of the generator, in that order. *)
Definition update_signals_pure (d : DeviceState) (now r1 r2 : float)
  : DeviceState :=
  let dt := py_max 0 (now - last_update_s d) in
  let t := (temp_c d + wander_scale (mode d) * dt * (r1 - 0.5))%float in
  let v := (vbat_v d + v_wander_scale (mode d) * dt * (r2 - 0.5))%float in
  {| sn := sn d; fw := fw d; mode := mode d;
     temp_c := py_min (py_max t (-40)%float) 125;
     vbat_v := py_min (py_max v 9) 16;
     temp_noise_sigma := temp_noise_sigma d;
     vbat_noise_sigma := vbat_noise_sigma d;
     temp_drift_per_cycle_c := temp_drift_per_cycle_c d;
     vbat_drift_per_cycle_v := vbat_drift_per_cycle_v d;
     drift_offset_c := drift_offset_c d;
     drift_offset_v := drift_offset_v d;
     self_test_fail_p_base := self_test_fail_p_base d;
     burn_in_fail_slope := burn_in_fail_slope d;
     cycles := cycles d;
     last_update_s := now |}.

Definition _apply_burn_in (d : DeviceState) : DeviceState :=
  {| sn := sn d; fw := fw d; mode := mode d;
     temp_c := (temp_c d + temp_drift_per_cycle_c d)%float;
     vbat_v := (vbat_v d + vbat_drift_per_cycle_v d)%float;
     temp_noise_sigma := temp_noise_sigma d;
     vbat_noise_sigma := vbat_noise_sigma d;
     temp_drift_per_cycle_c := temp_drift_per_cycle_c d;
     vbat_drift_per_cycle_v := vbat_drift_per_cycle_v d;
     drift_offset_c := drift_offset_c d;
     drift_offset_v := drift_offset_v d;
     self_test_fail_p_base := self_test_fail_p_base d;
     burn_in_fail_slope := burn_in_fail_slope d;
     cycles := cycles d + 1;
     last_update_s := last_update_s d |}.

Definition with_temp_c (d : DeviceState) (t : float) : DeviceState :=
  {| sn := sn d; fw := fw d; mode := mode d;
     temp_c := t;
     vbat_v := vbat_v d;
     temp_noise_sigma := temp_noise_sigma d;
     vbat_noise_sigma := vbat_noise_sigma d;
     temp_drift_per_cycle_c := temp_drift_per_cycle_c d;
     vbat_drift_per_cycle_v := vbat_drift_per_cycle_v d;
     drift_offset_c := drift_offset_c d;
     drift_offset_v := drift_offset_v d;
     self_test_fail_p_base := self_test_fail_p_base d;
     burn_in_fail_slope := burn_in_fail_slope d;
     cycles := cycles d;
     last_update_s := last_update_s d |}.

Definition with_drift_offsets (d : DeviceState) (oc ov : float)
  : DeviceState :=
  {| sn := sn d; fw := fw d; mode := mode d;
     temp_c := temp_c d;
     vbat_v := vbat_v d;
     temp_noise_sigma := temp_noise_sigma d;
     vbat_noise_sigma := vbat_noise_sigma d;
     temp_drift_per_cycle_c := temp_drift_per_cycle_c d;
     vbat_drift_per_cycle_v := vbat_drift_per_cycle_v d;
     drift_offset_c := oc;
     drift_offset_v := ov;
     self_test_fail_p_base := self_test_fail_p_base d;
     burn_in_fail_slope := burn_in_fail_slope d;
     cycles := cycles d;
     last_update_s := last_update_s d |}.

(** [d.sn] *)
Definition sn_of (d : DeviceState) : string := sn d.

Section Model.
Context {G : Type} `{RandomGen G} `{PyBuiltins}.

(** [get_or_create]: device objects live in [_devices] and are mutated
    in place; the model returns the current record and writes changed
    records back under the same key. *)
Definition get_or_create (defaults : Defaults) (sn : string)
    (w : World G) : DeviceState * World G :=
  match w_devices w !! sn with
  | Some d => (d, w)
  | None =>
      let '(now, w) := time_time w in
      let d := new_device defaults sn now in
      (d, set_devices (<[sn := d]> (w_devices w)) w)
  end.

(** Writing back the record of the device object held under [key]. *)
Definition store (key : string) (d : DeviceState) (w : World G) : World G :=
  set_devices (<[key := d]> (w_devices w)) w.

(** [_update_signals(d)], [d] being the object held under [key]. *)
Definition _update_signals (key : string) (d : DeviceState) (w : World G)
  : DeviceState * World G :=
  let '(now, w) := time_time w in
  let '(r1, w) := random w in
  let '(r2, w) := random w in
  let d := update_signals_pure d now r1 r2 in
  (d, store key d w).

Definition ping (defaults : Defaults) (sn : string) (w : World G)
  : jobject * World G :=
  let '(d, w) := get_or_create defaults sn w in
  let '(d, w) := _update_signals sn d w in
  ([("sn"%string, JStr (sn_of d));
    ("fw"%string, JStr (fw d));
    ("mode"%string, JStr (mode d));
    ("vbat_v"%string, JFloat (py_round (vbat_v d + drift_offset_v d) 4))],
   w).

Definition read_temp (defaults : Defaults) (sn : string) (w : World G)
  : jobject * World G :=
  let '(d, w) := get_or_create defaults sn w in
  let d := _apply_burn_in d in
  let w := store sn d w in
  let '(d, w) := _update_signals sn d w in
  let temp_true := (temp_c d + drift_offset_c d)%float in
  let vbat_true := (vbat_v d + drift_offset_v d)%float in
  let '(n1, w) := gauss 0 (temp_noise_sigma d) w in
  let temp_meas := (temp_true + n1)%float in
  let '(n2, w) := gauss 0 (vbat_noise_sigma d) w in
  let vbat_meas := (vbat_true + n2)%float in
  ([("sn"%string, JStr (sn_of d));
    ("temp_c"%string, JFloat (py_round temp_meas 4));
    ("vbat_v"%string, JFloat (py_round vbat_meas 4));
    ("cycles"%string, JInt (cycles d))],
   w).

Definition self_test (defaults : Defaults) (sn : string) (w : World G)
  : jobject * World G :=
  let '(d, w) := get_or_create defaults sn w in
  let d := _apply_burn_in d in
  let w := store sn d w in
  let '(d, w) := _update_signals sn d w in
  let p_fail :=
    (self_test_fail_p_base d + burn_in_fail_slope d * Z2float (cycles d))%float in
  let p_fail :=
    if String.eqb (mode d) "SAFE" then (p_fail * 0.7)%float else p_fail in
  let '(r, w) := random w in
  let failed := (r <? p_fail)%float in
  ([("sn"%string, JStr (sn_of d));
    ("self_test_ok"%string, JBool (negb failed));
    ("p_fail"%string, JFloat (py_round p_fail 6));
    ("cycles"%string, JInt (cycles d))],
   w).

Definition set_temp (defaults : Defaults) (sn : string) (t : float)
    (w : World G) : jobject * World G :=
  let '(d, w) := get_or_create defaults sn w in
  let d := with_temp_c d t in
  let w := store sn d w in
  ([("sn"%string, JStr (sn_of d));
    ("temp_c"%string, JFloat (py_round (temp_c d) 4))],
   w).

End Model.

End DeviceModel.

(** ** dut/server.py *)

Module Server.
Import Protocol FaultInjection DeviceModel.

(** The DUT configuration document.  A profile name bound to an empty
    mapping is falsy in Python and is treated by the [or] chains below as
    unbound, so [fault_profiles] holds the non-empty bindings. *)
Record DutConfig := {
  determinism_seed : option Z;
  default_fault_profile : option string;
  fault_profiles : gmap string Profile;
  device_defaults : Defaults
}.

(** [DutServer]: the configuration, the profile held by [self.faults] and
    the state shared by [self.faults] and [self.device] (one generator). *)
Record DutServer (G : Type) := {
  _cfg : DutConfig;
  faults_profile : Profile;
  world : World G
}.
Arguments _cfg {G}. Arguments faults_profile {G}. Arguments world {G}.

(** [int((cfg.get("determinism") or {}).get("seed") or 0) or None] *)
Definition seed_of (cfg : DutConfig) : option Z :=
  match determinism_seed cfg with
  | Some 0%Z => None
  | Some n => Some n
  | None => None
  end.

(** [fault_profiles.get(name) or fault_profiles.get("clean") or {}] *)
Definition resolve_profile (cfg : DutConfig) (name : string) : Profile :=
  match fault_profiles cfg !! name with
  | Some p => p
  | None => default empty_profile (fault_profiles cfg !! "clean"%string)
  end.

Section Srv.
Context {G : Type} `{RandomGen G} `{PyBuiltins}.

(** [DutServer.__init__], after the configuration is loaded.
    [env_profile] is the environment variable [MTAP_FAULT_PROFILE],
    [entropy] what an unseeded generator draws from the operating
    system, [clock] the wall clock of this run. *)
Definition init (cfg : DutConfig) (env_profile : option string)
    (entropy : Z) (clock : nat -> float) : DutServer G :=
  let prof_name :=
    match env_profile with
    | Some n => n
    | None => default "clean"%string (default_fault_profile cfg)
    end in
  {| _cfg := cfg;
     faults_profile := resolve_profile cfg prof_name;
     world := {| w_rng := rg_seed (seed_of cfg) entropy;
                 w_clock := clock; w_reads := 0;
                 w_devices := ∅; w_ctx := ∅; w_markov_obs := [] |} |}.

Definition _set_profile (name : string) (s : DutServer G) : DutServer G :=
  {| _cfg := _cfg s;
     faults_profile := resolve_profile (_cfg s) name;
     world := world s |}.

Definition with_world (s : DutServer G) (w : World G) : DutServer G :=
  {| _cfg := _cfg s; faults_profile := faults_profile s; world := w |}.

Definition respond_error (code msg cmd : string) : Response :=
  {| ok := false; error_code := Some code; message := msg; data := [];
     meta := Some [("cmd"%string, JStr cmd)] |}.

(** What [_dispatch] does once the injector has decided: [run_op] is the
    device-model call of the command.  [DELAY] and [DROP] sleep first;
    sleeping only lets wall-clock time pass, which the clock oracle
    accounts for. *)
Definition after_decision (cmd : string) (decision : Action)
    (run_op : World G -> jobject * World G) (w : World G)
  : option Response * World G :=
  match decision with
  | DROP _ => (None, w)
  | RESPOND code msg => (Some (respond_error code msg cmd), w)
  | DELAY _ | PASS =>
      let '(d, w) := run_op w in (Some (mk_ok d cmd), w)
  end.

(** [_dispatch] on a decoded request line.  [None] is the silent close
    of a [DROP]. *)
Definition _dispatch (line : string) (s : DutServer G)
  : option Response * DutServer G :=
  let '(cmd, args) := parse_command line in
  let defaults := device_defaults (_cfg s) in
  let prof := faults_profile s in
  if String.eqb cmd "" then
    (Some (err E_BAD_ARGS "Empty command" "(empty)"), s)
  else if String.eqb cmd "SET_FAULT_PROFILE" then
    match args with
    | [name] =>
        (Some (mk_ok [("profile"%string, JStr name)] cmd),
         _set_profile name s)
    | _ =>
        (Some (err E_BAD_ARGS
                 "SET_FAULT_PROFILE requires 1 argument: <profile>" cmd), s)
    end
  else if String.eqb cmd "SET_TEMP" then
    match args with
    | [sn; targ] =>
        match float_of_string targ with
        | None => (Some (err E_BAD_ARGS "temp_c must be a float" cmd), s)
        | Some t =>
            if (t <? (-40)%float)%float || (125 <? t)%float then
              (Some (err E_OUT_OF_RANGE
                       "temp_c out of range [-40.0, 125.0]" cmd), s)
            else
              let '(d, w) := get_or_create defaults sn (world s) in
              let '(decision, w) := evaluate prof cmd sn (cycles d) w in
              let '(r, w) :=
                after_decision cmd decision (set_temp defaults sn t) w in
              (r, with_world s w)
        end
    | _ =>
        (Some (err E_BAD_ARGS
                 "SET_TEMP requires 2 arguments: <sn> <temp_c>" cmd), s)
    end
  else if String.eqb cmd "PING" || String.eqb cmd "READ_TEMP"
          || String.eqb cmd "SELF_TEST" then
    match args with
    | [sn] =>
        let '(d, w) := get_or_create defaults sn (world s) in
        let '(oc, ov) :=
          apply_drift prof cmd (cycles d)
                      (drift_offset_c d) (drift_offset_v d) in
        let d := with_drift_offsets d oc ov in
        let w := store sn d w in
        let '(decision, w) := evaluate prof cmd sn (cycles d) w in
        let op :=
          if String.eqb cmd "PING" then ping defaults sn
          else if String.eqb cmd "READ_TEMP" then read_temp defaults sn
          else self_test defaults sn in
        let '(r, w) := after_decision cmd decision op w in
        (r, with_world s w)
    | _ =>
        (Some (err E_BAD_ARGS (cmd +:+ " requires 1 argument: <sn>") cmd),
         s)
    end
  else
    (Some (err E_UNKNOWN_CMD ("Unknown command: " +:+ cmd) cmd), s).

(** [_handle] on the complete lines one connection delivers: blank lines
    are skipped, each other line is dispatched and answered, and a
    [DROP] ends the connection.  Returns the responses written. *)
Fixpoint _handle (lines : list string) (s : DutServer G)
  : list Response * DutServer G :=
  match lines with
  | [] => ([], s)
  | line :: rest =>
      match PyStr.split line with
      | [] => _handle rest s
      | _ =>
          match _dispatch line s with
          | (None, s) => ([], s)
          | (Some r, s) =>
              let '(rs, s) := _handle rest s in (r :: rs, s)
          end
      end
  end.

(** A run of the server: connections served one after the other in their
    arrival order. *)
Fixpoint serve (conns : list (list string)) (s : DutServer G)
  : list (list Response) * DutServer G :=
  match conns with
  | [] => ([], s)
  | c :: rest =>
      let '(rs, s) := _handle c s in
      let '(rss, s) := serve rest s in
      (rs :: rss, s)
  end.

End Srv.

End Server.

(** ** Exceptions *)

(** The result of code that may raise: [Raise] carries the exception class
    and what its message is built from. *)
Inductive result (A : Type) : Type :=
| Ok (a : A)
| Raise (exn : string) (detail : list string).
Arguments Ok {A}. Arguments Raise {A}.

(** [sorted(xs)] on strings: insertion into an ascending list, comparing
    code points. *)
Fixpoint insert_sorted (x : string) (l : list string) : list string :=
  match l with
  | [] => [x]
  | y :: l' => if String.leb x y then x :: l else y :: insert_sorted x l'
  end.

Definition sorted (l : list string) : list string :=
  foldr insert_sorted [] l.

(** ** Python value conversions used by the runner and the analytics *)

Section Conversions.
Context `{PyBuiltins}.

(** [float(v)]; [None] when the call raises ([TypeError] on [None], lists
    and dicts, [ValueError] on a string that is not a number). *)
Definition py_float (v : jvalue) : option float :=
  match v with
  | JFloat x => Some x
  | JInt n => Some (Z2float n)
  | JBool b => Some (if b then 1%float else 0%float)
  | JStr s => float_of_string s
  | JNull | JList _ | JDict _ => None
  end.

End Conversions.

(** The integer a float is exactly equal to, if any. *)
Definition float_exact_Z (x : float) : option Z :=
  match Prim2SF x with
  | S754_zero _ => Some 0%Z
  | S754_finite s m e =>
      let sign (z : Z) := if s then (- z)%Z else z in
      if (0 <=? e)%Z then Some (sign (Z.pos m * 2 ^ e)%Z)
      else if (Z.pos m mod 2 ^ (- e) =? 0)%Z
           then Some (sign (Z.pos m / 2 ^ (- e))%Z)
           else None
  | _ => None
  end.

(** [a == b] on JSON values: numbers (with [True] as 1 and [False] as 0)
    compare by value, strings and lists by content, dictionaries by their
    bindings whatever the order, [None] equals only [None]. *)
Fixpoint py_eq (a b : jvalue) : bool :=
  let num_eq (n : Z) (b : jvalue) :=
    match b with
    | JInt m => (n =? m)%Z
    | JBool c => (n =? (if c then 1 else 0))%Z
    | JFloat y => match float_exact_Z y with
                  | Some m => (n =? m)%Z
                  | None => false
                  end
    | _ => false
    end in
  match a with
  | JNull => match b with JNull => true | _ => false end
  | JStr s => match b with JStr t => String.eqb s t | _ => false end
  | JInt n => num_eq n b
  | JBool c => num_eq (if c then 1%Z else 0%Z) b
  | JFloat x =>
      match b with
      | JFloat y => (x =? y)%float
      | JInt m => match float_exact_Z x with
                  | Some n => (n =? m)%Z
                  | None => false
                  end
      | JBool c => match float_exact_Z x with
                   | Some n => (n =? (if c then 1 else 0))%Z
                   | None => false
                   end
      | _ => false
      end
  | JList l =>
      match b with
      | JList m =>
          (fix go (l m : list jvalue) : bool :=
             match l, m with
             | [], [] => true
             | x :: l', y :: m' => py_eq x y && go l' m'
             | _, _ => false
             end) l m
      | _ => false
      end
  | JDict d =>
      match b with
      | JDict e =>
          (length d =? length e)%nat
          && (fix go (d : list (string * jvalue)) : bool :=
                match d with
                | [] => true
                | (k, v) :: d' =>
                    match jget e k with
                    | Some v' => py_eq v v' && go d'
                    | None => false
                    end
                end) d
      | _ => false
      end
  end.

(** [d.get(k)]: a missing key and a key bound to JSON [null] both give
    Python's [None]. *)
Definition py_get (d : jobject) (k : string) : option jvalue :=
  match jget d k with
  | Some JNull | None => None
  | Some v => Some v
  end.

(** ** runner/plan_schema.py, runner/plan_loader.py *)

Module Plan.

(** [Limits] after validation, then [LimitsSpec]: [min] and [max] are floats
    when present. *)
Record LimitsSpec := {
  lim_field : string;
  lim_min : option float;
  lim_max : option float;
  lim_equals : option jvalue;
  lim_units : option string
}.

(** A validated [Step] of the plan document. *)
Record Step := {
  s_id : string;
  s_name : string;
  s_cmd : string;
  s_params : jobject;
  s_limits : option LimitsSpec;
  s_retries : Z;
  s_backoff_ms : Z;
  s_timeout_s : float;
  s_req_ids : list string;
  s_stages : list string
}.

Record Station := {
  station_name : string;
  station_stage : string;
  station_fw_expected : string
}.

(** A validated [TestPlan]. *)
Record TestPlan := {
  tp_station : Station;
  tp_sn_count : Z;
  tp_steps : list Step
}.

Record StepSpec := {
  id : string;
  name : string;
  cmd : string;
  params : jobject;
  retries : Z;
  backoff_ms : Z;
  timeout_s : float;
  limits : option LimitsSpec;
  req_ids : list string
}.

Record Plan := {
  station : Station;
  sn_count : Z;
  steps : list StepSpec
}.

Definition Stage_args : list string := ["EVT"; "DVT"; "PVT"; "MP"]%string.

Definition mem_string (x : string) (l : list string) : bool :=
  existsb (String.eqb x) l.

(** [load_plan_raw] and the first half of [load_plan]: [doc] is what YAML
    loading and schema validation of the plan file give. *)
Definition load_plan_raw (doc : result TestPlan) : result TestPlan := doc.

Definition to_step_spec (s : Step) : StepSpec :=
  {| id := s_id s; name := s_name s; cmd := s_cmd s; params := s_params s;
     retries := s_retries s; backoff_ms := s_backoff_ms s;
     timeout_s := s_timeout_s s;
     limits :=
       match s_limits s with
       | Some l => Some {| lim_field := lim_field l; lim_min := lim_min l;
                           lim_max := lim_max l; lim_equals := lim_equals l;
                           lim_units := None |}
       | None => None
       end;
     req_ids := s_req_ids s |}.

(** [load_plan(plan_path, stage=stage)] *)
Definition load_plan (doc : result TestPlan) (stage : option string)
  : result Plan :=
  match doc with
  | Raise e d => Raise e d
  | Ok parsed =>
      let gate (effective : string) :=
        Ok {| station := {| station_name := station_name (tp_station parsed);
                            station_stage := effective;
                            station_fw_expected :=
                              station_fw_expected (tp_station parsed) |};
              sn_count := tp_sn_count parsed;
              steps := map to_step_spec
                         (filter (fun s => mem_string effective (s_stages s) = true)
                                 (tp_steps parsed)) |} in
      match stage with
      | None => gate (station_stage (tp_station parsed))
      | Some st =>
          match PyStr.split st with
          | [] => gate (station_stage (tp_station parsed))
          | _ => if mem_string st Stage_args then gate st
                 else Raise "ValueError" ["Invalid stage"; st]
          end
      end
  end.

End Plan.

(** ** traceability/coverage.py *)

Module Coverage.

(** One entry of the requirements registry. *)
Record ReqInfo := { title : option string }.

(** The registry [{REQ-XXX: {title: ...}}]. *)
Abbreviation Registry := (gmap string ReqInfo).

(** [covered.update(rids)] over all steps *)
Definition covered_by (step_pairs : list (string * list string)) : gset string :=
  foldl (fun acc p => acc ∪ list_to_set (snd p)) ∅ step_pairs.

Definition validate_coverage (requirements : Registry)
    (step_pairs : list (string * list string)) : result unit :=
  let req_ids : gset string := dom requirements in
  let covered := covered_by step_pairs in
  let missing := sorted (elements (req_ids ∖ covered)) in
  match missing with
  | _ :: _ => Raise "ValueError" ("Uncovered requirements" :: missing)
  | [] =>
      let referenced := sorted (elements (covered ∖ req_ids)) in
      match referenced with
      | _ :: _ =>
          Raise "ValueError"
                ("Plan references unknown requirements" :: referenced)
      | [] => Ok tt
      end
  end.

(** The two violations of the traceability gate, on (step id, req ids)
    pairs: a requirement of the registry that no step references, and a
    requirement id referenced by a step that the registry does not have. *)
Definition uncovered_requirement (requirements : Registry)
    (step_pairs : list (string * list string)) : Prop :=
  exists rid, rid ∈ dom requirements
              /\ forall p, p ∈ step_pairs -> rid ∉ snd p.

Definition unknown_reference (requirements : Registry)
    (step_pairs : list (string * list string)) : Prop :=
  exists p rid, p ∈ step_pairs /\ rid ∈ snd p /\ rid ∉ dom requirements.

(** [req_to_steps.setdefault(rid, []).append(step_id)] *)
Definition add_step (step_id : string) (m : gmap string (list string))
    (rid : string) : gmap string (list string) :=
  <[rid := default [] (m !! rid) ++ [step_id]]> m.

(** [",".join(xs)] *)
Fixpoint join_comma (xs : list string) : string :=
  match xs with
  | [] => ""
  | [x] => x
  | x :: rest => x +:+ "," +:+ join_comma rest
  end.

Definition generate_coverage_matrix (requirements : Registry)
    (steps : list (string * list string)) : list (list string) :=
  let init : gmap string (list string) := (fun _ => []) <$> requirements in
  let req_to_steps :=
    foldl (fun m p => foldl (add_step (fst p)) m (snd p)) init steps in
  map (fun rid =>
         let mapped := default [] (req_to_steps !! rid) in
         [rid;
          default ""%string (requirements !! rid ≫= title);
          match mapped with [] => "N" | _ => "Y" end;
          join_comma mapped]%string)
      (sorted (elements (dom requirements))).

Definition coverage_header : list string :=
  ["req_id"; "title"; "covered"; "mapped_steps"]%string.

End Coverage.

(** ** reporting/logger.py *)

Module Logger.

Definition LOG_SCHEMA_VERSION : Z := 1.

Definition CSV_COLUMNS : list string :=
  ["schema_version"; "timestamp"; "run_id"; "batch_id"; "station_id";
   "stage"; "sn"; "fw_version"; "test_step"; "command"; "attempt";
   "retry_count"; "retries_allowed"; "timeout_s"; "backoff_ms";
   "duration_ms"; "passed"; "error_code"; "measurement"; "value"; "units";
   "message"]%string.

Record StepEvent := {
  schema_version : Z;
  timestamp : string;
  run_id : string;
  batch_id : string;
  station_id : string;
  stage : string;
  ev_sn : string;
  fw_version : string;
  test_step : string;
  command : string;
  attempt : Z;
  retry_count : Z;
  retries_allowed : Z;
  ev_timeout_s : float;
  ev_backoff_ms : Z;
  duration_ms : Z;
  passed : bool;
  ev_error_code : option string;
  measurement : option string;
  value : option jvalue;
  units : option string;
  ev_message : string;
  ev_data : jobject
}.

(** [StepEvent.make]; [now_iso] is the value of [_utc_now_iso()]. *)
Definition make (now_iso run_id batch_id station_id stage sn fw_version
    test_step command : string) (attempt retries_allowed : Z)
    (timeout_s : float) (backoff_ms duration_ms : Z) (passed : bool)
    (error_code measurement : option string) (value : option jvalue)
    (units : option string) (message : string) (data : jobject)
  : StepEvent :=
  {| schema_version := LOG_SCHEMA_VERSION;
     timestamp := now_iso;
     run_id := run_id; batch_id := batch_id; station_id := station_id;
     stage := stage; ev_sn := sn; fw_version := fw_version;
     test_step := test_step; command := command;
     attempt := attempt;
     retry_count := Z.max 0 (attempt - 1);
     retries_allowed := retries_allowed;
     ev_timeout_s := timeout_s;
     ev_backoff_ms := backoff_ms;
     duration_ms := duration_ms;
     passed := passed;
     ev_error_code := error_code;
     measurement := measurement;
     value := value;
     units := units;
     ev_message := message;
     ev_data := data |}.

End Logger.

(** ** runner/client.py, runner/runner.py *)

Module Runner.
Import Plan Logger.

Record ClientResult := {
  ok : bool;
  error_code : option string;
  message : string;
  data : jobject;
  raw : jobject
}.

(** What the runner's process can see of its surroundings: the answer of
    the DUT endpoint to the [n]-th call (a line sent with a timeout), the
    wall-clock duration of that call in ms, and the timestamp taken for the
    [n]-th event. *)
Record Env := {
  env_call : nat -> string -> float -> ClientResult;
  env_duration_ms : nat -> Z;
  env_now_iso : nat -> string
}.

(** What the runner's process writes and sends: the lines sent to the DUT,
    the events logged (one JSONL line and one CSV row each), the CSV files
    of the run directory by path, and the client's current timeout. *)
Record RunnerWorld := {
  rw_calls : list string;
  rw_events : list StepEvent;
  rw_files : gmap string (list (list string));
  rw_client_timeout : float
}.

Record StepAttemptResult := {
  ar_passed : bool;
  ar_error_code : option string;
  ar_message : string;
  ar_data : jobject;
  ar_duration_ms : Z
}.

Record SnSummary := {
  ss_sn : string;
  ss_fw_version : string;
  ss_passed : bool;
  ss_failures : list (string * StepAttemptResult)
}.

Record RunSummary := {
  sum_run_id : string;
  overall_passed : bool;
  per_sn : list (string * SnSummary)
}.

(** The attributes of [TestRunner] that the run reads. *)
Record TestRunner := {
  run_dir : string;
  tr_batch_id : string;
  tr_station_id : string;
  tr_stage : string;
  plan : Plan
}.

(** [" ".join([cmd, *args]).strip()] for one argument, then the call. *)
Definition client_call (env : Env) (cmd arg : string) (w : RunnerWorld)
  : ClientResult * Z * RunnerWorld :=
  let line := cmd +:+ " " +:+ arg in
  let n := length (rw_calls w) in
  (env_call env n line (rw_client_timeout w), env_duration_ms env n,
   {| rw_calls := rw_calls w ++ [line]; rw_events := rw_events w;
      rw_files := rw_files w; rw_client_timeout := rw_client_timeout w |}).

(** [RunLogger.log] *)
Definition log (ev : StepEvent) (w : RunnerWorld) : RunnerWorld :=
  {| rw_calls := rw_calls w; rw_events := rw_events w ++ [ev];
     rw_files := rw_files w; rw_client_timeout := rw_client_timeout w |}.

Definition set_client_timeout (t : float) (w : RunnerWorld) : RunnerWorld :=
  {| rw_calls := rw_calls w; rw_events := rw_events w;
     rw_files := rw_files w; rw_client_timeout := t |}.

(** [write_csv(path, rows)] and the header written by [RunLogger.__init__] *)
Definition write_file (path : string) (rows : list (list string))
    (w : RunnerWorld) : RunnerWorld :=
  {| rw_calls := rw_calls w; rw_events := rw_events w;
     rw_files := <[path := rows]> (rw_files w);
     rw_client_timeout := rw_client_timeout w |}.

(** What the data model asks of an event emitted for [step]: it names the
    step, carries the step's configured retries, counts retries as
    [attempt - 1] and numbers attempts from 1 to [retries + 1]. *)
Definition emitted_for (step : StepSpec) (ev : StepEvent) : Prop :=
  test_step ev = id step
  /\ retries_allowed ev = retries step
  /\ retry_count ev = (attempt ev - 1)%Z
  /\ (1 <= attempt ev <= retries_allowed ev + 1)%Z.



Section Run.
Context `{PyBuiltins}.


(** [_evaluate_limits]: [(passed, error_code, measurement, value, units)],
    or the exception of a [float(value)] that fails. *)
Definition _evaluate_limits (step : StepSpec) (data : jobject)
  : result (bool * option string * option string * option jvalue
            * option string) :=
  match limits step with
  | None => Ok (true, None, None, None, None)
  | Some limits =>
      let field := lim_field limits in
      let measurement := Some field in
      let value := py_get data field in
      let units := lim_units limits in
      let verdict (passed : bool) :=
        Ok (passed, if passed then None else Some "LIMIT_FAIL"%string,
            measurement, value, units) in
      match lim_equals limits with
      | Some x =>
          verdict (match value with Some v => py_eq v x | None => false end)
      | None =>
          match value with
          | None => verdict true
          | Some v =>
              match lim_min limits, lim_max limits with
              | None, None => verdict true
              | _, _ =>
                  match py_float v with
                  | None => Raise "ValueError" ["float"; field]
                  | Some x =>
                      let ok_min := match lim_min limits with
                                    | Some mn => (mn <=? x)%float
                                    | None => true
                                    end in
                      let ok_max := match lim_max limits with
                                    | Some mx => (x <=? mx)%float
                                    | None => true
                                    end in
                      verdict (ok_min && ok_max)
                  end
              end
          end
      end
  end.

(** [error_code or "UNKNOWN"] *)
Definition or_unknown (ec : option string) : string :=
  match ec with
  | Some "" | None => "UNKNOWN"
  | Some c => c
  end.

Definition opt_str (o : option string) : jvalue :=
  match o with Some s => JStr s | None => JNull end.

(** One iteration of the loop of [run_step]: the call, the limit check, the
    event.  Returns the attempt's result; the event is logged in the
    world. *)
Definition run_attempt (env : Env) (self : TestRunner)
    (run_id sn fw_version : string) (step : StepSpec) (timeout_s : float)
    (attempt : Z) (w : RunnerWorld) : result StepAttemptResult * RunnerWorld :=
  let retries_allowed := retries step in
  let req_ids := JList (map JStr (req_ids step)) in
  let '(res, dt_ms, w) := client_call env (cmd step) sn w in
  let data := jset (data res) "req_ids" req_ids in
  let checked :=
    if ok res then
      match _evaluate_limits step data with
      | Raise e d => Raise e d
      | Ok (lim_ok, lim_ec, meas, val, units) =>
          if lim_ok then Ok (true, error_code res, meas, val, units)
          else Ok (false, lim_ec, meas, val, units)
      end
    else Ok (false, error_code res, None, None, None) in
  match checked with
  | Raise e d => (Raise e d, w)
  | Ok (passed, error_code, meas, val, units) =>
      let will_retry := negb passed && (attempt <=? retries_allowed)%Z in
      let retry_reason :=
        if will_retry then JStr (or_unknown error_code) else JNull in
      let ev :=
        make (env_now_iso env (length (rw_events w))) run_id
             (tr_batch_id self) (tr_station_id self) (tr_stage self)
             sn fw_version (id step) (cmd step) attempt retries_allowed
             timeout_s (backoff_ms step) dt_ms passed error_code meas val
             units (message res)
             [("step_name"%string, JStr (name step));
              ("req_ids"%string, req_ids);
              ("will_retry"%string, JBool will_retry);
              ("retry_reason"%string, retry_reason);
              ("raw"%string, JDict (raw res))] in
      (Ok {| ar_passed := passed; ar_error_code := error_code;
             ar_message := message res; ar_data := data;
             ar_duration_ms := dt_ms |},
       log ev w)
  end.

(** [range(1, retries_allowed + 2)] *)
Definition attempts (retries_allowed : Z) : list Z :=
  map Z.of_nat (seq 1 (Z.to_nat (retries_allowed + 1))).

(** The loop of [run_step] over the attempts left: stops at the first pass
    (or exception); a failed attempt that will be retried sleeps
    [backoff_ms] first, which changes nothing the runner records. *)
Fixpoint run_attempts (env : Env) (self : TestRunner)
    (run_id sn fw_version : string) (step : StepSpec) (timeout_s : float)
    (atts : list Z) (last : StepAttemptResult) (w : RunnerWorld)
  : result StepAttemptResult * RunnerWorld :=
  match atts with
  | [] => (Ok last, w)
  | attempt :: rest =>
      match run_attempt env self run_id sn fw_version step timeout_s
                        attempt w with
      | (Raise e d, w) => (Raise e d, w)
      | (Ok r, w) =>
          if ar_passed r then (Ok r, w)
          else run_attempts env self run_id sn fw_version step timeout_s
                            rest r w
      end
  end.

Definition run_step (env : Env) (self : TestRunner)
    (run_id sn fw_version : string) (step : StepSpec) (w : RunnerWorld)
  : result StepAttemptResult * RunnerWorld :=
  let timeout_s :=
    if (timeout_s step =? 0)%float then rw_client_timeout w
    else timeout_s step in
  let original_timeout := rw_client_timeout w in
  let w := set_client_timeout timeout_s w in
  let last := {| ar_passed := false; ar_error_code := Some "E_INTERNAL"%string;
                 ar_message := "Uninitialized"; ar_data := [];
                 ar_duration_ms := 0 |} in
  match run_attempts env self run_id sn fw_version step timeout_s
                     (attempts (retries step)) last w with
  | (Raise e d, w) => (Raise e d, w)
  | (Ok r, w) => (Ok r, set_client_timeout original_timeout w)
  end.

(** [_ping_fw] *)
Definition _ping_fw (env : Env) (sn : string) (w : RunnerWorld)
  : string * RunnerWorld :=
  let '(res, _, w) := client_call env "PING" sn w in
  (if ok res then
     match jget (data res) "fw" with
     | Some v => py_str v
     | None => "unknown"%string
     end
   else "unknown"%string, w).

(** The loop of [run_sn] over the steps left. *)
Fixpoint run_steps (env : Env) (self : TestRunner) (run_id sn fw : string)
    (todo : list StepSpec) (sn_passed : bool)
    (failures : list (string * StepAttemptResult)) (w : RunnerWorld)
  : result (bool * list (string * StepAttemptResult)) * RunnerWorld :=
  match todo with
  | [] => (Ok (sn_passed, failures), w)
  | step :: rest =>
      match run_step env self run_id sn fw step w with
      | (Raise e d, w) => (Raise e d, w)
      | (Ok out, w) =>
          if ar_passed out
          then run_steps env self run_id sn fw rest sn_passed failures w
          else run_steps env self run_id sn fw rest false
                         (failures ++ [(id step, out)]) w
      end
  end.

Definition run_sn (env : Env) (self : TestRunner) (run_id sn : string)
    (w : RunnerWorld) : result SnSummary * RunnerWorld :=
  let '(fw, w) := _ping_fw env sn w in
  match run_steps env self run_id sn fw (steps (plan self)) true [] w with
  | (Raise e d, w) => (Raise e d, w)
  | (Ok (p, fs), w) =>
      (Ok {| ss_sn := sn; ss_fw_version := fw; ss_passed := p;
             ss_failures := fs |}, w)
  end.

(** The loop of [run_batch] over the serial numbers left. *)
Fixpoint run_sns (env : Env) (self : TestRunner) (run_id : string)
    (sns : list string) (overall : bool) (acc : list (string * SnSummary))
    (w : RunnerWorld) : result RunSummary * RunnerWorld :=
  match sns with
  | [] => (Ok {| sum_run_id := run_id; overall_passed := overall;
                 per_sn := acc |}, w)
  | sn :: rest =>
      match run_sn env self run_id sn w with
      | (Raise e d, w) => (Raise e d, w)
      | (Ok s, w) =>
          run_sns env self run_id rest (overall && ss_passed s)
                  (acc ++ [(sn, s)]) w
      end
  end.

Definition run_batch (env : Env) (self : TestRunner) (run_id : string)
    (sns : list string) (w : RunnerWorld) : result RunSummary * RunnerWorld :=
  run_sns env self run_id sns true [] w.

(** The requirements registry the constructor finds: the file
    [traceability/req_traceability.yaml] when it exists, else the packaged
    default, else nothing ([None]: unreadable, or no mapping in it). *)
Definition resolve_requirements
    (local_file packaged : option Coverage.Registry)
  : option Coverage.Registry :=
  match local_file with
  | Some r => Some r
  | None => packaged
  end.

(** [TestRunner.__init__].  [doc] is the parsed plan file, [local_file] and
    [packaged] the two places a registry may come from.  The optional
    SQLite mirror is left out. *)
Definition init (timeout_s_default : float)
    (run_dir batch_id station_id stage : string)
    (doc : result TestPlan)
    (local_file packaged : option Coverage.Registry) (w : RunnerWorld)
  : result TestRunner * RunnerWorld :=
  let w := set_client_timeout timeout_s_default w in
  let csv_path := run_dir +:+ "/events.csv" in
  let w := match rw_files w !! csv_path with
           | Some _ => w
           | None => write_file csv_path [CSV_COLUMNS] w
           end in
  match load_plan doc (Some stage) with
  | Raise e d => (Raise e d, w)
  | Ok plan =>
      let self := {| run_dir := run_dir; tr_batch_id := batch_id;
                     tr_station_id := station_id; tr_stage := stage;
                     plan := plan |} in
      match resolve_requirements local_file packaged with
      | None => (Ok self, w)
      | Some reqs =>
          match load_plan_raw doc with
          | Raise e d => (Raise e d, w)
          | Ok raw_plan =>
              let step_pairs :=
                map (fun s => (s_id s, s_req_ids s)) (tp_steps raw_plan) in
              match Coverage.validate_coverage reqs step_pairs with
              | Raise e d => (Raise e d, w)
              | Ok _ =>
                  let rows :=
                    Coverage.generate_coverage_matrix reqs step_pairs in
                  (Ok self,
                   write_file (run_dir +:+ "/coverage_matrix.csv")
                              (Coverage.coverage_header :: rows) w)
              end
          end
      end
  end.

(** [cli/run_batch.py], from the construction of the runner to the end of
    the batch: an exception of the constructor ends the program. *)
Definition construct_and_run (env : Env) (timeout_s_default : float)
    (run_dir batch_id station_id stage run_id : string)
    (doc : result TestPlan)
    (local_file packaged : option Coverage.Registry) (sns : list string)
    (w : RunnerWorld) : result RunSummary * RunnerWorld :=
  match init timeout_s_default run_dir batch_id station_id stage doc
             local_file packaged w with
  | (Raise e d, w) => (Raise e d, w)
  | (Ok self, w) => run_batch env self run_id sns w
  end.

End Run.

End Runner.

(** ** analytics/stratification.py

    The events are the records of [events.jsonl], that is the fields of
    [StepEvent] as the logger wrote them. *)

Module Stratification.
Import Logger.

Record StratRow := {
  key : string;
  group : string;
  sr_units : nat;
  fty : float
}.

(** [int(ev.get("attempt", 1) or 1)] *)
Definition attempt_of (ev : StepEvent) : Z :=
  if (attempt ev =? 0)%Z then 1%Z else attempt ev.

(** The loop of [_final_pass_by_sn]: the event of highest attempt per
    (sn, step), the later one among equals. *)
Definition keep_final (per : gmap (string * string) StepEvent) (ev : StepEvent)
  : gmap (string * string) StepEvent :=
  let k := (ev_sn ev, test_step ev) in
  match per !! k with
  | None => <[k := ev]> per
  | Some old =>
      if (attempt_of old <=? attempt_of ev)%Z then <[k := ev]> per else per
  end.

Definition nonempty (s : string) : bool := negb (String.eqb s "").

Definition _final_pass_by_sn (events : list StepEvent) : gmap string bool :=
  let per_sn_steps := foldl keep_final ∅ events in
  let steps : gset string :=
    filter (fun s => nonempty s = true) (list_to_set (test_step <$> events)) in
  let sns : gset string :=
    filter (fun s => nonempty s = true) (list_to_set (ev_sn <$> events)) in
  set_to_map
    (fun sn =>
       (sn,
        forallb (fun step =>
                   match per_sn_steps !! (sn, step) with
                   | None => false
                   | Some ev => passed ev
                   end)
                (elements steps)))
    sns.

Definition temp_bin (avg : float) : string :=
  if (avg <? 20)%float then "<20C"
  else if (avg <? 30)%float then "20-30C"
  else if (avg <? 40)%float then "30-40C"
  else ">=40C".

(** The members of a group: the units whose group it is, in the order the
    units are visited. *)
Definition members_of (group_by_sn : gmap string string)
    (units : list (string * bool)) (g : string) : list string :=
  fst <$> List.filter
            (fun u => String.eqb (default "UNKNOWN"%string
                                    (group_by_sn !! fst u)) g)
            units.

Section Stratify.
Context `{PyBuiltins}.

(** The temperature an event contributes: its [value] as a float when the
    event measures [temp_c], passed, and the value is a number. *)
Definition temp_reading (ev : StepEvent) : option float :=
  match measurement ev with
  | Some m =>
      if String.eqb m "temp_c" && passed ev then
        match value ev with
        | Some v => py_float v
        | None => None
        end
      else None
  | None => None
  end.

(** [temps.setdefault(sn, []).append(float(v))] over the events *)
Definition add_temp (temps : gmap string (list float)) (ev : StepEvent)
  : gmap string (list float) :=
  match temp_reading ev with
  | Some x => <[ev_sn ev := default [] (temps !! ev_sn ev) ++ [x]]> temps
  | None => temps
  end.

Definition temps_by_sn (events : list StepEvent) : gmap string (list float) :=
  foldl add_temp ∅ events.

(** [sum(xs) / len(xs)] *)
Definition average (xs : list float) : float :=
  (py_sum xs / Z2float (Z.of_nat (length xs)))%float.

(** [group_by_sn] for the key [temp_bin] *)
Definition temp_group_by_sn (events : list StepEvent) : gmap string string :=
  omap (fun xs => match xs with
                  | [] => None
                  | _ => Some (temp_bin (average xs))
                  end)
       (temps_by_sn events).

(** [group_by_sn] for the keys [fw_version], [stage] and [batch_id]: the
    value of the first event of each SN. *)
Definition first_seen (field : StepEvent -> string) (events : list StepEvent)
  : gmap string string :=
  foldl (fun m ev => match m !! ev_sn ev with
                     | Some _ => m
                     | None => <[ev_sn ev := field ev]> m
                     end) ∅ events.

(** [groups.setdefault(g, []).append(sn)] over the units of [final_pass].
    The order in which the units are visited (that of a Python set) fixes
    the order of the members only; the rows use their number. *)
Definition add_member (group_by_sn : gmap string string)
    (groups : gmap string (list string)) (unit : string * bool)
  : gmap string (list string) :=
  let g := default "UNKNOWN"%string (group_by_sn !! fst unit) in
  <[g := default [] (groups !! g) ++ [fst unit]]> groups.

Definition group_members (group_by_sn : gmap string string)
    (final_pass : gmap string bool) : gmap string (list string) :=
  foldl (add_member group_by_sn) ∅ (map_to_list final_pass).

Definition strat_rows (key : string) (groups : gmap string (list string))
    (final_pass : gmap string bool) : list StratRow :=
  map (fun g =>
         let sns := default [] (groups !! g) in
         let units := length sns in
         {| key := key; group := g; sr_units := units;
            fty := if (units =? 0)%nat then 0%float
                   else (Z2float (Z.of_nat
                           (length (List.filter
                                      (fun sn => default false (final_pass !! sn))
                                      sns)))
                         / Z2float (Z.of_nat units))%float |})
      (sorted (elements (dom groups))).

Definition stratify (events : list StepEvent) (key : string)
  : result (list StratRow) :=
  let final_pass := _final_pass_by_sn events in
  let by_field (field : StepEvent -> string) :=
    Ok (strat_rows key (group_members (first_seen field events) final_pass)
                   final_pass) in
  if String.eqb key "fw_version" then by_field fw_version
  else if String.eqb key "stage" then by_field stage
  else if String.eqb key "batch_id" then by_field batch_id
  else if String.eqb key "temp_bin" then
    Ok (strat_rows key (group_members (temp_group_by_sn events) final_pass)
                   final_pass)
  else Raise "ValueError" ["Unsupported stratification key"; key].


End Stratify.

End Stratification.

(** ** Concrete builtins and a concrete generator for worked examples *)

Module Examples.

(** Nearest integer to [num / den] ([den > 0]), ties to even. *)
Definition round_half_even (num den : Z) : Z :=
  let q := (num / den)%Z in
  let r := (num mod den)%Z in
  match (2 * r ?= den)%Z with
  | Lt => q
  | Gt => (q + 1)%Z
  | Eq => if Z.even q then q else (q + 1)%Z
  end.

(** [round(x, n)] for [n >= 0]: the exact binary value of [x] is rounded
    half-even at [n] decimals and the decimal result converted back.  It
    agrees with CPython whenever [|x| * 10^n < 2^53]. *)
Definition round_ndigits (x : float) (n : Z) : float :=
  match Prim2SF x with
  | S754_finite s m e =>
      let num := if (0 <=? e)%Z then (Z.pos m * 2 ^ e * 10 ^ n)%Z
                 else (Z.pos m * 10 ^ n)%Z in
      let den := if (0 <=? e)%Z then 1%Z else (2 ^ (- e))%Z in
      let r := (Z2float (round_half_even num den) / Z2float (10 ^ n))%float in
      if s then (- r)%float else r
  | _ => x
  end.

Definition digit_of (c : ascii) : option Z :=
  let n := nat_of_ascii c in
  if (48 <=? n)%nat && (n <=? 57)%nat then Some (Z.of_nat (n - 48)) else None.

(** Digits with at most one point: the integer read without the point and
    the number of digits after it. *)
Fixpoint parse_dec (s : string) (acc : Z) (dot : bool) (k : Z) (any : bool)
  : option (Z * Z) :=
  match s with
  | EmptyString => if any then Some (acc, k) else None
  | String c s' =>
      match digit_of c with
      | Some d =>
          parse_dec s' (10 * acc + d)%Z dot (if dot then k + 1 else k)%Z true
      | None =>
          if Ascii.eqb c "."%char && negb dot
          then parse_dec s' acc true k any
          else None
      end
  end.

(** [float(s)] on plain decimal literals ([-12.5], [30]); it agrees with
    Python on those of at most 15 significant digits and rejects every
    other spelling. *)
Definition decimal_float (s : string) : option float :=
  let mag (t : string) :=
    match parse_dec t 0 false 0 false with
    | Some (a, k) => Some (Z2float a / Z2float (10 ^ k))%float
    | None => None
    end in
  match s with
  | String "-"%char t => option_map PrimFloat.opp (mag t)
  | String "+"%char t => mag t
  | _ => mag s
  end.

(** [str(v)] on strings, integers, booleans and [None]; floats and
    containers are not spelled out. *)
Definition str_of_scalar (v : jvalue) : string :=
  match v with
  | JStr s => s
  | JInt n => pretty n
  | JBool true => "True"
  | JBool false => "False"
  | JNull => "None"
  | _ => "?"
  end.

#[export] Instance decimal_builtins : PyBuiltins := {|
  float_of_string := decimal_float;
  py_round := round_ndigits;
  py_sum := fun xs => fold_left PrimFloat.add xs 0%float;
  py_str := str_of_scalar
|}.

(** A small deterministic generator: the state is a counter, the draws
    cycle through 1/8, 2/8, ... in the order the seed fixes. *)
Definition counter_draw (g : Z) : float := (Z2float (g mod 8) / 8)%float.

#[export] Instance counter_gen : RandomGen Z := {|
  rg_seed := fun s e => match s with Some n => n | None => e end;
  rg_random := fun g => (counter_draw g, (g + 1)%Z);
  rg_gauss := fun g mu sigma =>
    ((mu + sigma * (4 * counter_draw g - 2))%float, (g + 1)%Z)
|}.

(** A device in [SAFE] mode at 25 degrees and 12 V, last touched at time 0. *)
Definition safe_device : DeviceState :=
  {| sn := "SN1"; fw := "1.0.0"; mode := "SAFE";
     temp_c := 25; vbat_v := 12;
     temp_noise_sigma := 0.05; vbat_noise_sigma := 0.02;
     temp_drift_per_cycle_c := 0; vbat_drift_per_cycle_v := 0;
     drift_offset_c := 0; drift_offset_v := 0;
     self_test_fail_p_base := 0.01; burn_in_fail_slope := 0.00005;
     cycles := 0; last_update_s := 0 |}.

(** The clock reads 100 s; the generator draws 0.75 and then 0.875. *)
Definition world_100 : World Z :=
  {| w_rng := 6%Z; w_clock := fun _ => 100%float; w_reads := 0;
     w_devices := {[ "SN1"%string := safe_device ]}; w_ctx := ∅;
     w_markov_obs := [] |}.

(** A process that has served nothing yet: generator state [g], no device,
    no fault context. *)
Definition fresh_world (g : Z) (clock : nat -> float) : World Z :=
  {| w_rng := g; w_clock := clock; w_reads := 0;
     w_devices := ∅; w_ctx := ∅; w_markov_obs := [] |}.

Import FaultInjection.

(** [{"default": {"busy": {"min_interval_ms": 100}}}] *)
Definition rate_limit_profile : Profile :=
  {| prof_default :=
       {| timeout := timeout empty_cmd_cfg; fail := fail empty_cmd_cfg;
          drift := drift empty_cmd_cfg; burn_in := burn_in empty_cmd_cfg;
          busy := {| min_interval_ms := Some 100%Z; b_p := None |} |};
     prof_per_command := ∅;
     prof_intermittent_markov := empty_markov_cfg |}.

(** [{"intermittent_markov": {"enabled": true, "p_good_to_bad": 1.0,
      "p_bad_to_good": 1.0, "fail_p_bad_state": 0.0,
      "timeout_p_bad_state": 1.0}}] *)
Definition alternating_markov_profile : Profile :=
  {| prof_default := empty_cmd_cfg;
     prof_per_command := ∅;
     prof_intermittent_markov :=
       {| enabled := Some true;
          p_good_to_bad := Some 1%float;
          p_bad_to_good := Some 1%float;
          fail_p_bad_state := Some 0%float;
          timeout_p_bad_state := Some 1%float;
          timeout_delay_s := None |} |}.

(** [{"default": {"drift": {"temp_offset_per_cycle_c": 0.01,
                            "vbat_offset_per_cycle_v": 0.001}}}] *)
Definition drift_profile : Profile :=
  {| prof_default :=
       {| timeout := timeout empty_cmd_cfg; fail := fail empty_cmd_cfg;
          drift := {| temp_offset_per_cycle_c := Some 0.01%float;
                      vbat_offset_per_cycle_v := Some 0.001%float |};
          burn_in := burn_in empty_cmd_cfg; busy := busy empty_cmd_cfg |};
     prof_per_command := ∅;
     prof_intermittent_markov := empty_markov_cfg |}.

(** A DUT configuration with [determinism.seed = 1] whose default profile is
    the drifting one. *)
Definition drift_config : Server.DutConfig :=
  {| Server.determinism_seed := Some 1%Z;
     Server.default_fault_profile := Some "drift"%string;
     Server.fault_profiles := {[ "drift"%string := drift_profile ]};
     Server.device_defaults := DeviceModel.empty_defaults |}.

(** A DUT configuration with only [determinism.seed] set: no fault profile
    (every probability 0), default devices. *)
Definition seeded_config (seed : Z) : Server.DutConfig :=
  {| Server.determinism_seed := Some seed;
     Server.default_fault_profile := None;
     Server.fault_profiles := ∅;
     Server.device_defaults := DeviceModel.empty_defaults |}.

(** A wall clock frozen at 1000 s, and one that advances 10 s per read. *)
Definition frozen_clock : nat -> float := fun _ => 1000%float.
Definition ticking_clock : nat -> float :=
  fun n => (1000 + 10 * Z2float (Z.of_nat n))%float.

(** The drift offsets of the device [sn] of a server, if it exists. *)
Definition drift_offsets_of (s : Server.DutServer Z) (sn : string)
  : option (float * float) :=
  (fun d => (drift_offset_c d, drift_offset_v d))
    <$> (w_devices (Server.world s) !! sn).

(** The [vbat_v] field of a response. *)
Definition vbat_of (r : Protocol.Response) : option jvalue :=
  jget (Protocol.data r) "vbat_v".


(** A plan step [READ_TEMP] with the range limit [10 <= temp_c <= 50] and
    one retry. *)
Definition read_temp_step : Plan.StepSpec :=
  {| Plan.id := "read_temp"; Plan.name := "Read temperature";
     Plan.cmd := "READ_TEMP"; Plan.params := [];
     Plan.retries := 1; Plan.backoff_ms := 0; Plan.timeout_s := 2;
     Plan.limits :=
       Some {| Plan.lim_field := "temp_c"; Plan.lim_min := Some 10%float;
               Plan.lim_max := Some 50%float; Plan.lim_equals := None;
               Plan.lim_units := None |};
     Plan.req_ids := ["REQ-002"%string] |}.

(** A DUT endpoint that answers every call [ok] with the given data. *)
Definition answering (d : jobject) : Runner.Env :=
  {| Runner.env_call := fun _ _ _ =>
       {| Runner.ok := true; Runner.error_code := None;
          Runner.message := "OK"; Runner.data := d; Runner.raw := d |};
     Runner.env_duration_ms := fun _ => 5%Z;
     Runner.env_now_iso := fun _ => "2026-01-01T00:00:00+00:00"%string |}.

Definition example_runner : Runner.TestRunner :=
  {| Runner.run_dir := "runs/r1"; Runner.tr_batch_id := "B1";
     Runner.tr_station_id := "S1"; Runner.tr_stage := "EVT";
     Runner.plan :=
       {| Plan.station := {| Plan.station_name := "S"; Plan.station_stage := "EVT";
                             Plan.station_fw_expected := "1.0.0" |};
          Plan.sn_count := 1;
          Plan.steps := [read_temp_step] |} |}.

(** A runner process that has sent and written nothing yet. *)
Definition idle_runner_world : Runner.RunnerWorld :=
  {| Runner.rw_calls := []; Runner.rw_events := []; Runner.rw_files := ∅;
     Runner.rw_client_timeout := 2 |}.

(** A registry of two requirements and plan documents over it: one whose
    steps cover both, one that leaves [REQ-002] uncovered. *)
Definition two_requirements : Coverage.Registry :=
  {[ "REQ-001"%string := {| Coverage.title := Some "Ping"%string |};
     "REQ-002"%string := {| Coverage.title := Some "Temperature"%string |} ]}.

Definition plan_step (i c : string) (reqs : list string) : Plan.Step :=
  {| Plan.s_id := i; Plan.s_name := i; Plan.s_cmd := c; Plan.s_params := [];
     Plan.s_limits := None; Plan.s_retries := 0; Plan.s_backoff_ms := 0;
     Plan.s_timeout_s := 2; Plan.s_req_ids := reqs;
     Plan.s_stages := ["EVT"; "DVT"]%string |}.

Definition plan_doc (steps : list Plan.Step) : Plan.TestPlan :=
  {| Plan.tp_station := {| Plan.station_name := "S";
                           Plan.station_stage := "EVT";
                           Plan.station_fw_expected := "1.0.0" |};
     Plan.tp_sn_count := 1;
     Plan.tp_steps := steps |}.

Definition covering_plan : Plan.TestPlan :=
  plan_doc [plan_step "ping" "PING" ["REQ-001"%string];
            plan_step "read_temp" "READ_TEMP" ["REQ-002"%string]].


(** The plan [load_plan] makes of a document for a stage (the empty plan
    when loading raises). *)
Definition gated (doc : Plan.TestPlan) (stage : string) : Plan.Plan :=
  match Plan.load_plan (Ok doc) (Some stage) with
  | Ok p => p
  | Raise _ _ => {| Plan.station := Plan.tp_station doc;
                    Plan.sn_count := Plan.tp_sn_count doc;
                    Plan.steps := [] |}
  end.

(** A logged event of serial number [k] for the step [step]. *)
Definition log_event (k step : string) (att : Z) (p : bool)
    (meas : option string) (v : option jvalue) : Logger.StepEvent :=
  Logger.make "2026-01-01T00:00:00+00:00" "r1" "B1" "S1" "EVT" k "1.0.0"
              step (PyStr.upper step) att 1 2 0 5 p
              (if p then None else Some "E_TIMEOUT"%string) meas v None "OK" [].

(** Two units pass [read_temp]: the response of SN1 carried no [temp_c]
    (its event has no value), SN2 measured 25 degrees. *)
Definition two_unit_log : list Logger.StepEvent :=
  [log_event "SN1" "read_temp" 1 true (Some "temp_c"%string) None;
   log_event "SN2" "read_temp" 1 true (Some "temp_c"%string)
             (Some (JFloat 25))].

End Examples.
Import Examples.

(** ** analytics/pareto.py

    The events are the records of [events.jsonl], with every field of
    [StepEvent] as the logger wrote it. *)

Module Pareto.
Import Logger.

(** [str(ev.get("error_code", ""))]: a null error code reads [None]. *)
Definition error_label (ev : StepEvent) : string :=
  match ev_error_code ev with
  | Some c => c
  | None => "None"
  end.

(** [m[k] = m.get(k, 0) + 1] *)
Definition count_up (m : gmap string nat) (k : string) : gmap string nat :=
  <[k := (default 0 (m !! k) + 1)%nat]> m.

Record Counts := {
  by_step : gmap string nat;
  by_error : gmap string nat;
  by_batch : gmap string nat
}.

Definition pareto_failures (events : list StepEvent) : Counts :=
  foldl (fun c ev =>
           if passed ev then c
           else {| by_step := count_up (by_step c) (test_step ev);
                   by_error := count_up (by_error c) (error_label ev);
                   by_batch := count_up (by_batch c) (batch_id ev) |})
        {| by_step := ∅; by_error := ∅; by_batch := ∅ |}
        events.

End Pareto.

(** ** Notions the further properties are stated with *)

Section RequestNotions.
Import PyStr.


End RequestNotions.

Section ServerNotions.
Context {G : Type} `{RandomGen G} `{PyBuiltins}.
Import Protocol FaultInjection DeviceModel Server.

(** Every device sits under its own serial number, is in [NORMAL] or [SAFE]
    mode and has counted no negative number of cycles. *)
Definition devices_well_formed (m : gmap string DeviceState) : Prop :=
  forall k d, m !! k = Some d ->
    sn d = k
    /\ (mode d = "NORMAL"%string \/ mode d = "SAFE"%string)
    /\ (0 <= cycles d)%Z.

(** The cycle count and the drift offsets of the device under [k], as a
    request finds them: those of a fresh device when there is none yet. *)
Definition cycles_at (w : World G) (k : string) : Z :=
  match w_devices w !! k with Some d => cycles d | None => 0%Z end.

Definition offsets_at (w : World G) (k : string) : float * float :=
  match w_devices w !! k with
  | Some d => (drift_offset_c d, drift_offset_v d)
  | None => (0%float, 0%float)
  end.

(** What the stages of an evaluation for [(k, cmd)] keep of the contexts:
    every other context untouched, and the time stamp of this one. *)
Definition ctx_kept (k cmd : string) (w w' : World G) : Prop :=
  (forall key, key <> (k, cmd) -> w_ctx w' !! key = w_ctx w !! key)
  /\ (forall c, w_ctx w !! (k, cmd) = Some c ->
                exists c', w_ctx w' !! (k, cmd) = Some c'
                           /\ last_cmd_ts c' = last_cmd_ts c).

(** The ways [_dispatch] can go: a protocol error that leaves the server as
    it was, a profile switch, or an SN-bearing command decided by the
    injector. *)
Inductive dispatched (line : string) (s : DutServer G)
  : option Response * DutServer G -> Prop :=
| protocol_error code msg c :
    In code [E_BAD_ARGS; E_UNKNOWN_CMD; E_OUT_OF_RANGE] ->
    c <> ""%string ->
    dispatched line s (Some (err code msg c), s)
| profile_switch name :
    dispatched line s
      (Some (mk_ok [("profile"%string, JStr name)] "SET_FAULT_PROFILE"),
       _set_profile name s)
| decided cmd decision (op : World G -> jobject * World G) (w1 w2 : World G) :
    cmd <> ""%string ->
    (forall code msg, decision = RESPOND code msg ->
                      code = E_BUSY \/ code = E_INTERNAL) ->
    dispatched line s
      (fst (after_decision cmd decision op w1),
       with_world s w2).

End ServerNotions.

(** A [float()] that, like Python's, reads the spelling [nan]. *)
Definition float_with_nan (s : string) : option float :=
  if String.eqb (PyStr.lower s) "nan" then Some nan else decimal_float s.

Definition nan_reading_builtins : PyBuiltins :=
  {| float_of_string := float_with_nan;
     py_round := round_ndigits;
     py_sum := fun xs => fold_left PrimFloat.add xs 0%float;
     py_str := str_of_scalar |}.

(** A profile that drifts and rate-limits:
    [{"default": {"drift": {...0.01, ...0.001}, "busy": {"min_interval_ms": 100}}}] *)
Definition drifting_rate_limited_profile : FaultInjection.Profile :=
  {| FaultInjection.prof_default :=
       {| FaultInjection.timeout :=
            FaultInjection.timeout FaultInjection.empty_cmd_cfg;
          FaultInjection.fail := FaultInjection.fail FaultInjection.empty_cmd_cfg;
          FaultInjection.drift :=
            FaultInjection.drift (FaultInjection.prof_default drift_profile);
          FaultInjection.burn_in :=
            FaultInjection.burn_in FaultInjection.empty_cmd_cfg;
          FaultInjection.busy :=
            FaultInjection.busy (FaultInjection.prof_default rate_limit_profile) |};
     FaultInjection.prof_per_command := ∅;
     FaultInjection.prof_intermittent_markov := FaultInjection.empty_markov_cfg |}.

Definition drifting_rate_limited_server : Server.DutServer Z :=
  Server.init
    {| Server.determinism_seed := Some 1%Z;
       Server.default_fault_profile := Some "busy"%string;
       Server.fault_profiles := {[ "busy"%string := drifting_rate_limited_profile ]};
       Server.device_defaults := DeviceModel.empty_defaults |}
    None 0 frozen_clock.

Section TraceabilityNotions.
Import Coverage.

(** Ascending order of strings, by code points. *)
Fixpoint ascending (l : list string) : Prop :=
  match l with
  | [] => True
  | x :: l' => Forall (fun y => String.leb x y = true) l' /\ ascending l'
  end.

(** The steps that list [rid], in plan order, once per mention. *)
Definition steps_referencing (rid : string)
    (steps : list (string * list string)) : list string :=
  flat_map (fun p => map (fun _ => fst p)
                         (List.filter (String.eqb rid) (snd p))) steps.

(** The ids of the rows that the matrix marks [N]. *)
Definition uncovered_rows (rows : list (list string)) : list string :=
  map (fun row => nth 0 row ""%string)
      (List.filter (fun row => String.eqb (nth 2 row ""%string) "N") rows).

End TraceabilityNotions.

Section RunnerNotions.
Import Plan Logger Runner.

(** A failure entry of a unit: the failed result of a step of the plan. *)
Definition failure_of (todo : list StepSpec)
    (f : string * StepAttemptResult) : Prop :=
  ar_passed (snd f) = false /\ exists step, In step todo /\ id step = fst f.

Definition is_nil {A : Type} (l : list A) : bool :=
  match l with [] => true | _ => false end.

(** What [run_sn] returns for a unit, and what it has logged by then. *)
Definition unit_summary (self : TestRunner) (k : string) (s : SnSummary)
  : Prop :=
  ss_sn s = k
  /\ ss_passed s = is_nil (ss_failures s)
  /\ Forall (failure_of (steps (plan self))) (ss_failures s).

(** The stage a plan is loaded for: the one asked for, or the station's own
    when none (or a blank one) is given. *)
Definition effective_stage (parsed : TestPlan) (stage : option string)
  : string :=
  match stage with
  | None => station_stage (tp_station parsed)
  | Some st => match PyStr.split st with
               | [] => station_stage (tp_station parsed)
               | _ => st
               end
  end.

End RunnerNotions.

Section AnalyticsNotions.
Import Logger Stratification Pareto.

(** The first event of a serial number in the log. *)
Definition first_event (events : list StepEvent) (k : string)
  : option StepEvent :=
  find (fun e => String.eqb (ev_sn e) k) events.

Definition event_key (ev : StepEvent) : string * string :=
  (ev_sn ev, test_step ev).

(** The steps a unit is judged on: the non-empty step ids of the whole
    log. *)
Definition step_of_log (events : list StepEvent) (s : string) : Prop :=
  s <> ""%string /\ exists e, e ∈ events /\ test_step e = s.

(** The failed events of a log that carry the label [k]. *)
Definition failed_with (label : StepEvent -> string) (k : string)
    (events : list StepEvent) : list StepEvent :=
  List.filter (fun ev => negb (passed ev) && String.eqb (label ev) k) events.

(** The sum of the counts of a table. *)
Definition total (m : gmap string nat) : nat :=
  list_sum (snd <$> map_to_list m).

(** Each table is the tally of one label over the failed events. *)
Definition tally (labels : list string) : gmap string nat :=
  foldl count_up ∅ labels.

Definition failed_labels (label : StepEvent -> string)
    (events : list StepEvent) : list string :=
  label <$> List.filter (fun ev => negb (passed ev)) events.

(** The entry of a count in a table: none for zero. *)
Definition entry (n : nat) : option nat :=
  match n with
  | O => None
  | S _ => Some n
  end.

End AnalyticsNotions.

(** * Properties *)

Ltac case_if :=
  match goal with
  | |- context [if ?c then _ else _] => destruct c
  end.

(** ** Float comparison facts *)

Section FloatFacts.



End FloatFacts.

(** ** Device model: the random walk and the clamp (C8) *)

Section ClampFacts.


End ClampFacts.




(** ** Fault injector: how the world changes *)

Section InjectorFacts.
Context {G : Type} `{RandomGen G}.
Import FaultInjection.

Lemma ctx_for_lookup (sn cmd : string) (w : World G) :
  exists c, w_ctx (snd (_ctx_for sn cmd w)) !! (sn, cmd) = Some c
            /\ fst (_ctx_for sn cmd w) = c
            /\ w_clock (snd (_ctx_for sn cmd w)) = w_clock w
            /\ w_reads (snd (_ctx_for sn cmd w)) = w_reads w.
Proof.
  unfold _ctx_for. destruct (w_ctx w !! (sn, cmd)) as [c|] eqn:E; cbn.
  - exists c. auto.
  - exists FaultContext_new. rewrite lookup_insert_eq. auto.
Qed.

End InjectorFacts.

(** C2: the rate-limit gate of [evaluate] compares the clock with the
    [last_cmd_ts] that [evaluate] itself has just set.  Whenever the merged
    busy section has [min_interval_ms = m > 0] and the two clock reads of one
    evaluation are less than [m] milliseconds apart, the request is answered
    [RESPOND E_BUSY "Rate-limited: ..."], whatever came before it: the first
    request of a pair is rate-limited as well as the second. *)
Theorem evaluate_rate_limits_every_request
    {G : Type} `{RandomGen G}
    (prof : FaultInjection.Profile) (cmd sn : string) (cycles m : Z)
    (w : World G) :
  FaultInjection.min_interval_ms
    (FaultInjection.busy (FaultInjection._cfg_for prof cmd)) = Some m ->
  (0 < m)%Z ->
  ((w_clock w (S (w_reads w)) - w_clock w (w_reads w)) * 1000
     <? Z2float m)%float = true ->
  fst (FaultInjection.evaluate prof cmd sn cycles w)
  = FaultInjection.RESPOND Protocol.E_BUSY
      (FaultInjection.rate_limited_message m).
Proof.
  intros Hm Hpos Ht.
  unfold FaultInjection.evaluate, FaultInjection.should_busy.
  rewrite Hm. apply Z.ltb_lt in Hpos.
  destruct (ctx_for_lookup sn cmd w) as (c & Hc & _ & Hclk & Hrd).
  destruct (FaultInjection._ctx_for sn cmd w) as [c0 w1]; cbn in Hc, Hclk, Hrd.
  unfold time_time, FaultInjection.set_last_cmd_ts, FaultInjection._ctx_for.
  cbn [fst snd w_ctx w_clock w_reads set_ctx default].
  rewrite lookup_alter_eq, Hc.
  cbn [fst snd w_ctx w_clock w_reads set_ctx default fmap option_fmap
       option_map last_cmd_ts].
  unfold id. rewrite Hclk, Hrd, Hpos, Ht. reflexivity.
Qed.

(** ** Fault injector: how often the Markov chain is stepped (C3) *)

Section MarkovFacts.
Context {G : Type} `{RandomGen G}.
Import FaultInjection.










Lemma should_busy_code (prof : Profile) (cmd sn : string) (w : World G) :
  bd_should (fst (should_busy prof cmd sn w)) = true ->
  bd_error_code (fst (should_busy prof cmd sn w)) = Protocol.E_BUSY.
Proof.
  unfold should_busy.
  destruct (_ctx_for sn cmd w) as [c w1]. unfold time_time. cbn [fst snd].
  case_if; [reflexivity|]. case_if; [|discriminate].
  destruct (random _) as [r w2]. case_if; [reflexivity|discriminate].
Qed.

Lemma should_fail_code (prof : Profile) (cmd sn : string) (cycles : Z)
    (w : World G) :
  fd_should (fst (should_fail prof cmd sn cycles w)) = true ->
  fd_error_code (fst (should_fail prof cmd sn cycles w)) = Protocol.E_INTERNAL.
Proof.
  unfold should_fail.
  destruct (_markov_fail_add prof cmd sn w) as [a w1].
  destruct (random w1) as [r w2]. case_if; [reflexivity|discriminate].
Qed.

End MarkovFacts.




Lemma evaluate_rate_limits_every_request_witness :
  FaultInjection.min_interval_ms
    (FaultInjection.busy (FaultInjection._cfg_for rate_limit_profile "READ_TEMP"))
  = Some 100%Z
  /\ (0 < 100)%Z
  /\ fst (FaultInjection.evaluate rate_limit_profile "READ_TEMP" "SN1" 0
            (fresh_world 1 (fun _ => 1000%float)))
     = FaultInjection.RESPOND Protocol.E_BUSY
         (FaultInjection.rate_limited_message 100).
Proof.
  split; [reflexivity|]. split; [reflexivity|].
  apply (evaluate_rate_limits_every_request rate_limit_profile
           "READ_TEMP" "SN1" 0 100 (fresh_world 1 (fun _ => 1000%float)));
    reflexivity.
Defined.

(** ** The injector never touches the device map *)

Section DeviceFrame.
Context {G : Type} `{RandomGen G}.
Import FaultInjection.

Lemma ctx_for_devices (sn cmd : string) (w : World G) :
  w_devices (snd (_ctx_for sn cmd w)) = w_devices w.
Proof. unfold _ctx_for. destruct (w_ctx w !! (sn, cmd)); reflexivity. Qed.

Lemma random_devices (w : World G) :
  w_devices (snd (random w)) = w_devices w.
Proof. unfold random. destruct (rg_random (w_rng w)); reflexivity. Qed.

Lemma uniform_devices (a b : float) (w : World G) :
  w_devices (snd (uniform a b w)) = w_devices w.
Proof.
  unfold uniform, rg_uniform. destruct (rg_random (w_rng w)); reflexivity.
Qed.

Lemma markov_step_devices (prof : Profile) (cmd sn : string) (w : World G) :
  w_devices (snd (_markov_step prof cmd sn w)) = w_devices w.
Proof.
  unfold _markov_step. case_if; [reflexivity|].
  pose proof (ctx_for_devices sn cmd w) as Hc.
  destruct (_ctx_for sn cmd w) as [c w1]. cbn [snd] in Hc.
  pose proof (random_devices w1) as Hr.
  destruct (markov_state c); destruct (random w1) as [r w2];
    cbn [snd] in Hr; case_if; cbn; congruence.
Qed.

Lemma should_busy_devices (prof : Profile) (cmd sn : string) (w : World G) :
  w_devices (snd (should_busy prof cmd sn w)) = w_devices w.
Proof.
  unfold should_busy.
  pose proof (ctx_for_devices sn cmd w) as Hc.
  destruct (_ctx_for sn cmd w) as [c w1]. cbn [snd] in Hc.
  unfold time_time. cbn [fst snd].
  case_if; [exact Hc|]. case_if; [|exact Hc].
  match goal with |- context [random ?x] =>
    pose proof (random_devices x) as Hr; destruct (random x) as [r w2] end.
  cbn in Hr. case_if; cbn; congruence.
Qed.

Lemma should_fail_devices (prof : Profile) (cmd sn : string) (cycles : Z)
    (w : World G) :
  w_devices (snd (should_fail prof cmd sn cycles w)) = w_devices w.
Proof.
  unfold should_fail, _markov_fail_add.
  pose proof (markov_step_devices prof cmd sn w) as Hs.
  destruct (negb (markov_enabled prof)).
  - pose proof (random_devices w) as Hr. destruct (random w) as [r w2].
    cbn [snd] in Hr. case_if; cbn; congruence.
  - destruct (_markov_step prof cmd sn w) as [s w1]. cbn [snd] in Hs.
    pose proof (random_devices w1) as Hr.
    destruct s; destruct (random w1) as [r w2]; cbn [snd] in Hr;
      case_if; cbn; congruence.
Qed.

Lemma markov_timeout_add_devices (prof : Profile) (cmd sn : string)
    (w : World G) :
  w_devices (snd (_markov_timeout_add prof cmd sn w)) = w_devices w.
Proof.
  unfold _markov_timeout_add. case_if; [reflexivity|].
  pose proof (markov_step_devices prof cmd sn w) as Hs.
  destruct (_markov_step prof cmd sn w) as [s w1]. cbn [snd] in Hs.
  destruct s; [exact Hs|].
  destruct (default _ _) as [lo hi]. case_if; [|exact Hs].
  pose proof (uniform_devices lo hi w1) as Hu.
  destruct (uniform lo hi w1) as [d w2]. cbn [snd] in *. congruence.
Qed.

Lemma should_timeout_devices (prof : Profile) (cmd sn : string) (cycles : Z)
    (w : World G) :
  w_devices (snd (should_timeout prof cmd sn cycles w)) = w_devices w.
Proof.
  unfold should_timeout.
  pose proof (markov_timeout_add_devices prof cmd sn w) as Hs.
  destruct (_markov_timeout_add prof cmd sn w) as [[pm ov] w1].
  cbn [snd] in Hs.
  destruct (default _ (t_delay_s _)) as [lo hi].
  destruct (0 <? hi)%float.
  - pose proof (uniform_devices lo hi w1) as Hu.
    destruct (uniform lo hi w1) as [d w2]. cbn [snd] in Hu.
    pose proof (random_devices w2) as Hr. destruct (random w2) as [r w3].
    cbn in *. congruence.
  - pose proof (random_devices w1) as Hr. destruct (random w1) as [r w3].
    cbn in *. congruence.
Qed.

Lemma evaluate_devices (prof : Profile) (cmd sn : string) (cycles : Z)
    (w : World G) :
  w_devices (snd (evaluate prof cmd sn cycles w)) = w_devices w.
Proof.
  unfold evaluate.
  pose proof (ctx_for_devices sn cmd w) as Hc.
  destruct (_ctx_for sn cmd w) as [c w1]. cbn [snd] in Hc.
  unfold time_time. cbn [fst snd].
  match goal with |- context [should_busy _ _ _ ?x] =>
    pose proof (should_busy_devices prof cmd sn x) as Hb;
    destruct (should_busy prof cmd sn x) as [busy w2]
  end.
  cbn in Hb. case_if; [cbn; congruence|].
  pose proof (should_fail_devices prof cmd sn cycles w2) as Hf.
  destruct (should_fail prof cmd sn cycles w2) as [fail w3]. cbn [snd] in Hf.
  case_if; [cbn; congruence|].
  pose proof (should_timeout_devices prof cmd sn cycles w3) as Ht.
  destruct (should_timeout prof cmd sn cycles w3) as [to w4]. cbn [snd] in Ht.
  case_if; [case_if|]; cbn; congruence.
Qed.

End DeviceFrame.

(** ** Server dispatch and drift (C5) *)

(** C5: the [SET_TEMP] branch of [_dispatch] resolves the device and
    evaluates the injector but never calls [apply_drift]: whatever the
    profile, a [SET_TEMP] request leaves the drift offsets of its device as
    they were (zero for a device it creates). *)
Theorem set_temp_dispatch_applies_no_drift
    {G : Type} `{RandomGen G} `{PyBuiltins}
    (line sn targ : string) (s : Server.DutServer G) (d' : DeviceState) :
  Protocol.parse_command line = ("SET_TEMP"%string, [sn; targ]) ->
  w_devices (Server.world (snd (Server._dispatch line s))) !! sn = Some d' ->
  (drift_offset_c d', drift_offset_v d')
  = match w_devices (Server.world s) !! sn with
    | Some d => (drift_offset_c d, drift_offset_v d)
    | None => (0%float, 0%float)
    end.
Proof.
  intros Hp. unfold Server._dispatch. rewrite Hp.
  cbn [String.eqb Ascii.eqb Bool.eqb].
  destruct (float_of_string targ) as [t|]; cycle 1.
  { cbn [snd]. intros ->. reflexivity. }
  case_if. { cbn [snd]. intros ->. reflexivity. }
  unfold DeviceModel.get_or_create at 1.
  destruct (w_devices (Server.world s) !! sn) as [d|] eqn:Ed.
  - pose proof (evaluate_devices (Server.faults_profile s) "SET_TEMP" sn
                  (cycles d) (Server.world s)) as He.
    destruct (FaultInjection.evaluate _ _ _ _ _) as [a w1]. cbn [snd] in He.
    unfold Server.after_decision, DeviceModel.set_temp,
      DeviceModel.get_or_create.
    destruct a; cbn [snd Server.world Server.with_world]; rewrite ?He, ?Ed;
      cbn; rewrite ?He, ?Ed, ?lookup_insert_eq; intros [= <-]; reflexivity.
  - unfold time_time. cbn [fst snd].
    match goal with |- context [FaultInjection.evaluate ?p ?c ?n ?k ?x] =>
      pose proof (evaluate_devices p c n k x) as He;
      destruct (FaultInjection.evaluate p c n k x) as [a w1]
    end.
    cbn in He.
    unfold Server.after_decision, DeviceModel.set_temp,
      DeviceModel.get_or_create.
    destruct a; cbn [snd Server.world Server.with_world]; rewrite ?He;
      cbn; rewrite ?He, ?lookup_insert_eq; cbn;
      rewrite ?lookup_insert_eq; intros [= <-]; reflexivity.
Qed.

Lemma set_temp_dispatch_applies_no_drift_witness :
  let s := Server.init drift_config None 0 frozen_clock in
  let s' := snd (Server._dispatch "SET_TEMP SN1 30.0" s) in
  Protocol.parse_command "SET_TEMP SN1 30.0"
    = ("SET_TEMP"%string, ["SN1"%string; "30.0"%string])
  /\ exists d', w_devices (Server.world s') !! "SN1"%string = Some d'
     /\ (drift_offset_c d', drift_offset_v d') = (0%float, 0%float).
Proof.
  cbv zeta. split; [reflexivity|].
  destruct (w_devices (Server.world
              (snd (Server._dispatch "SET_TEMP SN1 30.0"
                      (Server.init drift_config None 0 frozen_clock))))
            !! "SN1"%string) as [d'|] eqn:E; [|vm_compute in E; discriminate].
  exists d'. split; [reflexivity|].
  exact (set_temp_dispatch_applies_no_drift "SET_TEMP SN1 30.0" "SN1" "30.0"
           (Server.init drift_config None 0 frozen_clock) d' eq_refl E).
Defined.

(** C5 at a concrete server whose profile drifts by 0.01 degrees and 0.001 V
    per request: [PING], [READ_TEMP] and [SELF_TEST] each add the drift to
    the offsets of the device, [SET_TEMP] answers [ok] and adds nothing. *)
Lemma set_temp_request_accumulates_no_drift :
  let s := Server.init drift_config None 0 frozen_clock in
  let after line := drift_offsets_of (snd (Server._dispatch line s)) "SN1" in
  after "PING SN1"%string = Some (0.01%float, 0.001%float)
  /\ after "READ_TEMP SN1"%string = Some (0.01%float, 0.001%float)
  /\ after "SELF_TEST SN1"%string = Some (0.01%float, 0.001%float)
  /\ after "SET_TEMP SN1 30.0"%string = Some (0%float, 0%float)
  /\ (Protocol.ok <$> fst (Server._dispatch "SET_TEMP SN1 30.0" s)) = Some true.
Proof. cbv zeta. repeat split; reflexivity. Qed.

(** ** Reproducibility of a server run (C1) *)

Section RunsDiffer.

(** Two response lists whose second connection reports different voltages
    are different. *)
Lemma differ_by_vbat (x y : float) (r1 r2 : list (list Protocol.Response)) :
  (vbat_of <$> (r1 !! 1%nat ≫= head)) = Some (Some (JFloat x)) ->
  (vbat_of <$> (r2 !! 1%nat ≫= head)) = Some (Some (JFloat y)) ->
  (x =? y)%float = false ->
  is_nan x = false ->
  r1 <> r2.
Proof.
  intros H1 H2 Hxy Hx ->. rewrite H1 in H2.
  injection H2 as ->. unfold is_nan in Hx. rewrite Hxy in Hx. discriminate.
Qed.

End RunsDiffer.

(** C1 fails on the code: two runs with the same seed, the same (empty)
    profile and the same connections sending the same request lines answer
    differently when the wall clock differs, because [_update_signals]
    scales its random walk by the time elapsed since the last touch.  Each
    [PING] takes two draws in the injector and two in the walk; for the
    second [PING] the voltage draw is 0.  With the clock frozen no time
    elapses and it reports 12 V; with 10 s between clock reads 30 s elapse
    between the two walks and it reports [12 + 0.005 * 30 * (0 - 0.5)],
    that is 11.925 V.  A configured seed of 0 is turned into
    an unseeded generator, so two runs with seed 0 and the same clock also
    differ as soon as the operating system seeds them differently. *)
Theorem same_seed_same_requests_different_responses :
  let conns := [["PING SN1"%string]; ["PING SN1"%string]] in
  let run cfg entropy clock :=
    fst (Server.serve conns (Server.init cfg None entropy clock)) in
  run (seeded_config 1) 0%Z frozen_clock
    <> run (seeded_config 1) 0%Z ticking_clock
  /\ (vbat_of <$> (run (seeded_config 1) 0%Z frozen_clock !! 1%nat ≫= head))
     = Some (Some (JFloat 12))
  /\ (vbat_of <$> (run (seeded_config 1) 0%Z ticking_clock !! 1%nat ≫= head))
     = Some (Some (JFloat 11.925))
  /\ Server.seed_of (seeded_config 0) = None
  /\ run (seeded_config 0) 1%Z ticking_clock
       <> run (seeded_config 0) 2%Z ticking_clock.
Proof.
  cbv zeta. split; [|split; [|split; [|split]]].
  - apply (differ_by_vbat 12 11.925); vm_compute; reflexivity.
  - vm_compute; reflexivity.
  - vm_compute; reflexivity.
  - reflexivity.
  - apply (differ_by_vbat 11.925 11.9625); vm_compute; reflexivity.
Qed.

(** ** Burn-in is read from READ_TEMP's configuration only (C10) *)

Section BurnInFacts.
Import FaultInjection.




End BurnInFacts.



(** ** Runner: what one step logs (C4) *)

Section RunnerFacts.
Context `{PyBuiltins}.
Import Plan Logger Runner.

Lemma attempts_bounds (r a : Z) :
  In a (attempts r) -> (1 <= a <= r + 1)%Z.
Proof.
  unfold attempts. rewrite in_map_iff. intros (n & <- & Hn).
  apply in_seq in Hn. lia.
Qed.

(** An attempt logs at most one event, built for that attempt. *)
Lemma run_attempt_events (env : Env) (self : TestRunner)
    (run_id k fw : string) (step : StepSpec) (t : float) (a : Z)
    (w : RunnerWorld) :
  rw_events (snd (run_attempt env self run_id k fw step t a w)) = rw_events w
  \/ exists ev,
       rw_events (snd (run_attempt env self run_id k fw step t a w))
       = rw_events w ++ [ev]
       /\ test_step ev = id step /\ retries_allowed ev = retries step
       /\ attempt ev = a /\ retry_count ev = Z.max 0 (a - 1).
Proof.
  unfold run_attempt, client_call.
  destruct (ok _).
  - destruct (_evaluate_limits step _) as [[[[[lo le] lm] lv] lu]|e d];
      [|left; reflexivity].
    destruct lo; right; eexists; cbn; repeat split; reflexivity.
  - right. eexists. cbn. repeat split; reflexivity.
Qed.

Lemma run_attempts_events (env : Env) (self : TestRunner)
    (run_id k fw : string) (step : StepSpec) (t : float) (atts : list Z) :
  (forall a, In a atts -> (1 <= a <= retries step + 1)%Z) ->
  forall (last : StepAttemptResult) (w : RunnerWorld),
  exists new,
    rw_events (snd (run_attempts env self run_id k fw step t atts last w))
    = rw_events w ++ new
    /\ Forall (emitted_for step) new.
Proof.
  induction atts as [|a rest IH]; intros Hb last w; cbn [run_attempts].
  - exists []. rewrite app_nil_r. split; [reflexivity|constructor].
  - assert (Ha : (1 <= a <= retries step + 1)%Z) by (apply Hb; left; reflexivity).
    assert (Hrest : forall b, In b rest -> (1 <= b <= retries step + 1)%Z)
      by (intros b Hin; apply Hb; right; exact Hin).
    pose proof (run_attempt_events env self run_id k fw step t a w) as He.
    destruct (run_attempt env self run_id k fw step t a w) as [[r|e d] w1];
      cbn [snd] in He.
    + assert (Hnew : exists new1, rw_events w1 = rw_events w ++ new1
                                  /\ Forall (emitted_for step) new1).
      { destruct He as [He|(ev & He & Hs & Hr & Hat & Hrc)].
        - exists []. rewrite app_nil_r. split; [exact He|constructor].
        - exists [ev]. split; [exact He|]. constructor; [|constructor].
          unfold emitted_for. rewrite Hs, Hr, Hrc, Hat.
          repeat split; try reflexivity; lia. }
      destruct Hnew as (new1 & E1 & F1).
      destruct (ar_passed r).
      * exists new1. auto.
      * destruct (IH Hrest r w1) as (new2 & E2 & F2).
        exists (new1 ++ new2). rewrite E2, E1, <- app_assoc.
        split; [reflexivity|]. apply Forall_app; auto.
    + destruct He as [He|(ev & He & Hs & Hr & Hat & Hrc)].
      * exists []. rewrite app_nil_r. split; [exact He|constructor].
      * exists [ev]. split; [exact He|]. constructor; [|constructor].
        unfold emitted_for. rewrite Hs, Hr, Hrc, Hat.
        repeat split; try reflexivity; lia.
Qed.

Lemma run_step_events (env : Env) (self : TestRunner)
    (run_id k fw : string) (step : StepSpec) (w : RunnerWorld) :
  exists new,
    rw_events (snd (run_step env self run_id k fw step w))
    = rw_events w ++ new
    /\ Forall (emitted_for step) new.
Proof.
  unfold run_step.
  match goal with |- context [run_attempts ?e ?s ?r ?k ?f ?st ?t ?a ?l ?x] =>
    destruct (run_attempts_events e s r k f st t a (attempts_bounds _) l x)
      as (new & E & F);
    destruct (run_attempts e s r k f st t a l x) as [[r0|e0 d0] w1]
  end; cbn [snd] in *; exists new; auto.
Qed.

Lemma run_steps_events (env : Env) (self : TestRunner)
    (run_id k fw : string) (all : list StepSpec) (todo : list StepSpec) :
  (forall s, In s todo -> In s all) ->
  forall (p : bool) (fs : list (string * StepAttemptResult)) (w : RunnerWorld),
  exists new,
    rw_events (snd (run_steps env self run_id k fw todo p fs w))
    = rw_events w ++ new
    /\ Forall (fun ev => exists s, In s all /\ emitted_for s ev) new.
Proof.
  induction todo as [|step rest IH]; intros Hsub p fs w; cbn [run_steps].
  - exists []. rewrite app_nil_r. split; [reflexivity|constructor].
  - destruct (run_step_events env self run_id k fw step w) as (n1 & E1 & F1).
    assert (F1' : Forall (fun ev => exists s, In s all /\ emitted_for s ev) n1).
    { eapply Forall_impl; [exact F1|]. intros ev Hev. exists step.
      split; [apply Hsub; left; reflexivity|exact Hev]. }
    assert (Hrest : forall s, In s rest -> In s all)
      by (intros s Hin; apply Hsub; right; exact Hin).
    destruct (run_step env self run_id k fw step w) as [[out|e d] w1];
      cbn [snd] in E1.
    + destruct (ar_passed out).
      * destruct (IH Hrest p fs w1) as (n2 & E2 & F2).
        exists (n1 ++ n2). rewrite E2, E1, <- app_assoc.
        split; [reflexivity|]. apply Forall_app; auto.
      * destruct (IH Hrest false (fs ++ [(id step, out)]) w1) as (n2 & E2 & F2).
        exists (n1 ++ n2). rewrite E2, E1, <- app_assoc.
        split; [reflexivity|]. apply Forall_app; auto.
    + exists n1. auto.
Qed.

Lemma run_sn_events (env : Env) (self : TestRunner) (run_id k : string)
    (w : RunnerWorld) :
  exists new,
    rw_events (snd (run_sn env self run_id k w)) = rw_events w ++ new
    /\ Forall (fun ev => exists s, In s (steps (plan self)) /\ emitted_for s ev)
              new.
Proof.
  unfold run_sn, _ping_fw, client_call.
  match goal with |- context [run_steps ?e ?s ?r ?k ?f ?td ?p ?fs ?x] =>
    destruct (run_steps_events e s r k f td td (fun _ h => h) p fs x)
      as (new & E & F);
    destruct (run_steps e s r k f td p fs x) as [[[p0 fs0]|e0 d0] w1]
  end; cbn [snd] in *; exists new; auto.
Qed.

Lemma run_sns_events (env : Env) (self : TestRunner) (run_id : string)
    (sns : list string) :
  forall (ov : bool) (acc : list (string * SnSummary)) (w : RunnerWorld),
  exists new,
    rw_events (snd (run_sns env self run_id sns ov acc w)) = rw_events w ++ new
    /\ Forall (fun ev => exists s, In s (steps (plan self)) /\ emitted_for s ev)
              new.
Proof.
  induction sns as [|k rest IH]; intros ov acc w; cbn [run_sns].
  - exists []. rewrite app_nil_r. split; [reflexivity|constructor].
  - destruct (run_sn_events env self run_id k w) as (n1 & E1 & F1).
    destruct (run_sn env self run_id k w) as [[s|e d] w1]; cbn [snd] in E1.
    + destruct (IH (ov && ss_passed s) (acc ++ [(k, s)]) w1) as (n2 & E2 & F2).
      exists (n1 ++ n2). rewrite E2, E1, <- app_assoc.
      split; [reflexivity|]. apply Forall_app; auto.
    + exists n1. auto.
Qed.

End RunnerFacts.

(** C4.  Whatever the DUT answers, the events a batch appends to the log
    each belong to a step of the plan, carry that step's configured
    [retries] as [retries_allowed], and satisfy
    [retry_count = attempt - 1] and [1 <= attempt <= retries_allowed + 1]. *)
Theorem emitted_events_respect_attempt_bounds `{PyBuiltins}
    (env : Runner.Env) (self : Runner.TestRunner) (run_id : string)
    (sns : list string) (w : Runner.RunnerWorld) :
  exists new,
    Runner.rw_events (snd (Runner.run_batch env self run_id sns w))
    = Runner.rw_events w ++ new
    /\ Forall (fun ev =>
                 exists step,
                   In step (Plan.steps (Runner.plan self))
                   /\ Logger.test_step ev = Plan.id step
                   /\ Logger.retries_allowed ev = Plan.retries step
                   /\ Logger.retry_count ev = (Logger.attempt ev - 1)%Z
                   /\ (1 <= Logger.attempt ev
                       <= Logger.retries_allowed ev + 1)%Z)
              new.
Proof.
  unfold Runner.run_batch.
  destruct (run_sns_events env self run_id sns true [] w) as (new & E & F).
  exists new. split; [exact E|].
  eapply Forall_impl; [exact F|].
  intros ev (s & Hin & Hs). exists s. split; [exact Hin|exact Hs].
Qed.

(** ** Runner: the range limit (C6) *)




(** ** The traceability gate (C9) *)

Section CoverageFacts.
Import Coverage.

Lemma insert_sorted_not_nil (x : string) (l : list string) :
  insert_sorted x l <> [].
Proof. destruct l as [|y l']; cbn; [|destruct (String.leb x y)]; discriminate. Qed.

Lemma sorted_nil_iff (l : list string) : sorted l = [] <-> l = [].
Proof.
  split; [|intros ->; reflexivity].
  destruct l as [|x l']; [reflexivity|]. cbn.
  intros E. destruct (insert_sorted_not_nil _ _ E).
Qed.

Lemma elem_of_insert_sorted (x r : string) (l : list string) :
  r ∈ insert_sorted x l <-> r = x \/ r ∈ l.
Proof.
  induction l as [|y l IH]; cbn.
  - rewrite list_elem_of_singleton. split; [auto|].
    intros [E|E]; [exact E|inversion E].
  - destruct (String.leb x y).
    + rewrite elem_of_cons. reflexivity.
    + rewrite !elem_of_cons, IH. tauto.
Qed.

Lemma elem_of_sorted (r : string) (l : list string) :
  r ∈ sorted l <-> r ∈ l.
Proof.
  induction l as [|x l IH]; cbn; [reflexivity|].
  rewrite elem_of_insert_sorted, elem_of_cons, IH. reflexivity.
Qed.

Lemma elem_of_covered_by (step_pairs : list (string * list string))
    (rid : string) :
  rid ∈ covered_by step_pairs <-> exists p, p ∈ step_pairs /\ rid ∈ snd p.
Proof.
  unfold covered_by.
  assert (Hgen : forall (acc : gset string),
             rid ∈ foldl (fun acc p => acc ∪ list_to_set (snd p)) acc step_pairs
             <-> rid ∈ acc \/ exists p, p ∈ step_pairs /\ rid ∈ snd p).
  { induction step_pairs as [|q rest IH]; intros acc; cbn [foldl].
    - split; [auto|]. intros [Hin|(p & Hp & _)]; [exact Hin|].
      inversion Hp.
    - rewrite IH, elem_of_union, elem_of_list_to_set. split.
      + intros [[Hin|Hq]|(p & Hp & Hr)]; [left; exact Hin| |].
        * right. exists q. split; [left|exact Hq].
        * right. exists p. split; [right; exact Hp|exact Hr].
      + intros [Hin|(p & Hp & Hr)]; [left; left; exact Hin|].
        apply elem_of_cons in Hp as [->|Hp]; [left; right; exact Hr|].
        right. exists p. auto. }
  rewrite Hgen. split; [|auto]. intros [Hin|Hex]; [|exact Hex].
  apply not_elem_of_empty in Hin. destruct Hin.
Qed.

(** The validation accepts exactly when neither violation is there. *)
Lemma validate_coverage_ok_iff (requirements : Registry)
    (step_pairs : list (string * list string)) :
  validate_coverage requirements step_pairs = Ok tt
  <-> ~ (uncovered_requirement requirements step_pairs
         \/ unknown_reference requirements step_pairs).
Proof.
  unfold validate_coverage, uncovered_requirement, unknown_reference.
  destruct (sorted (elements (dom requirements ∖ covered_by step_pairs)))
    as [|m ms] eqn:E1.
  - apply sorted_nil_iff, elements_empty_iff in E1.
    destruct (sorted (elements (covered_by step_pairs ∖ dom requirements)))
      as [|r rs] eqn:E2.
    + apply sorted_nil_iff, elements_empty_iff in E2.
      split; [intros _|reflexivity].
      intros [(rid & Hd & Hno)|(p & rid & Hp & Hr & Hnd)].
      * assert (Hc : rid ∉ covered_by step_pairs).
        { rewrite elem_of_covered_by. intros (p & Hp & Hr).
          exact (Hno p Hp Hr). }
        set_solver.
      * assert (Hc : rid ∈ covered_by step_pairs).
        { rewrite elem_of_covered_by. exists p. auto. }
        set_solver.
    + split; [discriminate|]. intros Hno. exfalso. apply Hno. right.
      assert (Hr : r ∈ covered_by step_pairs ∖ dom requirements).
      { apply elem_of_elements, elem_of_sorted. rewrite E2. left. }
      apply elem_of_difference in Hr as [Hc Hnd].
      apply elem_of_covered_by in Hc as (p & Hp & Hrp).
      exists p, r. auto.
  - split; [discriminate|]. intros Hno. exfalso. apply Hno. left.
    assert (Hm : m ∈ dom requirements ∖ covered_by step_pairs).
    { apply elem_of_elements, elem_of_sorted. rewrite E1. left. }
    apply elem_of_difference in Hm as [Hd Hnc].
    exists m. split; [exact Hd|]. intros p Hp Hr. apply Hnc.
    apply elem_of_covered_by. exists p. auto.
Qed.


End CoverageFacts.



(** ** Stratification by temperature bin (C7) *)

Section StratFacts.
Context `{PyBuiltins}.
Import Logger Stratification.




Lemma group_members_fold (group_by_sn : gmap string string)
    (units : list (string * bool)) (g : string) :
  foldl (add_member group_by_sn) ∅ units !! g
  = match members_of group_by_sn units g with
    | [] => None
    | ms => Some ms
    end.
Proof.
  induction units as [|u units IH] using rev_ind.
  - reflexivity.
  - rewrite foldl_app. cbn [foldl].
    set (groups := foldl (add_member group_by_sn) ∅ units) in *.
    unfold add_member. unfold members_of in *. rewrite List.filter_app, fmap_app. cbn.
    destruct (String.eqb (default "UNKNOWN"%string (group_by_sn !! u.1)) g)
      eqn:Eg.
    + apply String.eqb_eq in Eg. rewrite Eg.
      rewrite lookup_insert_eq, IH. cbn.
      destruct (fst <$> List.filter _ units); reflexivity.
    + apply String.eqb_neq in Eg.
      rewrite lookup_insert_ne by exact Eg. rewrite IH. cbn.
      rewrite app_nil_r. reflexivity.
Qed.

Lemma elem_of_members_of (group_by_sn : gmap string string)
    (units : list (string * bool)) (g k : string) :
  k ∈ members_of group_by_sn units g
  <-> (exists b, (k, b) ∈ units)
      /\ default "UNKNOWN"%string (group_by_sn !! k) = g.
Proof.
  unfold members_of. rewrite list_elem_of_fmap. split.
  - intros ([k' b] & -> & Hin). apply list_elem_of_In, filter_In in Hin.
    destruct Hin as [Hin Hg]. cbn in *. apply String.eqb_eq in Hg.
    split; [exists b; apply list_elem_of_In; exact Hin|exact Hg].
  - intros [[b Hin] Hg]. exists (k, b). split; [reflexivity|].
    apply list_elem_of_In, filter_In. split.
    + apply list_elem_of_In. exact Hin.
    + cbn. apply String.eqb_eq. exact Hg.
Qed.

(** Who is counted where: [k] is a member of group [g] iff it is a unit of
    [final_pass] and [g] is its group. *)
Lemma group_members_spec (group_by_sn : gmap string string)
    (final_pass : gmap string bool) (g k : string) :
  (exists ms, group_members group_by_sn final_pass !! g = Some ms /\ k ∈ ms)
  <-> is_Some (final_pass !! k)
      /\ default "UNKNOWN"%string (group_by_sn !! k) = g.
Proof.
  unfold group_members. rewrite group_members_fold.
  pose proof (elem_of_members_of group_by_sn (map_to_list final_pass) g k)
    as Hm.
  assert (Hu : (exists b, (k, b) ∈ map_to_list final_pass)
               <-> is_Some (final_pass !! k)).
  { split; intros [b Hb]; exists b; apply elem_of_map_to_list; exact Hb. }
  rewrite <- Hu, <- Hm.
  destruct (members_of group_by_sn (map_to_list final_pass) g) as [|m ms].
  - split; [intros (? & [=] & _)|]. intros Hin. inversion Hin.
  - split; [intros (? & [= <-] & Hin); exact Hin|].
    intros Hin. eexists. split; [reflexivity|exact Hin].
Qed.

(** The units of [_final_pass_by_sn]: the non-empty serial numbers that
    occur in the log. *)
Lemma final_pass_units (events : list StepEvent) (k : string) :
  is_Some (_final_pass_by_sn events !! k)
  <-> k <> ""%string /\ exists ev, ev ∈ events /\ ev_sn ev = k.
Proof.
  unfold _final_pass_by_sn, is_Some.
  setoid_rewrite lookup_set_to_map; [|intros ? ? _ _ E; exact E].
  split.
  - intros (b & x & Hx & [= -> _]).
    apply elem_of_filter in Hx as [Hne Hx].
    apply elem_of_list_to_set, list_elem_of_fmap in Hx as (ev & -> & Hev).
    split; [|exists ev; auto].
    unfold nonempty in Hne. apply negb_true_iff, String.eqb_neq in Hne.
    exact Hne.
  - intros (Hne & ev & Hev & <-). eexists. exists (ev_sn ev).
    split; [|reflexivity]. apply elem_of_filter. split.
    + unfold nonempty. apply negb_true_iff, String.eqb_neq. exact Hne.
    + apply elem_of_list_to_set, list_elem_of_fmap. exists ev. auto.
Qed.



End StratFacts.




(** The bounds of C4 are met with equality: against a DUT that always
    answers 200 degrees, the step with one retry logs attempt 1 (retry
    count 0, to be retried) and attempt 2 (retry count 1, final), both
    failed on the limit. *)
Example failing_step_logs_every_attempt :
  (fun ev => (Logger.test_step ev, Logger.attempt ev, Logger.retry_count ev,
              Logger.retries_allowed ev, Logger.passed ev,
              Logger.ev_error_code ev))
    <$> Runner.rw_events
          (snd (Runner.run_batch (answering [("temp_c"%string, JFloat 200)])
                  example_runner "r1" ["SN1"%string] idle_runner_world))
  = [("read_temp"%string, 1%Z, 0%Z, 1%Z, false, Some "LIMIT_FAIL"%string);
     ("read_temp"%string, 2%Z, 1%Z, 1%Z, false, Some "LIMIT_FAIL"%string)].
Proof. vm_compute. reflexivity. Qed.

(** Scenario 4 of the specification on the code: two [READ_TEMP SN1]
    evaluations 20 ms apart under [min_interval_ms = 100].  Both are
    answered [E_BUSY]; the first does not pass. *)
Example both_requests_of_a_pair_are_rate_limited :
  let clock := fun n : nat => (1000 + 0.01 * Z2float (Z.of_nat n))%float in
  let first := FaultInjection.evaluate rate_limit_profile "READ_TEMP" "SN1" 0
                 (fresh_world 1 clock) in
  let second := FaultInjection.evaluate rate_limit_profile "READ_TEMP" "SN1" 0
                  (snd first) in
  fst first = FaultInjection.RESPOND "E_BUSY" "Rate-limited: min_interval_ms=100"
  /\ fst second
     = FaultInjection.RESPOND "E_BUSY" "Rate-limited: min_interval_ms=100".
Proof. cbv zeta. split; vm_compute; reflexivity. Qed.

(** * Further properties of the code *)

(** ** Request lines: tokens, and the round trip with the client *)

Section ParseFacts.
Import PyStr.










End ParseFacts.




(** ** Server dispatch: the shape of responses and what errors leave alone *)

Section DispatchFacts.
Context {G : Type} `{RandomGen G} `{PyBuiltins}.
Import Protocol FaultInjection DeviceModel Server.

(** A [RESPOND] of the injector carries [E_BUSY] or [E_INTERNAL]. *)
Lemma evaluate_respond_code (prof : Profile) (cmd k : string) (cycles : Z)
    (w : World G) (code msg : string) :
  fst (evaluate prof cmd k cycles w) = RESPOND code msg ->
  code = E_BUSY \/ code = E_INTERNAL.
Proof.
  unfold evaluate.
  destruct (_ctx_for k cmd w) as [c w1].
  unfold time_time. cbn [fst snd].
  match goal with |- context [should_busy _ _ _ ?x] =>
    pose proof (should_busy_code prof cmd k x) as Hbc;
    destruct (should_busy prof cmd k x) as [busy w2]
  end.
  cbn [fst] in Hbc.
  destruct (bd_should busy) eqn:Eb.
  { cbn [fst]. intros [= <- _]. left. auto. }
  pose proof (should_fail_code prof cmd k cycles w2) as Hfc.
  destruct (should_fail prof cmd k cycles w2) as [fl w3]. cbn [fst] in Hfc.
  destruct (fd_should fl) eqn:Ef.
  { cbn [fst]. intros [= <- _]. right. auto. }
  destruct (should_timeout prof cmd k cycles w3) as [to w4].
  destruct (td_should to); [destruct (String.eqb _ _)|]; cbn [fst];
    discriminate.
Qed.

Lemma dispatch_cases (line : string) (s : DutServer G) :
  dispatched line s (_dispatch line s).
Proof.
  unfold _dispatch. destruct (parse_command line) as [cmd args].
  destruct (String.eqb cmd "") eqn:E0.
  { apply protocol_error; [left; reflexivity|discriminate]. }
  assert (Hcmd : cmd <> ""%string) by (apply String.eqb_neq; exact E0).
  destruct (String.eqb cmd "SET_FAULT_PROFILE") eqn:E1.
  { apply String.eqb_eq in E1. subst cmd.
    destruct args as [|name [|]]; try apply profile_switch;
      (apply protocol_error; [left; reflexivity|discriminate]). }
  destruct (String.eqb cmd "SET_TEMP") eqn:E2.
  { destruct args as [|k [|targ [|]]];
      try (apply protocol_error; [left; reflexivity|exact Hcmd]).
    destruct (float_of_string targ) as [t|];
      [|apply protocol_error; [left; reflexivity|exact Hcmd]].
    destruct (_ || _);
      [apply protocol_error; [right; right; left; reflexivity|exact Hcmd]|].
    destruct (get_or_create _ k (world s)) as [d w1].
    pose proof (evaluate_respond_code (faults_profile s) cmd k (cycles d) w1)
      as Hcode.
    destruct (evaluate (faults_profile s) cmd k (cycles d) w1) as [a w2].
    cbn [fst] in Hcode.
    destruct (after_decision cmd a _ w2) as [r w3] eqn:Ea.
    replace r with (fst (after_decision cmd a
                           (set_temp (device_defaults (_cfg s)) k t) w2))
      by (rewrite Ea; reflexivity).
    apply decided; [exact Hcmd|exact Hcode]. }
  destruct (_ || _).
  - destruct args as [|k [|]];
      try (apply protocol_error; [left; reflexivity|exact Hcmd]).
    destruct (get_or_create _ k (world s)) as [d w1].
    destruct (apply_drift _ _ _ _ _) as [oc ov].
    match goal with |- context [evaluate ?p ?c ?n ?cy ?x] =>
      pose proof (evaluate_respond_code p c n cy x) as Hcode;
      destruct (evaluate p c n cy x) as [a w2]
    end.
    cbn [fst] in Hcode.
    match goal with |- context [after_decision ?c ?a ?op ?x] =>
      destruct (after_decision c a op x) as [r w3] eqn:Ea;
      replace r with (fst (after_decision c a op x))
        by (rewrite Ea; reflexivity)
    end.
    apply decided; [exact Hcmd|exact Hcode].
  - apply protocol_error; [right; left; reflexivity|exact Hcmd].
Qed.

End DispatchFacts.

(** X3.  Every response [_dispatch] returns names its command in [meta] and
    is either a success ([ok] true, no error code, message [OK]) or an
    error with empty [data] whose code is [E_BAD_ARGS], [E_UNKNOWN_CMD],
    [E_OUT_OF_RANGE], [E_BUSY] or [E_INTERNAL]; the server never answers
    [E_TIMEOUT]. *)
Theorem dispatch_response_shape {G : Type} `{RandomGen G} `{PyBuiltins}
    (line : string) (s : Server.DutServer G) :
  match fst (Server._dispatch line s) with
  | None => True
  | Some r =>
      (exists c, c <> ""%string
                 /\ Protocol.meta r = Some [("cmd"%string, JStr c)])
      /\ ((Protocol.ok r = true /\ Protocol.error_code r = None
           /\ Protocol.message r = "OK"%string)
          \/ (Protocol.ok r = false /\ Protocol.data r = []
              /\ exists code,
                   Protocol.error_code r = Some code
                   /\ In code [Protocol.E_BAD_ARGS; Protocol.E_UNKNOWN_CMD;
                               Protocol.E_OUT_OF_RANGE; Protocol.E_BUSY;
                               Protocol.E_INTERNAL]
                   /\ code <> Protocol.E_TIMEOUT))
  end.
Proof.
  assert (Hmeta : forall c, c <> ""%string ->
             Protocol.meta_of c = Some [("cmd"%string, JStr c)]).
  { intros c Hc. unfold Protocol.meta_of.
    apply String.eqb_neq in Hc. rewrite Hc. reflexivity. }
  destruct (dispatch_cases line s) as [code msg c Hin Hc|name
                                       |cmd decision op w1 w2 Hcmd Hcode];
    cbn [fst].
  - split; [exists c; split; [exact Hc|apply Hmeta, Hc]|].
    right. split; [reflexivity|]. split; [reflexivity|].
    exists code. split; [reflexivity|]. cbn in Hin.
    destruct Hin as [<-|[<-|[<-|[]]]]; (split; [cbn; tauto|discriminate]).
  - split; [eexists; split; [|reflexivity]; discriminate|].
    left. auto.
  - unfold Server.after_decision.
    destruct decision as [code msg|dl|dl|]; cbn [fst].
    + split; [exists cmd; auto|]. right.
      split; [reflexivity|]. split; [reflexivity|].
      exists code. split; [reflexivity|].
      destruct (Hcode code msg eq_refl) as [->| ->];
        (split; [cbn; tauto|discriminate]).
    + exact I.
    + destruct (op w1) as [d w3]. cbn [fst].
      split; [exists cmd; split; [exact Hcmd|apply Hmeta, Hcmd]|]. left. auto.
    + destruct (op w1) as [d w3]. cbn [fst].
      split; [exists cmd; split; [exact Hcmd|apply Hmeta, Hcmd]|]. left. auto.
Qed.

(** X4.  Protocol errors have no side effect: a request answered
    [E_BAD_ARGS], [E_UNKNOWN_CMD] or [E_OUT_OF_RANGE] leaves the whole server
    (devices, fault contexts, generator, clock reads, profile) as it was.  In
    particular a rejected [SET_TEMP] creates no device. *)
Theorem protocol_errors_leave_the_server_untouched
    {G : Type} `{RandomGen G} `{PyBuiltins}
    (line : string) (s : Server.DutServer G) (r : Protocol.Response)
    (code : string) :
  fst (Server._dispatch line s) = Some r ->
  Protocol.error_code r = Some code ->
  In code [Protocol.E_BAD_ARGS; Protocol.E_UNKNOWN_CMD;
           Protocol.E_OUT_OF_RANGE] ->
  snd (Server._dispatch line s) = s.
Proof.
  destruct (dispatch_cases line s) as [code' msg c Hin Hc|name
                                       |cmd decision op w1 w2 Hcmd Hcode];
    cbn [fst snd].
  - reflexivity.
  - intros [= <-]. discriminate.
  - unfold Server.after_decision.
    destruct decision as [code' msg|dl|dl|]; cbn [fst].
    + intros [= <-]. cbn. intros [= ->] Hin.
      destruct (Hcode code msg eq_refl) as [E|E]; rewrite E in Hin;
        cbn in Hin; destruct Hin as [E'|[E'|[E'|[]]]]; discriminate.
    + discriminate.
    + destruct (op w1) as [d w3]. cbn [fst]. intros [= <-]. discriminate.
    + destruct (op w1) as [d w3]. cbn [fst]. intros [= <-]. discriminate.
Qed.

Lemma protocol_errors_leave_the_server_untouched_witness :
  let s := Server.init drift_config None 0 frozen_clock in
  exists r,
    fst (Server._dispatch "SET_TEMP SN1 125.0001" s) = Some r
    /\ Protocol.error_code r = Some Protocol.E_OUT_OF_RANGE
    /\ snd (Server._dispatch "SET_TEMP SN1 125.0001" s) = s.
Proof.
  cbv zeta.
  destruct (fst (Server._dispatch "SET_TEMP SN1 125.0001"
                   (Server.init drift_config None 0 frozen_clock)))
    as [r|] eqn:E; [|vm_compute in E; discriminate].
  assert (Hc : Protocol.error_code r = Some Protocol.E_OUT_OF_RANGE).
  { vm_compute in E. injection E as <-. reflexivity. }
  exists r. split; [reflexivity|]. split; [exact Hc|].
  refine (protocol_errors_leave_the_server_untouched
            "SET_TEMP SN1 125.0001"
            (Server.init drift_config None 0 frozen_clock) r
            Protocol.E_OUT_OF_RANGE E Hc _).
  right. right. left. reflexivity.
Defined.

(** ** Device model: what the operations keep and change *)

Section DeviceFacts.
Context {G : Type} `{RandomGen G} `{PyBuiltins}.
Import DeviceModel.

Ltac break_draws :=
  repeat match goal with
    | |- context [rg_random ?g] => destruct (rg_random g)
    | |- context [rg_gauss ?g ?a ?b] => destruct (rg_gauss g a b)
    end.

Lemma new_device_mode (defaults : Defaults) (k : string) (now : float) :
  mode (new_device defaults k now) = "NORMAL"%string
  \/ mode (new_device defaults k now) = "SAFE"%string.
Proof.
  unfold new_device. cbn [mode].
  destruct (String.eqb _ "NORMAL") eqn:E1; cbn [orb].
  - left. apply String.eqb_eq. exact E1.
  - destruct (String.eqb _ "SAFE") eqn:E2; [right|left; reflexivity].
    apply String.eqb_eq. exact E2.
Qed.

Lemma well_formed_insert (m : gmap string DeviceState) (k : string)
    (d : DeviceState) :
  devices_well_formed m ->
  sn d = k -> (mode d = "NORMAL"%string \/ mode d = "SAFE"%string) ->
  (0 <= cycles d)%Z ->
  devices_well_formed (<[k := d]> m).
Proof.
  intros Hm Hs Hmode Hc k' d'. rewrite lookup_insert.
  destruct (decide (k = k')) as [<-|Hne]; [|apply Hm].
  intros [= <-]. auto.
Qed.

(** [get_or_create] hands out the device stored under the key, creating a
    well-formed one when there is none. *)
Lemma get_or_create_spec (defaults : Defaults) (k : string) (w : World G) :
  devices_well_formed (w_devices w) ->
  let '(d, w1) := get_or_create defaults k w in
  w_devices w1 !! k = Some d
  /\ devices_well_formed (w_devices w1)
  /\ sn d = k /\ (mode d = "NORMAL"%string \/ mode d = "SAFE"%string)
  /\ (0 <= cycles d)%Z.
Proof.
  intros Hwf. unfold get_or_create.
  destruct (w_devices w !! k) as [d|] eqn:E.
  - destruct (Hwf k d E) as (Hs & Hm & Hc). auto.
  - unfold time_time. cbn.
    pose proof (new_device_mode defaults k (w_clock w (w_reads w))) as Hm.
    split; [apply lookup_insert_eq|].
    split; [apply well_formed_insert; auto; reflexivity|].
    split; [reflexivity|]. split; [exact Hm|reflexivity].
Qed.

Lemma ping_well_formed (defaults : Defaults) (k : string) (w : World G) :
  devices_well_formed (w_devices w) ->
  devices_well_formed (w_devices (snd (ping defaults k w))).
Proof.
  intros Hwf. unfold ping.
  pose proof (get_or_create_spec defaults k w Hwf) as Hg.
  destruct (get_or_create defaults k w) as [d w1].
  destruct Hg as (_ & Hwf1 & Hs & Hm & Hc).
  unfold _update_signals, store, time_time, random. break_draws. cbn.
  apply well_formed_insert; auto.
Qed.

Lemma read_temp_well_formed (defaults : Defaults) (k : string) (w : World G) :
  devices_well_formed (w_devices w) ->
  devices_well_formed (w_devices (snd (read_temp defaults k w))).
Proof.
  intros Hwf. unfold read_temp.
  pose proof (get_or_create_spec defaults k w Hwf) as Hg.
  destruct (get_or_create defaults k w) as [d w1].
  destruct Hg as (_ & Hwf1 & Hs & Hm & Hc).
  unfold _update_signals, store, time_time, random, gauss. break_draws. cbn.
  apply well_formed_insert; [apply well_formed_insert| | |]; auto; cbn; lia.
Qed.

Lemma self_test_well_formed (defaults : Defaults) (k : string) (w : World G) :
  devices_well_formed (w_devices w) ->
  devices_well_formed (w_devices (snd (self_test defaults k w))).
Proof.
  intros Hwf. unfold self_test.
  pose proof (get_or_create_spec defaults k w Hwf) as Hg.
  destruct (get_or_create defaults k w) as [d w1].
  destruct Hg as (_ & Hwf1 & Hs & Hm & Hc).
  unfold _update_signals, store, time_time, random. break_draws. cbn.
  apply well_formed_insert; [apply well_formed_insert| | |]; auto; cbn; lia.
Qed.

Lemma set_temp_well_formed (defaults : Defaults) (k : string) (t : float)
    (w : World G) :
  devices_well_formed (w_devices w) ->
  devices_well_formed (w_devices (snd (set_temp defaults k t w))).
Proof.
  intros Hwf. unfold set_temp.
  pose proof (get_or_create_spec defaults k w Hwf) as Hg.
  destruct (get_or_create defaults k w) as [d w1].
  destruct Hg as (_ & Hwf1 & Hs & Hm & Hc).
  unfold store. cbn. apply well_formed_insert; auto.
Qed.

End DeviceFacts.

Section ServeFacts.
Context {G : Type} `{RandomGen G} `{PyBuiltins}.
Import Protocol FaultInjection DeviceModel Server.

Lemma after_decision_well_formed (cmd : string) (a : Action)
    (op : World G -> jobject * World G) (w : World G) :
  (forall w0, devices_well_formed (w_devices w0) ->
              devices_well_formed (w_devices (snd (op w0)))) ->
  devices_well_formed (w_devices w) ->
  devices_well_formed (w_devices (snd (after_decision cmd a op w))).
Proof.
  intros Hop Hwf. unfold after_decision.
  destruct a; cbn [snd]; auto; specialize (Hop w Hwf);
    destruct (op w); exact Hop.
Qed.

Lemma dispatch_well_formed (line : string) (s : DutServer G) :
  devices_well_formed (w_devices (world s)) ->
  devices_well_formed (w_devices (world (snd (_dispatch line s)))).
Proof.
  intros Hwf. unfold _dispatch. destruct (parse_command line) as [cmd args].
  destruct (String.eqb cmd ""); [exact Hwf|].
  destruct (String.eqb cmd "SET_FAULT_PROFILE").
  { destruct args as [|name [|]]; exact Hwf. }
  destruct (String.eqb cmd "SET_TEMP").
  { destruct args as [|k [|targ [|]]]; try exact Hwf.
    destruct (float_of_string targ) as [t|]; [|exact Hwf].
    destruct (_ || _); [exact Hwf|].
    pose proof (get_or_create_spec (device_defaults (_cfg s)) k (world s) Hwf)
      as Hg.
    destruct (get_or_create _ k (world s)) as [d w1].
    destruct Hg as (_ & Hwf1 & _).
    pose proof (evaluate_devices (faults_profile s) cmd k (cycles d) w1) as He.
    destruct (evaluate (faults_profile s) cmd k (cycles d) w1) as [a w2].
    cbn [snd] in He.
    pose proof (after_decision_well_formed cmd a
                  (set_temp (device_defaults (_cfg s)) k t) w2
                  (set_temp_well_formed _ k t)) as Ha.
    rewrite He in Ha. specialize (Ha Hwf1).
    destruct (after_decision cmd a _ w2) as [r w3]. exact Ha. }
  destruct (_ || _); [|exact Hwf].
  destruct args as [|k [|]]; try exact Hwf.
  pose proof (get_or_create_spec (device_defaults (_cfg s)) k (world s) Hwf)
    as Hg.
  destruct (get_or_create _ k (world s)) as [d w1].
  destruct Hg as (_ & Hwf1 & Hs & Hm & Hc).
  destruct (apply_drift _ _ _ _ _) as [oc ov].
  match goal with |- context [evaluate ?p ?c ?n ?cy ?x] =>
    pose proof (evaluate_devices p c n cy x) as He;
    assert (Hwf2 : devices_well_formed (w_devices x))
      by (unfold store; cbn; apply well_formed_insert; auto);
    destruct (evaluate p c n cy x) as [a w2]
  end.
  cbn [snd] in He. rewrite <- He in Hwf2.
  match goal with |- context [after_decision ?c ?a ?op ?x] =>
    assert (Ha : devices_well_formed
                   (w_devices (snd (after_decision c a op x))));
    [|destruct (after_decision c a op x) as [r w3]; exact Ha]
  end.
  apply after_decision_well_formed; [|exact Hwf2].
  destruct (String.eqb cmd "PING"); [apply ping_well_formed|].
  destruct (String.eqb cmd "READ_TEMP");
    [apply read_temp_well_formed|apply self_test_well_formed].
Qed.

Lemma handle_well_formed (lines : list string) :
  forall s : DutServer G,
    devices_well_formed (w_devices (world s)) ->
    devices_well_formed (w_devices (world (snd (_handle lines s)))).
Proof.
  induction lines as [|line rest IH]; intros s Hwf; cbn [_handle];
    [exact Hwf|].
  destruct (PyStr.split line); [apply IH, Hwf|].
  pose proof (dispatch_well_formed line s Hwf) as Hd.
  destruct (_dispatch line s) as [[r|] s1]; cbn [snd] in *; [|exact Hd].
  specialize (IH s1 Hd). destruct (_handle rest s1). exact IH.
Qed.

End ServeFacts.

(** X5.  In every state the server reaches by serving connections from its
    start, each device of the device map sits under its own serial number,
    is in mode [NORMAL] or [SAFE] (whatever [device_defaults] says) and has
    a cycle count that is not negative. *)
Theorem served_devices_stay_well_formed {G : Type} `{RandomGen G} `{PyBuiltins}
    (cfg : Server.DutConfig) (env_profile : option string) (entropy : Z)
    (clock : nat -> float) (conns : list (list string)) :
  devices_well_formed
    (w_devices (Server.world
       (snd (Server.serve conns
               (Server.init cfg env_profile entropy clock))))).
Proof.
  assert (Hgen : forall (s : Server.DutServer G),
             devices_well_formed (w_devices (Server.world s)) ->
             devices_well_formed
               (w_devices (Server.world (snd (Server.serve conns s))))).
  { induction conns as [|c rest IH]; intros s Hwf; cbn [Server.serve];
      [exact Hwf|].
    pose proof (handle_well_formed c s Hwf) as Hh.
    destruct (Server._handle c s) as [rs s1]. cbn [snd] in Hh.
    specialize (IH s1 Hh). destruct (Server.serve rest s1). exact IH. }
  apply Hgen. intros k d. cbn. rewrite lookup_empty. discriminate.
Qed.

(** ** NaN and the physical limits *)

Section NanFacts.

Lemma is_nan_Prim2SF (x : float) :
  is_nan x = true <-> Prim2SF x = S754_nan.
Proof.
  unfold is_nan. rewrite negb_true_iff, FloatAxioms.eqb_spec. unfold SFeqb.
  destruct (Prim2SF x) as [s|s| |s m e]; cbn [SFcompare].
  - split; discriminate.
  - destruct s; split; discriminate.
  - split; reflexivity.
  - destruct s; rewrite Z.compare_refl;
      change (PosDef.Pos.compare_cont Eq m m) with (m ?= m)%positive;
      rewrite Pos.compare_refl; split; discriminate.
Qed.

(** NaN compares false with everything. *)
Lemma nan_ltb (x y : float) :
  is_nan x = true -> (x <? y)%float = false /\ (y <? x)%float = false.
Proof.
  intros Hx. apply is_nan_Prim2SF in Hx.
  rewrite !FloatAxioms.ltb_spec, Hx. unfold SFltb.
  split; [reflexivity|].
  destruct (Prim2SF y) as [s|s| |s m e]; reflexivity.
Qed.

Lemma nan_add_l (x y : float) : is_nan x = true -> is_nan (x + y) = true.
Proof.
  intros Hx. apply is_nan_Prim2SF in Hx. apply is_nan_Prim2SF.
  rewrite FloatAxioms.add_spec, Hx. reflexivity.
Qed.

(** [min(max(x, lo), hi)] hands a NaN through. *)
Lemma clamp_nan (lo hi x : float) :
  is_nan x = true -> py_min (py_max x lo) hi = x.
Proof.
  intros Hx. unfold py_min, py_max.
  destruct (nan_ltb x lo Hx) as [-> _].
  destruct (nan_ltb x hi Hx) as [_ ->]. reflexivity.
Qed.

End NanFacts.

(** X6.  The clamp of [_update_signals] does not repair a NaN: a device
    whose temperature (or voltage) is NaN before a touch has a NaN
    temperature (or voltage) after it, whatever the clock and the draws. *)
Theorem update_signals_keeps_nan {G : Type} `{RandomGen G}
    (key : string) (d : DeviceState) (w : World G) :
  let d' := fst (DeviceModel._update_signals key d w) in
  (is_nan (temp_c d) = true -> is_nan (temp_c d') = true)
  /\ (is_nan (vbat_v d) = true -> is_nan (vbat_v d') = true).
Proof.
  cbv zeta. unfold DeviceModel._update_signals, time_time, random.
  cbn -[py_min py_max].
  destruct (rg_random (w_rng w)) as [r1 g1]. cbn -[py_min py_max].
  destruct (rg_random g1) as [r2 g2]. cbn -[py_min py_max].
  split; intros Hn; rewrite clamp_nan by (apply nan_add_l; exact Hn);
    apply nan_add_l; exact Hn.
Qed.

Lemma update_signals_keeps_nan_witness :
  let d := DeviceModel.with_temp_c safe_device nan in
  is_nan (temp_c d) = true
  /\ is_nan (temp_c (fst (DeviceModel._update_signals "SN1" d world_100)))
     = true.
Proof.
  cbv zeta.
  assert (Hn : is_nan (temp_c (DeviceModel.with_temp_c safe_device nan))
               = true) by reflexivity.
  split; [exact Hn|].
  exact (proj1 (update_signals_keeps_nan "SN1"
                  (DeviceModel.with_temp_c safe_device nan) world_100) Hn).
Defined.

(** ** SET_TEMP: what is accepted and what it does *)

Section SetTempFacts.
Context {G : Type} `{RandomGen G} `{PyBuiltins}.
Import Protocol FaultInjection DeviceModel Server.

Lemma set_temp_result (defaults : Defaults) (k : string) (t : float)
    (w : World G) :
  exists d,
    w_devices (snd (set_temp defaults k t w)) !! k = Some d
    /\ temp_c d = t
    /\ jget (fst (set_temp defaults k t w)) "temp_c" = Some (JFloat (py_round t 4)).
Proof.
  unfold set_temp, get_or_create.
  destruct (w_devices w !! k) as [d|]; cbn; eexists;
    (split; [apply lookup_insert_eq|split; reflexivity]).
Qed.

End SetTempFacts.

(** X7.  A [SET_TEMP sn t] request is answered [E_OUT_OF_RANGE] exactly
    when [t < -40.0] or [t > 125.0] holds, so the limits themselves pass;
    and when it is answered [ok], the device's true temperature is [t]
    itself and the response reports [round(t, 4)]. *)
Theorem set_temp_is_rejected_outside_the_limits_only
    {G : Type} `{RandomGen G} `{PyBuiltins}
    (line k targ : string) (t : float) (s : Server.DutServer G) :
  Protocol.parse_command line = ("SET_TEMP"%string, [k; targ]) ->
  float_of_string targ = Some t ->
  let out := Server._dispatch line s in
  ((Protocol.error_code <$> fst out = Some (Some Protocol.E_OUT_OF_RANGE))
   <-> ((t <? (-40)%float)%float || (125 <? t)%float = true))
  /\ (Protocol.ok <$> fst out = Some true ->
      exists d,
        w_devices (Server.world (snd out)) !! k = Some d
        /\ temp_c d = t
        /\ (Protocol.data <$> fst out) ≫= (fun d => jget d "temp_c")
           = Some (JFloat (py_round t 4))).
Proof.
  intros Hp Ht. cbv zeta. unfold Server._dispatch. rewrite Hp.
  cbn [String.eqb Ascii.eqb Bool.eqb]. rewrite Ht.
  destruct ((t <? (-40)%float)%float || (125 <? t)%float) eqn:Er.
  { cbn. split; [split; reflexivity|discriminate]. }
  destruct (DeviceModel.get_or_create _ k (Server.world s)) as [d w1].
  pose proof (evaluate_respond_code (Server.faults_profile s) "SET_TEMP" k
                (cycles d) w1) as Hcode.
  destruct (FaultInjection.evaluate _ _ _ _ w1) as [a w2]. cbn [fst] in Hcode.
  unfold Server.after_decision.
  destruct a as [code msg|dl|dl|].
  - cbn. split; [|discriminate]. split; [|discriminate].
    intros [= ->]. destruct (Hcode _ msg eq_refl); discriminate.
  - cbn. split; [split|]; discriminate.
  - destruct (set_temp_result (Server.device_defaults (Server._cfg s)) k t w2)
      as (d' & Hd & Htemp & Hrep).
    destruct (DeviceModel.set_temp _ k t w2) as [dat w3]. cbn in *.
    split; [split; discriminate|]. intros _. exists d'. auto.
  - destruct (set_temp_result (Server.device_defaults (Server._cfg s)) k t w2)
      as (d' & Hd & Htemp & Hrep).
    destruct (DeviceModel.set_temp _ k t w2) as [dat w3]. cbn in *.
    split; [split; discriminate|]. intros _. exists d'. auto.
Qed.

Lemma set_temp_is_rejected_outside_the_limits_only_witness :
  let s := Server.init (seeded_config 1) None 0 frozen_clock in
  (Protocol.error_code <$> fst (Server._dispatch "SET_TEMP SN1 125.0001" s)
   = Some (Some Protocol.E_OUT_OF_RANGE))
  /\ exists d,
       w_devices (Server.world (snd (Server._dispatch "SET_TEMP SN1 125" s)))
         !! "SN1"%string = Some d
       /\ temp_c d = 125%float.
Proof.
  cbv zeta. split.
  - apply (@set_temp_is_rejected_outside_the_limits_only
             Z counter_gen decimal_builtins
             "SET_TEMP SN1 125.0001" "SN1" "125.0001" 125.0001
             (Server.init (seeded_config 1) None 0 frozen_clock)
             eq_refl eq_refl).
    reflexivity.
  - assert (Hok : Protocol.ok
                    <$> fst (Server._dispatch "SET_TEMP SN1 125"
                               (Server.init (seeded_config 1) None 0
                                  frozen_clock))
                  = Some true) by (vm_compute; reflexivity).
    destruct (proj2 (@set_temp_is_rejected_outside_the_limits_only
                       Z counter_gen decimal_builtins
                       "SET_TEMP SN1 125" "SN1" "125" 125
                       (Server.init (seeded_config 1) None 0 frozen_clock)
                       eq_refl eq_refl) Hok)
      as (d & Hd & Ht & _).
    exists d. auto.
Defined.

(** X8.  The range check of [SET_TEMP] lets NaN through: when the
    temperature argument converts to a NaN (as [float("nan")] does), the
    request is not answered [E_OUT_OF_RANGE]; if the injector lets it pass,
    the device's true temperature becomes NaN. *)
Theorem set_temp_does_not_reject_nan {G : Type} `{RandomGen G} `{PyBuiltins}
    (line k targ : string) (t : float) (s : Server.DutServer G) :
  Protocol.parse_command line = ("SET_TEMP"%string, [k; targ]) ->
  float_of_string targ = Some t ->
  is_nan t = true ->
  let out := Server._dispatch line s in
  Protocol.error_code <$> fst out <> Some (Some Protocol.E_OUT_OF_RANGE)
  /\ (Protocol.ok <$> fst out = Some true ->
      exists d, w_devices (Server.world (snd out)) !! k = Some d
                /\ is_nan (temp_c d) = true).
Proof.
  intros Hp Ht Hn. cbv zeta. unfold Server._dispatch. rewrite Hp.
  cbn [String.eqb Ascii.eqb Bool.eqb]. rewrite Ht.
  destruct (nan_ltb t (-40)%float Hn) as [-> _].
  destruct (nan_ltb t 125%float Hn) as [_ ->]. cbn [orb].
  destruct (DeviceModel.get_or_create _ k (Server.world s)) as [d w1].
  pose proof (evaluate_respond_code (Server.faults_profile s) "SET_TEMP" k
                (cycles d) w1) as Hcode.
  destruct (FaultInjection.evaluate _ _ _ _ w1) as [a w2]. cbn [fst] in Hcode.
  unfold Server.after_decision.
  destruct a as [code msg|dl|dl|].
  - cbn. split; [|discriminate].
    intros [= ->]. destruct (Hcode _ msg eq_refl); discriminate.
  - cbn. split; discriminate.
  - destruct (set_temp_result (Server.device_defaults (Server._cfg s)) k t w2)
      as (d' & Hd & Htemp & _).
    destruct (DeviceModel.set_temp _ k t w2) as [dat w3]. cbn in *.
    split; [discriminate|]. intros _. exists d'. rewrite Htemp. auto.
  - destruct (set_temp_result (Server.device_defaults (Server._cfg s)) k t w2)
      as (d' & Hd & Htemp & _).
    destruct (DeviceModel.set_temp _ k t w2) as [dat w3]. cbn in *.
    split; [discriminate|]. intros _. exists d'. rewrite Htemp. auto.
Qed.

Lemma set_temp_does_not_reject_nan_witness :
  let out := @Server._dispatch Z counter_gen nan_reading_builtins
               "SET_TEMP SN1 nan"
               (Server.init (seeded_config 1) None 0 frozen_clock) in
  Protocol.ok <$> fst out = Some true
  /\ exists d, w_devices (Server.world (snd out)) !! "SN1"%string = Some d
               /\ is_nan (temp_c d) = true.
Proof.
  cbv zeta.
  assert (Hok : Protocol.ok
                  <$> fst (@Server._dispatch Z counter_gen nan_reading_builtins
                             "SET_TEMP SN1 nan"
                             (Server.init (seeded_config 1) None 0
                                frozen_clock))
                = Some true) by (vm_compute; reflexivity).
  split; [exact Hok|].
  exact (proj2 (@set_temp_does_not_reject_nan Z counter_gen
                  nan_reading_builtins "SET_TEMP SN1 nan" "SN1" "nan" nan
                  (Server.init (seeded_config 1) None 0 frozen_clock)
                  eq_refl eq_refl eq_refl) Hok).
Defined.

(** ** Burn-in cycles and drift across device operations *)

Section CycleFacts.
Context {G : Type} `{RandomGen G} `{PyBuiltins}.
Import DeviceModel.

Ltac break_draws :=
  repeat match goal with
    | |- context [rg_random ?g] => destruct (rg_random g)
    | |- context [rg_gauss ?g ?a ?b] => destruct (rg_gauss g a b)
    end.

Lemma get_or_create_at (defaults : Defaults) (k : string) (w : World G) :
  let '(d, w1) := get_or_create defaults k w in
  w_devices w1 !! k = Some d
  /\ cycles d = cycles_at w k
  /\ (drift_offset_c d, drift_offset_v d) = offsets_at w k.
Proof.
  unfold get_or_create, cycles_at, offsets_at.
  destruct (w_devices w !! k) as [d|] eqn:E; [auto|].
  unfold time_time. cbn. rewrite lookup_insert_eq. auto.
Qed.

Lemma ping_at (defaults : Defaults) (k : string) (w : World G) :
  cycles_at (snd (ping defaults k w)) k = cycles_at w k
  /\ offsets_at (snd (ping defaults k w)) k = offsets_at w k.
Proof.
  unfold ping. pose proof (get_or_create_at defaults k w) as Hg.
  destruct (get_or_create defaults k w) as [d w1].
  destruct Hg as (_ & Hc & Ho).
  unfold _update_signals, store, time_time, random. cbn. break_draws.
  unfold cycles_at, offsets_at. cbn. rewrite lookup_insert_eq. cbn. auto.
Qed.

Lemma read_temp_at (defaults : Defaults) (k : string) (w : World G) :
  cycles_at (snd (read_temp defaults k w)) k = (cycles_at w k + 1)%Z
  /\ offsets_at (snd (read_temp defaults k w)) k = offsets_at w k
  /\ jget (fst (read_temp defaults k w)) "cycles"
     = Some (JInt (cycles_at w k + 1)).
Proof.
  unfold read_temp. pose proof (get_or_create_at defaults k w) as Hg.
  destruct (get_or_create defaults k w) as [d w1].
  destruct Hg as (_ & Hc & Ho).
  unfold _update_signals, store, time_time, random, gauss. cbn. break_draws.
  unfold cycles_at, offsets_at. cbn. rewrite lookup_insert_eq. cbn.
  rewrite Hc. auto.
Qed.

Lemma self_test_at (defaults : Defaults) (k : string) (w : World G) :
  cycles_at (snd (self_test defaults k w)) k = (cycles_at w k + 1)%Z
  /\ offsets_at (snd (self_test defaults k w)) k = offsets_at w k
  /\ jget (fst (self_test defaults k w)) "cycles"
     = Some (JInt (cycles_at w k + 1)).
Proof.
  unfold self_test. pose proof (get_or_create_at defaults k w) as Hg.
  destruct (get_or_create defaults k w) as [d w1].
  destruct Hg as (_ & Hc & Ho).
  unfold _update_signals, store, time_time, random. cbn. break_draws.
  unfold cycles_at, offsets_at. cbn. rewrite lookup_insert_eq. cbn.
  rewrite Hc. auto.
Qed.

Lemma set_temp_at (defaults : Defaults) (k : string) (t : float)
    (w : World G) :
  cycles_at (snd (set_temp defaults k t w)) k = cycles_at w k
  /\ offsets_at (snd (set_temp defaults k t w)) k = offsets_at w k.
Proof.
  unfold set_temp. pose proof (get_or_create_at defaults k w) as Hg.
  destruct (get_or_create defaults k w) as [d w1].
  destruct Hg as (_ & Hc & Ho).
  unfold store, cycles_at, offsets_at. cbn. rewrite lookup_insert_eq. cbn.
  auto.
Qed.

End CycleFacts.

(** X9.  Burn-in is counted by the two measuring operations only:
    [read_temp] and [self_test] each raise the device's cycle count by
    exactly one and report the new count in the response; [ping] and
    [set_temp] leave the count as it is.  A device met for the first time
    starts from 0. *)
Theorem measuring_operations_count_cycles
    {G : Type} `{RandomGen G} `{PyBuiltins}
    (defaults : DeviceModel.Defaults) (k : string) (t : float) (w : World G) :
  cycles_at (snd (DeviceModel.read_temp defaults k w)) k
    = (cycles_at w k + 1)%Z
  /\ jget (fst (DeviceModel.read_temp defaults k w)) "cycles"
     = Some (JInt (cycles_at w k + 1))
  /\ cycles_at (snd (DeviceModel.self_test defaults k w)) k
     = (cycles_at w k + 1)%Z
  /\ jget (fst (DeviceModel.self_test defaults k w)) "cycles"
     = Some (JInt (cycles_at w k + 1))
  /\ cycles_at (snd (DeviceModel.ping defaults k w)) k = cycles_at w k
  /\ cycles_at (snd (DeviceModel.set_temp defaults k t w)) k = cycles_at w k.
Proof.
  destruct (read_temp_at defaults k w) as (R1 & _ & R2).
  destruct (self_test_at defaults k w) as (S1 & _ & S2).
  destruct (ping_at defaults k w) as (P1 & _).
  destruct (set_temp_at defaults k t w) as (T1 & _).
  auto 10.
Qed.

(** X10.  For [PING], [READ_TEMP] and [SELF_TEST] with one argument the
    drift is applied before the injector is asked and is kept whatever the
    injector decides: after the dispatch, also of a request that was
    answered [E_BUSY] or [E_INTERNAL] or dropped, the drift offsets of the
    device are [apply_drift] of the offsets and the cycle count the request
    found. *)
Theorem drift_is_applied_whatever_the_injector_decides
    {G : Type} `{RandomGen G} `{PyBuiltins}
    (line cmd k : string) (s : Server.DutServer G) :
  Protocol.parse_command line = (cmd, [k]) ->
  In cmd ["PING"; "READ_TEMP"; "SELF_TEST"]%string ->
  offsets_at (Server.world (snd (Server._dispatch line s))) k
  = FaultInjection.apply_drift (Server.faults_profile s) cmd
      (cycles_at (Server.world s) k)
      (fst (offsets_at (Server.world s) k))
      (snd (offsets_at (Server.world s) k)).
Proof.
  intros Hp Hin. unfold Server._dispatch. rewrite Hp.
  assert (Hsel : String.eqb cmd "" = false
                 /\ String.eqb cmd "SET_FAULT_PROFILE" = false
                 /\ String.eqb cmd "SET_TEMP" = false
                 /\ (String.eqb cmd "PING" || String.eqb cmd "READ_TEMP"
                     || String.eqb cmd "SELF_TEST") = true).
  { cbn in Hin. destruct Hin as [<-|[<-|[<-|[]]]]; repeat split; reflexivity. }
  destruct Hsel as (-> & -> & -> & ->).
  pose proof (get_or_create_at (Server.device_defaults (Server._cfg s)) k
                (Server.world s)) as Hg.
  destruct (DeviceModel.get_or_create _ k (Server.world s)) as [d w1].
  destruct Hg as (_ & Hc & Ho). rewrite <- Hc, <- Ho. cbn [fst snd].
  destruct (FaultInjection.apply_drift _ cmd (cycles d) _ _) as [oc ov] eqn:Ed.
  match goal with |- context [FaultInjection.evaluate ?p ?c ?n ?cy ?x] =>
    pose proof (evaluate_devices p c n cy x) as He;
    assert (Hx : offsets_at x k = (oc, ov))
      by (unfold offsets_at, DeviceModel.store; cbn;
          rewrite lookup_insert_eq; reflexivity);
    destruct (FaultInjection.evaluate p c n cy x) as [a w2]
  end.
  cbn [snd] in He.
  assert (H2 : offsets_at w2 k = (oc, ov))
    by (unfold offsets_at in *; rewrite He; exact Hx).
  unfold Server.after_decision.
  destruct a as [code msg|dl|dl|]; cbn [snd Server.world Server.with_world];
    try exact H2.
  all: destruct (String.eqb cmd "PING");
    [pose proof (ping_at (Server.device_defaults (Server._cfg s)) k w2)
       as (_ & Hop);
     destruct (DeviceModel.ping _ k w2) as [dat w3]
    |destruct (String.eqb cmd "READ_TEMP");
     [pose proof (read_temp_at (Server.device_defaults (Server._cfg s)) k w2)
        as (_ & Hop & _);
      destruct (DeviceModel.read_temp _ k w2) as [dat w3]
     |pose proof (self_test_at (Server.device_defaults (Server._cfg s)) k w2)
        as (_ & Hop & _);
      destruct (DeviceModel.self_test _ k w2) as [dat w3]]];
    cbn [snd Server.world Server.with_world] in *; congruence.
Qed.

Lemma drift_is_applied_whatever_the_injector_decides_witness :
  (Protocol.error_code
     <$> fst (Server._dispatch "READ_TEMP SN1" drifting_rate_limited_server))
  = Some (Some Protocol.E_BUSY)
  /\ offsets_at
       (Server.world
          (snd (Server._dispatch "READ_TEMP SN1" drifting_rate_limited_server)))
       "SN1"
     = (0.01%float, 0.001%float).
Proof.
  split; [vm_compute; reflexivity|].
  assert (Hin : In "READ_TEMP"%string ["PING"; "READ_TEMP"; "SELF_TEST"]%string)
    by (right; left; reflexivity).
  rewrite (@drift_is_applied_whatever_the_injector_decides Z counter_gen
             decimal_builtins "READ_TEMP SN1" "READ_TEMP" "SN1"
             drifting_rate_limited_server eq_refl Hin).
  vm_compute. reflexivity.
Defined.

(** ** Fault injector: multipliers, and what an evaluation does to contexts *)

Section MultiplierFacts.




End MultiplierFacts.


Section ContextFacts.
Context {G : Type} `{RandomGen G}.
Import FaultInjection.

Lemma ctx_kept_same (k cmd : string) (w w' : World G) :
  w_ctx w' = w_ctx w -> ctx_kept k cmd w w'.
Proof. intros E. split; intros; rewrite E; eauto. Qed.

Lemma ctx_kept_trans (k cmd : string) (w1 w2 w3 : World G) :
  ctx_kept k cmd w1 w2 -> ctx_kept k cmd w2 w3 -> ctx_kept k cmd w1 w3.
Proof.
  intros [A1 B1] [A2 B2]. split.
  - intros key Hne. rewrite A2, A1; auto.
  - intros c Hc. destruct (B1 c Hc) as (c' & Hc' & E1).
    destruct (B2 c' Hc') as (c'' & Hc'' & E2). exists c''. split; congruence.
Qed.

Lemma ctx_for_kept (k cmd : string) (w : World G) :
  ctx_kept k cmd w (snd (_ctx_for k cmd w))
  /\ w_ctx (snd (_ctx_for k cmd w)) !! (k, cmd) = Some (fst (_ctx_for k cmd w)).
Proof.
  unfold _ctx_for. destruct (w_ctx w !! (k, cmd)) as [c|] eqn:E; cbn.
  - split; [apply ctx_kept_same; reflexivity|exact E].
  - split; [|apply lookup_insert_eq]. split.
    + intros key Hne. cbn. apply lookup_insert_ne. congruence.
    + intros c Hc. congruence.
Qed.

Lemma set_markov_state_kept (k cmd : string) (st : MarkovState) (w : World G) :
  ctx_kept k cmd w (set_markov_state k cmd st w).
Proof.
  unfold set_markov_state. split; cbn.
  - intros key Hne. apply lookup_alter_ne. congruence.
  - intros c Hc. rewrite lookup_alter_eq, Hc. cbn. eauto.
Qed.

Lemma random_ctx (w : World G) : w_ctx (snd (random w)) = w_ctx w.
Proof. unfold random. destruct (rg_random (w_rng w)); reflexivity. Qed.

Lemma uniform_ctx (a b : float) (w : World G) :
  w_ctx (snd (uniform a b w)) = w_ctx w.
Proof.
  unfold uniform, rg_uniform. destruct (rg_random (w_rng w)); reflexivity.
Qed.

Lemma markov_step_kept (prof : Profile) (cmd k : string) (w : World G) :
  ctx_kept k cmd w (snd (_markov_step prof cmd k w)).
Proof.
  unfold _markov_step. case_if; [apply ctx_kept_same; reflexivity|].
  destruct (ctx_for_kept k cmd w) as [Hc _].
  destruct (_ctx_for k cmd w) as [c w1]. cbn [snd] in Hc.
  pose proof (random_ctx w1) as Hr.
  destruct (markov_state c); destruct (random w1) as [r w2];
    cbn [snd] in Hr; case_if; cbn [snd];
    (eapply ctx_kept_trans; [exact Hc|]);
    (eapply ctx_kept_trans; [apply ctx_kept_same; exact Hr|]);
    try (apply ctx_kept_same; reflexivity).
  - eapply ctx_kept_trans; [apply set_markov_state_kept|].
    apply ctx_kept_same. reflexivity.
  - eapply ctx_kept_trans; [apply set_markov_state_kept|].
    apply ctx_kept_same. reflexivity.
Qed.

Lemma should_busy_kept (prof : Profile) (cmd k : string) (w : World G) :
  ctx_kept k cmd w (snd (should_busy prof cmd k w)).
Proof.
  unfold should_busy.
  destruct (ctx_for_kept k cmd w) as [Hc _].
  destruct (_ctx_for k cmd w) as [c w1]. cbn [snd] in Hc.
  unfold time_time. cbn [fst snd].
  eapply ctx_kept_trans; [exact Hc|].
  case_if; [apply ctx_kept_same; reflexivity|].
  case_if; [|apply ctx_kept_same; reflexivity].
  match goal with |- context [random ?x] =>
    pose proof (random_ctx x) as Hr; destruct (random x) as [r w2] end.
  cbn in Hr. case_if; apply ctx_kept_same; exact Hr.
Qed.

Lemma should_fail_kept (prof : Profile) (cmd k : string) (cycles : Z)
    (w : World G) :
  ctx_kept k cmd w (snd (should_fail prof cmd k cycles w)).
Proof.
  unfold should_fail, _markov_fail_add.
  pose proof (markov_step_kept prof cmd k w) as Hs.
  destruct (negb (markov_enabled prof)).
  - pose proof (random_ctx w) as Hr. destruct (random w) as [r w2].
    cbn [snd] in Hr. case_if; apply ctx_kept_same; exact Hr.
  - destruct (_markov_step prof cmd k w) as [st w1]. cbn [snd] in Hs.
    pose proof (random_ctx w1) as Hr.
    destruct st; destruct (random w1) as [r w2]; cbn [snd] in Hr;
      case_if; cbn [snd];
      (eapply ctx_kept_trans; [exact Hs|apply ctx_kept_same; exact Hr]).
Qed.

Lemma markov_timeout_add_kept (prof : Profile) (cmd k : string)
    (w : World G) :
  ctx_kept k cmd w (snd (_markov_timeout_add prof cmd k w)).
Proof.
  unfold _markov_timeout_add. case_if; [apply ctx_kept_same; reflexivity|].
  pose proof (markov_step_kept prof cmd k w) as Hs.
  destruct (_markov_step prof cmd k w) as [s w1]. cbn [snd] in Hs.
  destruct s; [exact Hs|].
  destruct (default _ _) as [lo hi]. case_if; [|exact Hs].
  pose proof (uniform_ctx lo hi w1) as Hu.
  destruct (uniform lo hi w1) as [d w2]. cbn [snd] in *.
  eapply ctx_kept_trans; [exact Hs|apply ctx_kept_same; exact Hu].
Qed.

Lemma should_timeout_kept (prof : Profile) (cmd k : string) (cycles : Z)
    (w : World G) :
  ctx_kept k cmd w (snd (should_timeout prof cmd k cycles w)).
Proof.
  unfold should_timeout.
  pose proof (markov_timeout_add_kept prof cmd k w) as Hs.
  destruct (_markov_timeout_add prof cmd k w) as [[pm ov] w1].
  cbn [snd] in Hs.
  destruct (default _ (t_delay_s _)) as [lo hi].
  destruct (0 <? hi)%float.
  - pose proof (uniform_ctx lo hi w1) as Hu.
    destruct (uniform lo hi w1) as [d w2]. cbn [snd] in Hu.
    pose proof (random_ctx w2) as Hr. destruct (random w2) as [r w3].
    cbn [snd] in *. eapply ctx_kept_trans; [exact Hs|].
    apply ctx_kept_same. congruence.
  - pose proof (random_ctx w1) as Hr. destruct (random w1) as [r w3].
    cbn [snd] in *. eapply ctx_kept_trans; [exact Hs|].
    apply ctx_kept_same. exact Hr.
Qed.

End ContextFacts.

(** X12.  Fault contexts are per (sn, cmd): an evaluation for [(k, cmd)]
    leaves the context of every other pair (its Markov state and its time
    stamp) exactly as it was; and whatever the evaluation answers, it leaves
    a context for [(k, cmd)] whose [last_cmd_ts] is the clock read taken on
    entry. *)
Theorem evaluate_touches_its_own_context_only {G : Type} `{RandomGen G}
    (prof : FaultInjection.Profile) (cmd k : string) (cycles : Z)
    (w : World G) :
  let w' := snd (FaultInjection.evaluate prof cmd k cycles w) in
  (forall key, key <> (k, cmd) -> w_ctx w' !! key = w_ctx w !! key)
  /\ exists c, w_ctx w' !! (k, cmd) = Some c
               /\ last_cmd_ts c = w_clock w (w_reads w).
Proof.
  cbv zeta. unfold FaultInjection.evaluate.
  destruct (ctx_for_kept k cmd w) as [Hc Hl].
  assert (Hclk : w_clock (snd (FaultInjection._ctx_for k cmd w)) = w_clock w
                 /\ w_reads (snd (FaultInjection._ctx_for k cmd w)) = w_reads w).
  { unfold FaultInjection._ctx_for.
    destruct (w_ctx w !! (k, cmd)); split; reflexivity. }
  destruct (FaultInjection._ctx_for k cmd w) as [c w1].
  cbn [fst snd] in Hc, Hl, Hclk. destruct Hclk as [Hck Hrd].
  unfold time_time. cbn [fst snd].
  set (w2 := FaultInjection.set_last_cmd_ts k cmd (w_clock w1 (w_reads w1)) _).
  assert (H2 : (forall key, key <> (k, cmd) -> w_ctx w2 !! key = w_ctx w !! key)
               /\ exists c2, w_ctx w2 !! (k, cmd) = Some c2
                             /\ last_cmd_ts c2 = w_clock w (w_reads w)).
  { subst w2. unfold FaultInjection.set_last_cmd_ts. cbn. split.
    - intros key Hne. rewrite lookup_alter_ne by congruence.
      apply Hc. exact Hne.
    - rewrite lookup_alter_eq, Hl. cbn. eexists. split; [reflexivity|].
      cbn. rewrite Hck, Hrd. reflexivity. }
  assert (Hgen : forall w3 : World G,
             ctx_kept k cmd w2 w3 ->
             (forall key, key <> (k, cmd) -> w_ctx w3 !! key = w_ctx w !! key)
             /\ exists c3, w_ctx w3 !! (k, cmd) = Some c3
                           /\ last_cmd_ts c3 = w_clock w (w_reads w)).
  { intros w3 [A B]. destruct H2 as [A2 (c2 & Hc2 & Ht2)]. split.
    - intros key Hne. rewrite A, A2; auto.
    - destruct (B c2 Hc2) as (c3 & Hc3 & Ht3). exists c3.
      split; [exact Hc3|congruence]. }
  pose proof (should_busy_kept prof cmd k w2) as Hb.
  destruct (FaultInjection.should_busy prof cmd k w2) as [busy w3].
  cbn [snd] in Hb.
  case_if; [cbn [snd]; apply Hgen, Hb|].
  pose proof (should_fail_kept prof cmd k cycles w3) as Hf.
  destruct (FaultInjection.should_fail prof cmd k cycles w3) as [fl w4].
  cbn [snd] in Hf.
  assert (Hb4 : ctx_kept k cmd w2 w4) by (eapply ctx_kept_trans; eauto).
  case_if; [cbn [snd]; apply Hgen, Hb4|].
  pose proof (should_timeout_kept prof cmd k cycles w4) as Ht.
  destruct (FaultInjection.should_timeout prof cmd k cycles w4) as [to w5].
  cbn [snd] in Ht.
  assert (Hb5 : ctx_kept k cmd w2 w5) by (eapply ctx_kept_trans; eauto).
  case_if; [case_if|]; cbn [snd]; apply Hgen, Hb5.
Qed.

Lemma evaluate_touches_its_own_context_only_witness :
  let w := snd (FaultInjection.evaluate alternating_markov_profile
                  "PING" "SN2" 0 (fresh_world 1 ticking_clock)) in
  let w' := snd (FaultInjection.evaluate alternating_markov_profile
                   "READ_TEMP" "SN1" 0 w) in
  ("SN2"%string, "PING"%string) <> ("SN1"%string, "READ_TEMP"%string)
  /\ w_ctx w' !! ("SN2"%string, "PING"%string)
     = w_ctx w !! ("SN2"%string, "PING"%string).
Proof.
  cbv zeta.
  assert (Hne : ("SN2"%string, "PING"%string)
                <> ("SN1"%string, "READ_TEMP"%string)) by discriminate.
  split; [exact Hne|].
  exact (proj1 (evaluate_touches_its_own_context_only
                  alternating_markov_profile "READ_TEMP" "SN1" 0
                  (snd (FaultInjection.evaluate alternating_markov_profile
                          "PING" "SN2" 0 (fresh_world 1 ticking_clock))))
           ("SN2"%string, "PING"%string) Hne).
Defined.

(** ** Traceability: the order of [sorted] and the coverage matrix *)


Section SortedFacts.

Lemma ascii_compare_lt_trans (a b c : ascii) :
  Ascii.compare a b = Lt -> Ascii.compare b c = Lt -> Ascii.compare a c = Lt.
Proof.
  unfold Ascii.compare. rewrite !N.compare_lt_iff. apply N.lt_trans.
Qed.

Lemma ascii_compare_eq (a b : ascii) : Ascii.compare a b = Eq -> a = b.
Proof.
  unfold Ascii.compare. intros E. apply N.compare_eq in E.
  rewrite <- (ascii_N_embedding a), <- (ascii_N_embedding b), E. reflexivity.
Qed.

Lemma string_compare_lt_trans (s1 : string) :
  forall s2 s3, String.compare s1 s2 = Lt -> String.compare s2 s3 = Lt ->
                String.compare s1 s3 = Lt.
Proof.
  induction s1 as [|a s1 IH]; intros [|b s2] [|c s3]; cbn; try congruence.
  destruct (Ascii.compare a b) eqn:Eab; try discriminate;
    destruct (Ascii.compare b c) eqn:Ebc; try discriminate; intros H1 H2.
  - apply ascii_compare_eq in Eab, Ebc. subst.
    assert (Ec : Ascii.compare c c = Eq)
      by (unfold Ascii.compare; apply N.compare_refl).
    rewrite Ec. eapply IH; eauto.
  - apply ascii_compare_eq in Eab. subst. rewrite Ebc. reflexivity.
  - apply ascii_compare_eq in Ebc. subst. rewrite Eab. reflexivity.
  - rewrite (ascii_compare_lt_trans a b c Eab Ebc). reflexivity.
Qed.

Lemma string_leb_trans (s1 s2 s3 : string) :
  String.leb s1 s2 = true -> String.leb s2 s3 = true ->
  String.leb s1 s3 = true.
Proof.
  unfold String.leb.
  destruct (String.compare s1 s2) eqn:E12; try discriminate;
    destruct (String.compare s2 s3) eqn:E23; try discriminate; intros _ _.
  - apply String.compare_eq_iff in E12. rewrite E12, E23. reflexivity.
  - apply String.compare_eq_iff in E12. rewrite E12, E23. reflexivity.
  - apply String.compare_eq_iff in E23. rewrite <- E23, E12. reflexivity.
  - rewrite (string_compare_lt_trans _ _ _ E12 E23). reflexivity.
Qed.

Lemma insert_sorted_perm (x : string) (l : list string) :
  insert_sorted x l ≡ₚ x :: l.
Proof.
  induction l as [|y l IH]; cbn; [reflexivity|].
  destruct (String.leb x y); [reflexivity|].
  rewrite IH. apply Permutation_swap.
Qed.

Lemma sorted_perm (l : list string) : sorted l ≡ₚ l.
Proof.
  induction l as [|x l IH]; cbn; [reflexivity|].
  rewrite insert_sorted_perm, IH. reflexivity.
Qed.

Lemma insert_sorted_ascending (x : string) (l : list string) :
  ascending l -> ascending (insert_sorted x l).
Proof.
  induction l as [|y l IH]; cbn [insert_sorted ascending].
  - intros _. split; [constructor|exact I].
  - intros [Hy Hs]. destruct (String.leb x y) eqn:E; cbn [ascending].
    + split; [|split; assumption].
      constructor; [exact E|].
      eapply List.Forall_impl; [|exact Hy]. cbn. intros z Hz.
      eapply string_leb_trans; eauto.
    + split; [|apply IH; exact Hs].
      assert (Hyx : String.leb y x = true).
      { destruct (String.leb_total x y) as [Hl|Hl]; congruence. }
      apply Forall_forall. intros z Hz.
      apply elem_of_insert_sorted in Hz as [->|Hz]; [exact Hyx|].
      rewrite Forall_forall in Hy. apply Hy. exact Hz.
Qed.

Lemma sorted_ascending (l : list string) : ascending (sorted l).
Proof.
  induction l as [|x l IH]; cbn [sorted foldr]; [exact I|].
  apply insert_sorted_ascending. exact IH.
Qed.

Lemma ascending_filter (f : string -> bool) (l : list string) :
  ascending l -> ascending (List.filter f l).
Proof.
  induction l as [|y l IH]; cbn [List.filter ascending]; [auto|].
  intros [Hy Hs]. destruct (f y); [|apply IH; exact Hs].
  cbn [ascending]. split; [|apply IH; exact Hs].
  apply Forall_forall. intros z Hz. apply list_elem_of_In, filter_In in Hz.
  rewrite Forall_forall in Hy. apply Hy, list_elem_of_In, Hz.
Qed.

(** An ascending list is fixed by its elements. *)
Lemma ascending_unique (l1 : list string) :
  forall l2, ascending l1 -> ascending l2 -> l1 ≡ₚ l2 -> l1 = l2.
Proof.
  induction l1 as [|x l1 IH]; intros [|y l2] H1 H2 Hp.
  - reflexivity.
  - apply Permutation_nil_l in Hp. discriminate.
  - symmetry in Hp. apply Permutation_nil_l in Hp. discriminate.
  - destruct H1 as [Hx H1]. destruct H2 as [Hy H2].
    rewrite Forall_forall in Hx, Hy.
    assert (Hxy : x = y).
    { assert (Hin1 : x ∈ y :: l2) by (rewrite <- Hp; left).
      assert (Hin2 : y ∈ x :: l1) by (rewrite Hp; left).
      apply elem_of_cons in Hin1 as [E|Hin1]; [exact E|].
      apply elem_of_cons in Hin2 as [E|Hin2]; [symmetry; exact E|].
      apply String.leb_antisym; [apply Hx; exact Hin2|apply Hy; exact Hin1]. }
    subst y. f_equal. apply IH; try assumption.
    eapply Permutation_cons_inv. exact Hp.
Qed.

End SortedFacts.

Section MatrixFacts.
Import Coverage.

Lemma add_steps_lookup (sid rid : string) (rids : list string) :
  forall m : gmap string (list string),
    default [] (foldl (add_step sid) m rids !! rid)
    = default [] (m !! rid)
      ++ map (fun _ => sid) (List.filter (String.eqb rid) rids).
Proof.
  induction rids as [|r rids IH]; intros m; cbn [foldl List.filter map].
  - rewrite app_nil_r. reflexivity.
  - rewrite IH. unfold add_step.
    destruct (String.eqb rid r) eqn:E.
    + apply String.eqb_eq in E. subst r. rewrite lookup_insert_eq. cbn.
      rewrite <- app_assoc. reflexivity.
    + apply String.eqb_neq in E. rewrite lookup_insert_ne by congruence.
      reflexivity.
Qed.

Lemma req_to_steps_lookup (rid : string) (steps : list (string * list string)) :
  forall m : gmap string (list string),
    default [] (foldl (fun m p => foldl (add_step (fst p)) m (snd p)) m steps
                !! rid)
    = default [] (m !! rid) ++ steps_referencing rid steps.
Proof.
  induction steps as [|p steps IH]; intros m; cbn [foldl steps_referencing flat_map].
  - rewrite app_nil_r. reflexivity.
  - rewrite IH, add_steps_lookup, <- app_assoc. reflexivity.
Qed.

Lemma steps_referencing_nil (rid : string)
    (steps : list (string * list string)) :
  steps_referencing rid steps = [] <-> rid ∉ covered_by steps.
Proof.
  rewrite elem_of_covered_by. unfold steps_referencing.
  induction steps as [|p steps IH]; cbn [flat_map].
  - split; [|reflexivity]. intros _ (q & Hq & _). inversion Hq.
  - split.
    + intros E. apply app_eq_nil in E as [E1 E2].
      intros (q & Hq & Hr). apply elem_of_cons in Hq as [->|Hq].
      * apply list_elem_of_In in Hr.
        assert (Hin : In rid (List.filter (String.eqb rid) (snd p))).
        { apply filter_In. split; [exact Hr|apply String.eqb_refl]. }
        destruct (List.filter (String.eqb rid) (snd p)); [destruct Hin|].
        discriminate.
      * apply IH in E2. apply E2. exists q. auto.
    + intros Hno.
      assert (E2 : flat_map
                     (fun p => map (fun _ => fst p)
                                   (List.filter (String.eqb rid) (snd p)))
                     steps = []).
      { apply IH. intros (q & Hq & Hr). apply Hno. exists q.
        split; [right; exact Hq|exact Hr]. }
      rewrite E2, app_nil_r.
      destruct (List.filter (String.eqb rid) (snd p)) as [|r rs] eqn:Ef;
        [reflexivity|].
      exfalso. apply Hno. exists p. split; [left|].
      assert (Hin : In r (List.filter (String.eqb rid) (snd p)))
        by (rewrite Ef; left; reflexivity).
      apply filter_In in Hin as [Hin Hr]. apply String.eqb_eq in Hr. subst r.
      apply list_elem_of_In. exact Hin.
Qed.

Lemma classic_steps (rid : string) (steps : list (string * list string)) :
  (exists p, p ∈ steps /\ rid ∈ snd p) \/ ~ (exists p, p ∈ steps /\ rid ∈ snd p).
Proof.
  rewrite <- elem_of_covered_by.
  destruct (decide (rid ∈ covered_by steps)); auto.
Qed.

(** The rows, with the dictionary of the loop read off. *)
Lemma matrix_rows (requirements : Registry)
    (steps : list (string * list string)) :
  generate_coverage_matrix requirements steps
  = map (fun rid =>
           [rid;
            default ""%string (requirements !! rid ≫= title);
            match steps_referencing rid steps with [] => "N" | _ => "Y" end;
            join_comma (steps_referencing rid steps)]%string)
        (sorted (elements (dom requirements))).
Proof.
  unfold generate_coverage_matrix. apply map_ext. intros rid.
  rewrite req_to_steps_lookup.
  assert (E : default [] (((fun _ : ReqInfo => @nil string) <$> requirements)
                            !! rid) = []).
  { rewrite lookup_fmap. destruct (requirements !! rid); reflexivity. }
  rewrite E. reflexivity.
Qed.

End MatrixFacts.

(** X13.  The coverage matrix has one row per requirement of the registry,
    in ascending order of the requirement ids: the first column is an
    ascending, duplicate-free listing of exactly the ids of the registry,
    whatever the steps are. *)
Theorem coverage_matrix_lists_every_requirement_once
    (requirements : Coverage.Registry) (steps : list (string * list string)) :
  let ids := map (fun row => nth 0 row ""%string)
                 (Coverage.generate_coverage_matrix requirements steps) in
  ascending ids
  /\ NoDup ids
  /\ (forall rid, rid ∈ ids <-> is_Some (requirements !! rid))
  /\ length (Coverage.generate_coverage_matrix requirements steps)
     = size (dom requirements).
Proof.
  cbv zeta. rewrite matrix_rows, map_map. cbn [nth]. rewrite map_id.
  split; [apply sorted_ascending|].
  split; [rewrite sorted_perm; apply NoDup_elements|].
  split.
  - intros rid. rewrite elem_of_sorted, elem_of_elements, elem_of_dom.
    reflexivity.
  - rewrite length_map, sorted_perm. reflexivity.
Qed.

(** X14.  Each row of the coverage matrix is
    [req_id, title, covered, mapped_steps] where [covered] is [Y] exactly
    when some step lists the requirement, and [mapped_steps] joins with
    commas the ids of the steps that list it, in plan order; ids that steps
    list but the registry does not have get no row. *)
Theorem coverage_matrix_row_marks_referenced_requirements
    (requirements : Coverage.Registry) (steps : list (string * list string))
    (row : list string) :
  row ∈ Coverage.generate_coverage_matrix requirements steps ->
  exists rid info covered,
    requirements !! rid = Some info
    /\ row = [rid; default ""%string (Coverage.title info); covered;
              Coverage.join_comma (steps_referencing rid steps)]
    /\ (covered = "Y"%string /\ (exists p, p ∈ steps /\ rid ∈ snd p)
        \/ covered = "N"%string /\ ~ (exists p, p ∈ steps /\ rid ∈ snd p)).
Proof.
  rewrite matrix_rows. intros Hin.
  apply list_elem_of_In, in_map_iff in Hin as (rid & <- & Hin).
  apply list_elem_of_In, elem_of_sorted, elem_of_elements, elem_of_dom in Hin
    as [info Hinfo].
  exists rid, info. eexists. split; [exact Hinfo|].
  rewrite Hinfo. cbn [mbind option_bind]. split; [reflexivity|].
  pose proof (steps_referencing_nil rid steps) as Hn.
  rewrite elem_of_covered_by in Hn.
  destruct (steps_referencing rid steps) as [|s ss].
  - right. split; [reflexivity|]. apply Hn. reflexivity.
  - left. split; [reflexivity|].
    destruct (classic_steps rid steps) as [Hy|Hno]; [exact Hy|].
    apply Hn in Hno. discriminate.
Qed.

Lemma coverage_matrix_row_marks_referenced_requirements_witness :
  exists rid info covered,
    two_requirements !! rid = Some info
    /\ ["REQ-002"; "Temperature"; "N"; ""]%string
       = [rid; default ""%string (Coverage.title info); covered;
          Coverage.join_comma
            (steps_referencing rid [("ping"%string, ["REQ-001"%string])])]
    /\ (covered = "Y"%string
        /\ (exists p, p ∈ [("ping"%string, ["REQ-001"%string])] /\ rid ∈ snd p)
        \/ covered = "N"%string
           /\ ~ (exists p, p ∈ [("ping"%string, ["REQ-001"%string])]
                           /\ rid ∈ snd p)).
Proof.
  apply (coverage_matrix_row_marks_referenced_requirements two_requirements
           [("ping"%string, ["REQ-001"%string])]).
  vm_compute. right. left.
Defined.

Section GateFacts.
Import Coverage.

Lemma uncovered_rows_sorted (requirements : Registry)
    (steps : list (string * list string)) :
  uncovered_rows (generate_coverage_matrix requirements steps)
  = sorted (elements (dom requirements ∖ covered_by steps)).
Proof.
  unfold uncovered_rows. rewrite matrix_rows, filter_map_swap, map_map.
  cbn [nth]. rewrite map_id.
  apply ascending_unique.
  - apply ascending_filter, sorted_ascending.
  - apply sorted_ascending.
  - apply NoDup_Permutation.
    + apply NoDup_ListNoDup, List.NoDup_filter, NoDup_ListNoDup.
      rewrite sorted_perm. apply NoDup_elements.
    + rewrite sorted_perm. apply NoDup_elements.
    + intros rid. rewrite elem_of_sorted, elem_of_elements, elem_of_difference.
      rewrite list_elem_of_In, filter_In, <- list_elem_of_In.
      rewrite elem_of_sorted, elem_of_elements.
      rewrite <- steps_referencing_nil.
      destruct (steps_referencing rid steps); cbn; intuition congruence.
Qed.

End GateFacts.

(** X15.  The gate and the matrix agree: when [validate_coverage] accepts a
    plan, every row of the matrix generated from the same inputs is marked
    [Y]. *)
Theorem accepted_plan_has_a_fully_covered_matrix
    (requirements : Coverage.Registry) (steps : list (string * list string)) :
  Coverage.validate_coverage requirements steps = Ok tt ->
  Forall (fun row => nth 2 row ""%string = "Y"%string)
         (Coverage.generate_coverage_matrix requirements steps).
Proof.
  intros Hok. apply validate_coverage_ok_iff in Hok.
  rewrite matrix_rows. apply Forall_forall. intros row Hin.
  apply list_elem_of_In, in_map_iff in Hin as (rid & <- & Hin).
  cbn [nth].
  destruct (steps_referencing rid steps) as [|s ss] eqn:E; [|reflexivity].
  exfalso. apply Hok. left. exists rid. split.
  - apply list_elem_of_In, elem_of_sorted, elem_of_elements in Hin. exact Hin.
  - apply steps_referencing_nil in E. rewrite elem_of_covered_by in E.
    intros p Hp Hr. apply E. exists p. auto.
Qed.

Lemma accepted_plan_has_a_fully_covered_matrix_witness :
  Forall (fun row => nth 2 row ""%string = "Y"%string)
         (Coverage.generate_coverage_matrix two_requirements
            [("ping"%string, ["REQ-001"%string]);
             ("read_temp"%string, ["REQ-002"; "REQ-001"]%string)]).
Proof.
  apply accepted_plan_has_a_fully_covered_matrix.
  vm_compute. reflexivity.
Defined.

(** X16.  What the gate reports.  A rejection is a [ValueError] of one of
    two kinds.  [Uncovered requirements] comes first and lists exactly the
    ids of the rows the matrix marks [N], in the order of the matrix, also
    when steps reference unknown ids.  [Plan references unknown
    requirements] is raised only when no requirement is uncovered, and
    lists in ascending order exactly the ids that some step references and
    the registry does not have. *)
Theorem coverage_error_lists_the_offending_ids
    (requirements : Coverage.Registry) (steps : list (string * list string))
    (e : string) (d : list string) :
  Coverage.validate_coverage requirements steps = Raise e d ->
  e = "ValueError"%string
  /\ exists ids,
       ids <> []
       /\ (d = "Uncovered requirements"%string :: ids
           /\ ids = uncovered_rows
                      (Coverage.generate_coverage_matrix requirements steps)
           \/ d = "Plan references unknown requirements"%string :: ids
              /\ uncovered_rows
                   (Coverage.generate_coverage_matrix requirements steps) = []
              /\ ascending ids
              /\ forall rid,
                   rid ∈ ids
                   <-> (exists p, p ∈ steps /\ rid ∈ snd p)
                       /\ requirements !! rid = None).
Proof.
  unfold Coverage.validate_coverage. rewrite uncovered_rows_sorted.
  destruct (sorted (elements (dom requirements ∖ Coverage.covered_by steps)))
    as [|m ms] eqn:E1.
  - destruct (sorted (elements
                        (Coverage.covered_by steps ∖ dom requirements)))
      as [|r rs] eqn:E2; [discriminate|].
    intros [= <- <-]. split; [reflexivity|]. exists (r :: rs).
    split; [discriminate|]. right. split; [reflexivity|].
    split; [reflexivity|]. rewrite <- E2.
    split; [apply sorted_ascending|].
    intros rid. rewrite elem_of_sorted, elem_of_elements, elem_of_difference.
    rewrite elem_of_covered_by, not_elem_of_dom. reflexivity.
  - intros [= <- <-]. split; [reflexivity|]. exists (m :: ms).
    split; [discriminate|]. left. split; reflexivity.
Qed.

Lemma coverage_error_lists_the_offending_ids_witness :
  exists ids,
    ids <> []
    /\ (["Uncovered requirements"; "REQ-002"]%string
        = "Uncovered requirements"%string :: ids
        /\ ids = uncovered_rows
                   (Coverage.generate_coverage_matrix two_requirements
                      [("ping"%string, ["REQ-001"; "REQ-009"]%string)])
        \/ ["Uncovered requirements"; "REQ-002"]%string
           = "Plan references unknown requirements"%string :: ids
           /\ uncovered_rows
                (Coverage.generate_coverage_matrix two_requirements
                   [("ping"%string, ["REQ-001"; "REQ-009"]%string)]) = []
           /\ ascending ids
           /\ forall rid,
                rid ∈ ids
                <-> (exists p, p ∈ [("ping"%string, ["REQ-001"; "REQ-009"]%string)]
                               /\ rid ∈ snd p)
                    /\ two_requirements !! rid = None).
Proof.
  apply (coverage_error_lists_the_offending_ids two_requirements
           [("ping"%string, ["REQ-001"; "REQ-009"]%string)]
           "ValueError" ["Uncovered requirements"; "REQ-002"]%string).
  vm_compute. reflexivity.
Defined.

(** ** Runner: the retry loop of [run_step] *)

Section RetryFacts.
Context `{PyBuiltins}.
Import Plan Logger Runner.

(** What one attempt leaves behind: one more call on the wire, the client
    and the files as they were, and either an exception of the limit check
    (nothing logged) or a result with its event. *)
Lemma run_attempt_trace (env : Env) (self : TestRunner)
    (run_id k fw : string) (step : StepSpec) (t : float) (a : Z)
    (w : RunnerWorld) :
  let out := run_attempt env self run_id k fw step t a w in
  rw_calls (snd out) = rw_calls w ++ [cmd step +:+ " " +:+ k]
  /\ rw_client_timeout (snd out) = rw_client_timeout w
  /\ rw_files (snd out) = rw_files w
  /\ match fst out with
     | Raise e d => e = "ValueError"%string /\ rw_events (snd out) = rw_events w
     | Ok r =>
         exists ev, rw_events (snd out) = rw_events w ++ [ev]
                    /\ attempt ev = a
                    /\ passed ev = ar_passed r
                    /\ ev_error_code ev = ar_error_code r
                    /\ (ev_sn ev = k /\ test_step ev = id step)
     end.
Proof.
  cbv zeta. unfold run_attempt, client_call.
  destruct (ok _).
  - unfold _evaluate_limits.
    destruct (limits step) as [lim|]; cbn -[py_eq];
      [|repeat split; eexists; repeat split; reflexivity].
    destruct (lim_equals lim) as [x|]; cbn -[py_eq].
    + match goal with |- context [if ?c then _ else _] => destruct c end;
        cbn; repeat split; eexists; repeat split; reflexivity.
    + destruct (py_get _ _) as [v|]; cbn;
        [|repeat split; eexists; repeat split; reflexivity].
      destruct (lim_min lim) as [mn|], (lim_max lim) as [mx|]; cbn;
        try (repeat split; eexists; repeat split; reflexivity);
        destruct (py_float v) as [x|]; cbn;
        try (repeat split; reflexivity);
        match goal with |- context [if ?c then _ else _] => destruct c end;
        cbn; repeat split; eexists; repeat split; reflexivity.
  - cbn. repeat split; eexists; repeat split; reflexivity.
Qed.

(** The loop over the attempts [s, s+1, ..., s+n-1]. *)
Lemma run_attempts_trace (env : Env) (self : TestRunner)
    (run_id k fw : string) (step : StepSpec) (t : float) (n : nat) :
  forall (s : nat) (last : StepAttemptResult) (w : RunnerWorld),
  let out := run_attempts env self run_id k fw step t
               (map Z.of_nat (seq s n)) last w in
  exists failed,
    Forall (fun ev => passed ev = false
                      /\ (ev_sn ev = k /\ test_step ev = id step)) failed
    /\ map attempt failed = map Z.of_nat (seq s (length failed))
    /\ rw_client_timeout (snd out) = rw_client_timeout w
    /\ rw_files (snd out) = rw_files w
    /\ match fst out with
       | Raise e d =>
           e = "ValueError"%string
           /\ rw_events (snd out) = rw_events w ++ failed
           /\ (length failed < n)%nat
           /\ length (rw_calls (snd out))
              = (length (rw_calls w) + S (length failed))%nat
       | Ok r =>
           (n = 0%nat /\ failed = [] /\ r = last
            /\ rw_events (snd out) = rw_events w
            /\ rw_calls (snd out) = rw_calls w)
           \/ exists final,
                rw_events (snd out) = rw_events w ++ failed ++ [final]
                /\ attempt final = Z.of_nat (s + length failed)
                /\ passed final = ar_passed r
                /\ ev_error_code final = ar_error_code r
                /\ (ev_sn final = k /\ test_step final = id step)
                /\ (length failed < n)%nat
                /\ (ar_passed r = false -> S (length failed) = n)
                /\ length (rw_calls (snd out))
                   = (length (rw_calls w) + S (length failed))%nat
       end.
Proof.
  induction n as [|n IH]; intros s last w; cbn [seq map run_attempts].
  - exists []. cbn. repeat split; try apply List.Forall_nil. left. repeat split.
  - pose proof (run_attempt_trace env self run_id k fw step t (Z.of_nat s) w)
      as (Hc & Ht & Hf & Hr). cbv zeta.
    destruct (run_attempt env self run_id k fw step t (Z.of_nat s) w)
      as [[r|e d] w1]; cbn [fst snd] in *.
    + destruct Hr as (ev & Hev & Hat & Hp & Hec & Hk).
      destruct (ar_passed r) eqn:Epass.
      * exists []. cbn [fst snd length map seq app].
        split; [apply List.Forall_nil|]. split; [reflexivity|].
        split; [exact Ht|]. split; [exact Hf|].
        right. exists ev. rewrite Nat.add_0_r, Hc, length_app. cbn [length].
        split; [exact Hev|]. split; [exact Hat|]. split; [congruence|].
        split; [exact Hec|]. split; [exact Hk|]. split; [lia|].
        split; [congruence|lia].
      * specialize (IH (S s) r w1). cbv zeta in IH.
        destruct IH as (failed & Hfa & Hatt & Ht2 & Hf2 & Hrest).
        destruct (run_attempts env self run_id k fw step t
                    (map Z.of_nat (seq (S s) n)) r w1) as [[r2|e2 d2] w2];
          cbn [fst snd] in *.
        -- destruct Hrest as [(Hn & Hnil & Hr2 & He2 & Hc2)
                             |(final & He2 & Ha2 & Hp2 & Hec2 & Hk2 & Hlt & Hall & Hc2)].
           ++ subst n failed r2. exists []. cbn [length map seq app].
              split; [apply List.Forall_nil|]. split; [reflexivity|].
              split; [congruence|]. split; [congruence|].
              right. exists ev.
              rewrite He2, Hc2, Hc, Hev, length_app, Nat.add_0_r.
              cbn [length].
              split; [reflexivity|]. split; [exact Hat|].
              split; [congruence|]. split; [exact Hec|]. split; [exact Hk|].
              split; [lia|]. split; [reflexivity|lia].
           ++ exists (ev :: failed). cbn [length seq map].
              split; [constructor; [split; [congruence|exact Hk]|exact Hfa]|].
              split; [rewrite Hat, Hatt; reflexivity|].
              split; [congruence|]. split; [congruence|].
              right. exists final.
              rewrite He2, Hev, Hc2, Hc, length_app, <- app_assoc.
              cbn [length app].
              split; [reflexivity|].
              split; [rewrite Ha2; f_equal; lia|].
              split; [exact Hp2|]. split; [exact Hec2|]. split; [exact Hk2|].
              split; [lia|].
              split; [intros Hfl; specialize (Hall Hfl); lia|lia].
        -- destruct Hrest as (He2 & Hev2 & Hlt & Hc2).
           exists (ev :: failed). cbn [length seq map].
           split; [constructor; [split; [congruence|exact Hk]|exact Hfa]|].
           split; [rewrite Hat, Hatt; reflexivity|].
           split; [congruence|]. split; [congruence|].
           rewrite Hev2, Hev, Hc2, Hc, length_app, <- app_assoc.
           cbn [length app].
           split; [exact He2|]. split; [reflexivity|]. split; lia.
    + destruct Hr as [He Hev]. exists []. cbn [length map seq].
      rewrite Hc, length_app, app_nil_r. cbn [length].
      split; [apply List.Forall_nil|]. split; [reflexivity|].
      split; [exact Ht|]. split; [exact Hf|].
      split; [exact He|]. split; [exact Hev|]. split; lia.
Qed.

End RetryFacts.

(** X17.  [run_step] retries until the first pass.  When it returns, for a
    step with [retries >= 0]: it has logged the attempts 1, 2, ... in
    order, all failed but possibly the last; the result it returns is that
    of the last event (same verdict and error code); it has stopped before
    [retries + 1] attempts only on a pass; it has sent exactly one request
    per logged attempt; and the client's timeout is what it was before the
    step. *)
Theorem run_step_retries_until_the_first_pass `{PyBuiltins}
    (env : Runner.Env) (self : Runner.TestRunner) (run_id k fw : string)
    (step : Plan.StepSpec) (w w' : Runner.RunnerWorld)
    (r : Runner.StepAttemptResult) :
  (0 <= Plan.retries step)%Z ->
  Runner.run_step env self run_id k fw step w = (Ok r, w') ->
  exists failed final,
    Runner.rw_events w' = Runner.rw_events w ++ failed ++ [final]
    /\ Forall (fun ev => Logger.passed ev = false) failed
    /\ map Logger.attempt (failed ++ [final])
       = map Z.of_nat (seq 1 (S (length failed)))
    /\ Logger.passed final = Runner.ar_passed r
    /\ Logger.ev_error_code final = Runner.ar_error_code r
    /\ (Z.of_nat (length failed) <= Plan.retries step)%Z
    /\ (Runner.ar_passed r = false
        -> Z.of_nat (length failed) = Plan.retries step)
    /\ length (Runner.rw_calls w')
       = (length (Runner.rw_calls w) + S (length failed))%nat
    /\ Runner.rw_client_timeout w' = Runner.rw_client_timeout w.
Proof.
  intros Hret. unfold Runner.run_step, Runner.attempts.
  match goal with |- context [Runner.run_attempts ?e ?s ?rid ?k ?f ?st ?t
                                (map Z.of_nat (seq 1 ?n)) ?l ?x] =>
    pose proof (run_attempts_trace e s rid k f st t n 1%nat l x) as Htr;
    cbv zeta in Htr;
    destruct (Runner.run_attempts e s rid k f st t
                (map Z.of_nat (seq 1 n)) l x) as [[r0|e0 d0] w1]
  end; [|discriminate].
  intros [= -> <-].
  destruct Htr as (failed & Hfa & Hatt & Ht & Hf & Hr). cbn [fst snd] in *.
  destruct Hr as [(Hn & _)|(final & He & Ha & Hp & Hec & Hk & Hlt & Hall & Hc)];
    [lia|].
  exists failed, final.
  split; [exact He|].
  split; [eapply List.Forall_impl; [|exact Hfa]; cbn; tauto|].
  split.
  { rewrite map_app, Hatt, seq_S, map_app. cbn [map]. rewrite Ha.
    reflexivity. }
  split; [exact Hp|]. split; [exact Hec|].
  split; [lia|]. split; [intros Hfl; specialize (Hall Hfl); lia|].
  split; [exact Hc|reflexivity].
Qed.

Lemma run_step_retries_until_the_first_pass_witness :
  exists failed final,
    Runner.rw_events
      (snd (Runner.run_step (answering [("temp_c"%string, JFloat 200)])
              example_runner "r1" "SN1" "1.0.0" read_temp_step
              idle_runner_world))
    = Runner.rw_events idle_runner_world ++ failed ++ [final]
    /\ length failed = 1%nat
    /\ Logger.passed final = false
    /\ Logger.ev_error_code final = Some "LIMIT_FAIL"%string.
Proof.
  destruct (Runner.run_step (answering [("temp_c"%string, JFloat 200)])
              example_runner "r1" "SN1" "1.0.0" read_temp_step
              idle_runner_world) as [res w'] eqn:E.
  assert (Hres : exists r, res = Ok r /\ Runner.ar_passed r = false
                           /\ Runner.ar_error_code r = Some "LIMIT_FAIL"%string).
  { assert (E1 : res = fst (Runner.run_step
                              (answering [("temp_c"%string, JFloat 200)])
                              example_runner "r1" "SN1" "1.0.0" read_temp_step
                              idle_runner_world)) by (rewrite E; reflexivity).
    rewrite E1. vm_compute. eexists. repeat split. }
  destruct Hres as (r & -> & Hp & Hc).
  destruct (@run_step_retries_until_the_first_pass decimal_builtins
              (answering [("temp_c"%string, JFloat 200)])
              example_runner "r1" "SN1" "1.0.0" read_temp_step
              idle_runner_world w' r ltac:(cbn; lia) E)
    as (failed & final & He & _ & _ & Hpf & Hcf & _ & Hall & _).
  exists failed, final. cbn [snd].
  split; [exact He|]. split; [specialize (Hall Hp); cbn in Hall; lia|].
  split; congruence.
Defined.

(** X18.  An exception of the limit check (a value that [float] rejects)
    escapes [run_step]: the request of that attempt was sent but no event is
    logged for it, the events logged before it all failed, and the client
    keeps the timeout of the step instead of getting its own back. *)
Theorem run_step_exception_skips_the_event_and_the_timeout_reset `{PyBuiltins}
    (env : Runner.Env) (self : Runner.TestRunner) (run_id k fw : string)
    (step : Plan.StepSpec) (w w' : Runner.RunnerWorld)
    (e : string) (d : list string) :
  Runner.run_step env self run_id k fw step w = (Raise e d, w') ->
  Runner.rw_client_timeout w'
  = (if (Plan.timeout_s step =? 0)%float then Runner.rw_client_timeout w
     else Plan.timeout_s step)
  /\ exists failed,
       Runner.rw_events w' = Runner.rw_events w ++ failed
       /\ Forall (fun ev => Logger.passed ev = false) failed
       /\ length (Runner.rw_calls w')
          = (length (Runner.rw_calls w) + S (length failed))%nat.
Proof.
  unfold Runner.run_step, Runner.attempts.
  match goal with |- context [Runner.run_attempts ?e ?s ?rid ?k ?f ?st ?t
                                (map Z.of_nat (seq 1 ?n)) ?l ?x] =>
    pose proof (run_attempts_trace e s rid k f st t n 1%nat l x) as Htr;
    cbv zeta in Htr;
    destruct (Runner.run_attempts e s rid k f st t
                (map Z.of_nat (seq 1 n)) l x) as [[r0|e0 d0] w1]
  end; [discriminate|].
  intros [= -> -> <-].
  destruct Htr as (failed & Hfa & Hatt & Ht & Hf & He & Hev & Hlt & Hc).
  cbn [fst snd] in *.
  split; [exact Ht|].
  exists failed. split; [exact Hev|].
  split; [eapply List.Forall_impl; [|exact Hfa]; cbn; tauto|exact Hc].
Qed.

Lemma run_step_exception_skips_the_event_and_the_timeout_reset_witness :
  let step := {| Plan.id := "read_temp"; Plan.name := "Read temperature";
                 Plan.cmd := "READ_TEMP"; Plan.params := [];
                 Plan.retries := 1; Plan.backoff_ms := 0; Plan.timeout_s := 5;
                 Plan.limits := Plan.limits read_temp_step;
                 Plan.req_ids := ["REQ-002"%string] |} in
  let out := Runner.run_step (answering [("temp_c"%string, JStr "hot")])
               example_runner "r1" "SN1" "1.0.0" step idle_runner_world in
  Runner.rw_client_timeout idle_runner_world = 2%float
  /\ Runner.rw_client_timeout (snd out) = 5%float
  /\ exists failed,
       Runner.rw_events (snd out) = Runner.rw_events idle_runner_world ++ failed
       /\ length (Runner.rw_calls (snd out)) = S (length failed).
Proof.
  cbv zeta.
  set (step := {| Plan.id := "read_temp"%string;
                  Plan.name := "Read temperature"%string;
                  Plan.cmd := "READ_TEMP"%string; Plan.params := [];
                  Plan.retries := 1; Plan.backoff_ms := 0; Plan.timeout_s := 5;
                  Plan.limits := Plan.limits read_temp_step;
                  Plan.req_ids := ["REQ-002"%string] |}).
  destruct (Runner.run_step (answering [("temp_c"%string, JStr "hot")])
              example_runner "r1" "SN1" "1.0.0" step idle_runner_world)
    as [res w'] eqn:E.
  assert (Hres : res = Raise "ValueError" ["float"; "temp_c"]%string).
  { assert (E1 : res = fst (Runner.run_step
                              (answering [("temp_c"%string, JStr "hot")])
                              example_runner "r1" "SN1" "1.0.0" step
                              idle_runner_world)) by (rewrite E; reflexivity).
    rewrite E1. vm_compute. reflexivity. }
  subst res.
  destruct (@run_step_exception_skips_the_event_and_the_timeout_reset
              decimal_builtins (answering [("temp_c"%string, JStr "hot")])
              example_runner "r1" "SN1" "1.0.0" step idle_runner_world w'
              "ValueError" ["float"; "temp_c"]%string E)
    as (Ht & failed & He & _ & Hc).
  cbn [snd]. split; [reflexivity|]. split; [exact Ht|].
  exists failed. split; [exact He|exact Hc].
Defined.

(** ** Runner: units and the batch *)

Section BatchFacts.
Context `{PyBuiltins}.
Import Plan Logger Runner.

Lemma run_step_ok_logs (env : Env) (self : TestRunner)
    (run_id k fw : string) (step : StepSpec) (w w' : RunnerWorld)
    (r : StepAttemptResult) :
  (0 <= retries step)%Z ->
  run_step env self run_id k fw step w = (Ok r, w') ->
  exists new,
    rw_events w' = rw_events w ++ new
    /\ exists ev, ev ∈ new /\ ev_sn ev = k /\ test_step ev = id step.
Proof.
  intros Hret. unfold run_step, attempts.
  match goal with |- context [run_attempts ?e ?s ?rid ?k ?f ?st ?t
                                (map Z.of_nat (seq 1 ?n)) ?l ?x] =>
    pose proof (run_attempts_trace e s rid k f st t n 1%nat l x) as Htr;
    cbv zeta in Htr;
    destruct (run_attempts e s rid k f st t
                (map Z.of_nat (seq 1 n)) l x) as [[r0|e0 d0] w1]
  end; [|discriminate].
  intros [= -> <-].
  destruct Htr as (failed & Hfa & Hatt & Ht & Hf & Hr). cbn [fst snd] in *.
  destruct Hr as [(Hn & _)|(final & He & Ha & Hp & Hec & Hk & _)]; [lia|].
  exists (failed ++ [final]). split; [exact He|].
  exists final. split; [|exact Hk].
  apply elem_of_app. right. left.
Qed.

Lemma run_steps_trace (env : Env) (self : TestRunner)
    (run_id k fw : string) (todo : list StepSpec) :
  (forall s, In s todo -> (0 <= retries s)%Z) ->
  forall (p : bool) (fs : list (string * StepAttemptResult))
         (w w' : RunnerWorld) (p' : bool)
         (fs' : list (string * StepAttemptResult)),
  run_steps env self run_id k fw todo p fs w = (Ok (p', fs'), w') ->
  exists new added,
    rw_events w' = rw_events w ++ new
    /\ fs' = fs ++ added
    /\ p' = p && is_nil added
    /\ Forall (failure_of todo) added
    /\ forall step, In step todo ->
         exists ev, ev ∈ new /\ ev_sn ev = k /\ test_step ev = id step.
Proof.
  induction todo as [|step rest IH]; intros Hret p fs w w' p' fs';
    cbn [run_steps].
  - intros [= <- <- <-]. exists [], []. rewrite !app_nil_r, andb_true_r.
    repeat split; try constructor. intros step [].
  - assert (Hs : (0 <= retries step)%Z) by (apply Hret; left; reflexivity).
    assert (Hrest : forall s, In s rest -> (0 <= retries s)%Z)
      by (intros s Hin; apply Hret; right; exact Hin).
    pose proof (run_step_ok_logs env self run_id k fw step w) as Hlog.
    destruct (run_step env self run_id k fw step w) as [[out|e d] w1];
      [|discriminate].
    destruct (Hlog w1 out Hs eq_refl) as (n1 & E1 & ev1 & Hin1 & Hev1).
    assert (Hwiden : forall added,
               Forall (failure_of rest) added ->
               Forall (failure_of (step :: rest)) added).
    { intros added Hfa. eapply List.Forall_impl; [|exact Hfa].
      intros f [Hp (s & Hin & Hid)]. split; [exact Hp|].
      exists s. split; [right; exact Hin|exact Hid]. }
    destruct (ar_passed out) eqn:Epass; intros Hrun.
    + destruct (IH Hrest _ _ _ _ _ _ Hrun)
        as (n2 & added & E2 & Efs & Ep & Hfa & Hcov).
      exists (n1 ++ n2), added. rewrite E2, E1, <- app_assoc.
      repeat split; auto.
      intros s [<-|Hin].
      * exists ev1. split; [apply elem_of_app; left; exact Hin1|exact Hev1].
      * destruct (Hcov s Hin) as (ev & Hev & Hk).
        exists ev. split; [apply elem_of_app; right; exact Hev|exact Hk].
    + destruct (IH Hrest _ _ _ _ _ _ Hrun)
        as (n2 & added & E2 & Efs & Ep & Hfa & Hcov).
      exists (n1 ++ n2), ((id step, out) :: added).
      rewrite E2, E1, Efs, Ep, <- !app_assoc. cbn [app is_nil andb].
      rewrite andb_false_r. repeat split; auto.
      * constructor; [|apply Hwiden; exact Hfa].
        split; [exact Epass|]. exists step. split; [left|]; reflexivity.
      * intros s [<-|Hin].
        -- exists ev1. split; [apply elem_of_app; left; exact Hin1|exact Hev1].
        -- destruct (Hcov s Hin) as (ev & Hev & Hk).
           exists ev. split; [apply elem_of_app; right; exact Hev|exact Hk].
Qed.

Lemma run_sn_trace (env : Env) (self : TestRunner) (run_id k : string)
    (w w' : RunnerWorld) (s : SnSummary) :
  (forall st, In st (steps (plan self)) -> (0 <= retries st)%Z) ->
  run_sn env self run_id k w = (Ok s, w') ->
  unit_summary self k s
  /\ exists new,
       rw_events w' = rw_events w ++ new
       /\ forall step, In step (steps (plan self)) ->
            exists ev, ev ∈ new /\ ev_sn ev = k /\ test_step ev = id step.
Proof.
  intros Hret. unfold run_sn, _ping_fw, client_call.
  match goal with |- context [run_steps ?e ?sf ?r ?k ?f ?td ?p ?fs ?x] =>
    pose proof (run_steps_trace e sf r k f td Hret p fs x) as Htr;
    destruct (run_steps e sf r k f td p fs x) as [[[p0 fs0]|e0 d0] w1]
  end; [|discriminate].
  intros [= <- <-].
  destruct (Htr w1 p0 fs0 eq_refl) as (new & added & E & Efs & Ep & Hfa & Hcov).
  cbn in Efs, Ep, E. subst fs0 p0.
  split; [repeat split; auto|].
  exists new. split; [exact E|exact Hcov].
Qed.

Lemma run_sns_trace (env : Env) (self : TestRunner) (run_id : string)
    (sns : list string) :
  (forall st, In st (steps (plan self)) -> (0 <= retries st)%Z) ->
  forall (ov : bool) (acc : list (string * SnSummary)) (w w' : RunnerWorld)
         (summary : RunSummary),
  run_sns env self run_id sns ov acc w = (Ok summary, w') ->
  exists units new,
    per_sn summary = acc ++ units
    /\ map fst units = sns
    /\ overall_passed summary
       = ov && forallb (fun u => ss_passed (snd u)) units
    /\ Forall (fun u => unit_summary self (fst u) (snd u)) units
    /\ rw_events w' = rw_events w ++ new
    /\ forall k step, In k sns -> In step (steps (plan self)) ->
         exists ev, ev ∈ new /\ ev_sn ev = k /\ test_step ev = id step.
Proof.
  intros Hret.
  induction sns as [|k rest IH]; intros ov acc w w' summary; cbn [run_sns].
  - intros [= <- <-]. exists [], []. cbn. rewrite !app_nil_r, andb_true_r.
    repeat split; try constructor. intros k step [].
  - pose proof (run_sn_trace env self run_id k w) as Hsn.
    destruct (run_sn env self run_id k w) as [[s|e d] w1]; [|discriminate].
    destruct (Hsn w1 s Hret eq_refl) as (Hu & n1 & E1 & Hcov1).
    intros Hrun.
    destruct (IH _ _ _ _ _ Hrun) as (units & n2 & Eu & Ek & Eo & Hfa & E2 & Hcov2).
    exists ((k, s) :: units), (n1 ++ n2).
    rewrite Eu, Eo, E2, E1, <- !app_assoc. cbn [app map forallb fst snd].
    rewrite Ek, andb_assoc.
    repeat split; auto.
    intros k' step [<-|Hin] Hst.
    + destruct (Hcov1 step Hst) as (ev & Hev & Hk).
      exists ev. split; [apply elem_of_app; left; exact Hev|exact Hk].
    + destruct (Hcov2 k' step Hin Hst) as (ev & Hev & Hk).
      exists ev. split; [apply elem_of_app; right; exact Hev|exact Hk].
Qed.

End BatchFacts.

(** X19.  The summary of a batch that returns, for distinct serial numbers
    (the summary is keyed by serial number) and a plan whose steps have
    [retries >= 0]: the units are those asked for, in that order; the batch
    passed iff every unit passed; a unit passed iff its failure list is
    empty; and every failure entry is the failed result of a step of the
    plan. *)
Theorem batch_verdict_is_the_conjunction_of_the_units `{PyBuiltins}
    (env : Runner.Env) (self : Runner.TestRunner) (run_id : string)
    (sns : list string) (w w' : Runner.RunnerWorld)
    (summary : Runner.RunSummary) :
  NoDup sns ->
  (forall st, In st (Plan.steps (Runner.plan self))
              -> (0 <= Plan.retries st)%Z) ->
  Runner.run_batch env self run_id sns w = (Ok summary, w') ->
  map fst (Runner.per_sn summary) = sns
  /\ Runner.overall_passed summary
     = forallb (fun u => Runner.ss_passed (snd u)) (Runner.per_sn summary)
  /\ Forall (fun u =>
               Runner.ss_sn (snd u) = fst u
               /\ (Runner.ss_passed (snd u) = true
                   <-> Runner.ss_failures (snd u) = [])
               /\ Forall (fun f =>
                            Runner.ar_passed (snd f) = false
                            /\ exists step,
                                 In step (Plan.steps (Runner.plan self))
                                 /\ Plan.id step = fst f)
                         (Runner.ss_failures (snd u)))
            (Runner.per_sn summary).
Proof.
  intros _ Hret Hrun. unfold Runner.run_batch in Hrun.
  destruct (run_sns_trace env self run_id sns Hret _ _ _ _ _ Hrun)
    as (units & new & Eu & Ek & Eo & Hfa & _).
  cbn in Eu, Eo. rewrite Eu. split; [exact Ek|]. split; [exact Eo|].
  eapply List.Forall_impl; [|exact Hfa].
  intros u (Hk & Hp & Hf). split; [exact Hk|]. split; [|exact Hf].
  rewrite Hp. destruct (Runner.ss_failures (snd u)); cbn; split; congruence.
Qed.

Lemma batch_verdict_is_the_conjunction_of_the_units_witness :
  exists summary w',
    Runner.run_batch (answering [("temp_c"%string, JFloat 200)])
      example_runner "r1" ["SN1"; "SN2"]%string idle_runner_world
    = (Ok summary, w')
    /\ map fst (Runner.per_sn summary) = ["SN1"; "SN2"]%string
    /\ Runner.overall_passed summary
       = forallb (fun u => Runner.ss_passed (snd u)) (Runner.per_sn summary).
Proof.
  destruct (Runner.run_batch (answering [("temp_c"%string, JFloat 200)])
              example_runner "r1" ["SN1"; "SN2"]%string idle_runner_world)
    as [res w'] eqn:E.
  assert (Hres : exists summary, res = Ok summary).
  { assert (E1 : res = fst (Runner.run_batch
                              (answering [("temp_c"%string, JFloat 200)])
                              example_runner "r1" ["SN1"; "SN2"]%string
                              idle_runner_world)) by (rewrite E; reflexivity).
    rewrite E1. vm_compute. eexists. reflexivity. }
  destruct Hres as (summary & ->). exists summary, w'.
  split; [reflexivity|].
  assert (Hnd : NoDup ["SN1"; "SN2"]%string).
  { apply NoDup_cons. split; [|apply NoDup_singleton].
    intros Hin. apply list_elem_of_singleton in Hin. discriminate. }
  assert (Hret : forall st, In st (Plan.steps (Runner.plan example_runner))
                            -> (0 <= Plan.retries st)%Z).
  { intros st [<-|[]]. cbn. lia. }
  destruct (@batch_verdict_is_the_conjunction_of_the_units decimal_builtins
              (answering [("temp_c"%string, JFloat 200)]) example_runner "r1"
              ["SN1"; "SN2"]%string idle_runner_world w' summary Hnd Hret E)
    as (Hk & Ho & _).
  split; [exact Hk|exact Ho].
Defined.

(** X20.  A failure does not end the run.  In a batch that returns, for a
    plan whose steps have [retries >= 0], every step of the plan has been
    run for every serial number, whatever failed before it: the events the
    batch appended include one for each pair of a serial number and a step. *)
Theorem every_step_is_run_for_every_unit `{PyBuiltins}
    (env : Runner.Env) (self : Runner.TestRunner) (run_id : string)
    (sns : list string) (w w' : Runner.RunnerWorld)
    (summary : Runner.RunSummary) :
  (forall st, In st (Plan.steps (Runner.plan self))
              -> (0 <= Plan.retries st)%Z) ->
  Runner.run_batch env self run_id sns w = (Ok summary, w') ->
  exists new,
    Runner.rw_events w' = Runner.rw_events w ++ new
    /\ forall k step,
         In k sns -> In step (Plan.steps (Runner.plan self)) ->
         exists ev, ev ∈ new /\ Logger.ev_sn ev = k
                    /\ Logger.test_step ev = Plan.id step.
Proof.
  intros Hret Hrun. unfold Runner.run_batch in Hrun.
  destruct (run_sns_trace env self run_id sns Hret _ _ _ _ _ Hrun)
    as (units & new & _ & _ & _ & _ & E & Hcov).
  exists new. split; [exact E|exact Hcov].
Qed.

Lemma every_step_is_run_for_every_unit_witness :
  exists new,
    Runner.rw_events
      (snd (Runner.run_batch (answering [("temp_c"%string, JFloat 200)])
              example_runner "r1" ["SN1"; "SN2"]%string idle_runner_world))
    = Runner.rw_events idle_runner_world ++ new
    /\ exists ev, ev ∈ new /\ Logger.ev_sn ev = "SN2"%string
                  /\ Logger.test_step ev = "read_temp"%string.
Proof.
  destruct (Runner.run_batch (answering [("temp_c"%string, JFloat 200)])
              example_runner "r1" ["SN1"; "SN2"]%string idle_runner_world)
    as [res w'] eqn:E.
  assert (Hres : exists summary, res = Ok summary).
  { assert (E1 : res = fst (Runner.run_batch
                              (answering [("temp_c"%string, JFloat 200)])
                              example_runner "r1" ["SN1"; "SN2"]%string
                              idle_runner_world)) by (rewrite E; reflexivity).
    rewrite E1. vm_compute. eexists. reflexivity. }
  destruct Hres as (summary & ->).
  assert (Hret : forall st, In st (Plan.steps (Runner.plan example_runner))
                            -> (0 <= Plan.retries st)%Z).
  { intros st [<-|[]]. cbn. lia. }
  destruct (@every_step_is_run_for_every_unit decimal_builtins
              (answering [("temp_c"%string, JFloat 200)]) example_runner "r1"
              ["SN1"; "SN2"]%string idle_runner_world w' summary Hret E)
    as (new & He & Hcov).
  exists new. split; [exact He|].
  apply (Hcov "SN2"%string read_temp_step).
  - right. left. reflexivity.
  - left. reflexivity.
Defined.

(** ** Plans: the stage gate *)

Section PlanFacts.
Import Plan.

Lemma mem_string_In (x : string) (l : list string) :
  mem_string x l = true <-> In x l.
Proof.
  unfold mem_string. rewrite existsb_exists. split.
  - intros (y & Hin & E). apply String.eqb_eq in E. subst y. exact Hin.
  - intros Hin. exists x. split; [exact Hin|apply String.eqb_refl].
Qed.

Lemma load_plan_ok (parsed : TestPlan) (stage : option string) (p : Plan) :
  load_plan (Ok parsed) stage = Ok p ->
  station_stage (station p) = effective_stage parsed stage
  /\ steps p
     = map to_step_spec
           (filter (fun s => mem_string (effective_stage parsed stage)
                                        (s_stages s) = true)
                   (tp_steps parsed)).
Proof.
  unfold load_plan, effective_stage.
  destruct stage as [st|]; [destruct (PyStr.split st)|];
    try (intros [= <-]; split; reflexivity).
  destruct (mem_string st Stage_args); [|discriminate].
  intros [= <-]; split; reflexivity.
Qed.

Lemma In_gated_steps (eff : string) (all : list Step) (s : StepSpec) :
  In s (map to_step_spec
            (filter (fun s => mem_string eff (s_stages s) = true) all)) ->
  exists s0, In s0 all /\ id s = s_id s0 /\ In eff (s_stages s0)
             /\ forall l, limits s = Some l -> lim_units l = None.
Proof.
  rewrite in_map_iff. intros (s0 & <- & Hin).
  apply list_elem_of_In, list_elem_of_filter in Hin as [Hst Hin].
  exists s0. split; [apply list_elem_of_In; exact Hin|].
  split; [reflexivity|]. split; [apply mem_string_In; exact Hst|].
  intros l. cbn. destruct (s_limits s0); intros [= <-]; reflexivity.
Qed.

End PlanFacts.

(** X21.  [load_plan] succeeds only on a valid document and, when a
    non-blank stage is given, only for one of [EVT], [DVT], [PVT], [MP] as
    spelled (a lower-case stage is refused).  The plan it returns is for
    the stage asked for (the station's own when none or a blank one is
    given), holds exactly the steps of the document that are enabled for
    that stage, in document order, and none of its limits carries units. *)
Theorem loaded_plan_holds_the_steps_of_its_stage
    (doc : result Plan.TestPlan) (stage : option string) (p : Plan.Plan) :
  Plan.load_plan doc stage = Ok p ->
  exists parsed,
    doc = Ok parsed
    /\ (forall st, stage = Some st -> PyStr.split st <> [] ->
          Plan.station_stage (Plan.station p) = st
          /\ In st ["EVT"; "DVT"; "PVT"; "MP"]%string)
    /\ ((stage = None \/ exists st, stage = Some st /\ PyStr.split st = []) ->
          Plan.station_stage (Plan.station p)
          = Plan.station_stage (Plan.tp_station parsed))
    /\ map Plan.id (Plan.steps p)
       = map Plan.s_id
             (filter (fun s => Plan.station_stage (Plan.station p)
                               ∈ Plan.s_stages s)
                     (Plan.tp_steps parsed))
    /\ Forall (fun s => forall l, Plan.limits s = Some l
                                  -> Plan.lim_units l = None)
              (Plan.steps p).
Proof.
  destruct doc as [parsed|e d]; [|discriminate]. intros Hload.
  exists parsed. split; [reflexivity|].
  destruct (load_plan_ok parsed stage p Hload) as [Hst Hsteps].
  split; [|split; [|split]].
  - intros st -> Hnb. unfold Plan.load_plan in Hload.
    unfold effective_stage in Hst.
    destruct (PyStr.split st); [congruence|].
    split; [exact Hst|].
    destruct (Plan.mem_string st Plan.Stage_args) eqn:E; [|discriminate].
    apply mem_string_In in E. exact E.
  - unfold effective_stage in Hst.
    intros [->|(st & -> & Hb)]; [exact Hst|]. rewrite Hb in Hst. exact Hst.
  - rewrite Hsteps, Hst, map_map. cbn [Plan.to_step_spec Plan.id].
    f_equal. apply list_filter_iff. intros s.
    rewrite mem_string_In, list_elem_of_In. reflexivity.
  - rewrite Hsteps. apply Forall_forall. intros s Hin.
    apply list_elem_of_In, In_gated_steps in Hin
      as (s0 & _ & _ & _ & Hu). exact Hu.
Qed.

Lemma loaded_plan_holds_the_steps_of_its_stage_witness :
  exists parsed,
    Ok covering_plan = Ok parsed
    /\ map Plan.id (Plan.steps (gated covering_plan "DVT"))
       = map Plan.s_id
             (filter (fun s => Plan.station_stage
                                 (Plan.station (gated covering_plan "DVT"))
                               ∈ Plan.s_stages s)
                     (Plan.tp_steps parsed)).
Proof.
  destruct (loaded_plan_holds_the_steps_of_its_stage (Ok covering_plan)
              (Some "DVT"%string) (gated covering_plan "DVT") eq_refl)
    as (parsed & E & _ & _ & Hs & _).
  exists parsed. split; [exact E|exact Hs].
Defined.

(** X22.  The runner only runs what the gate let through.  From the
    construction of the runner to the end of the batch, whatever happens
    (the constructor or a step may raise), every event appended to the log
    is for a step of the plan document that is enabled for the stage the
    runner was built for (the station's own stage when that is blank). *)
Theorem only_steps_enabled_for_the_stage_are_run `{PyBuiltins}
    (env : Runner.Env) (timeout_s_default : float)
    (run_dir batch_id station_id stage run_id : string)
    (parsed : Plan.TestPlan)
    (local_file packaged : option Coverage.Registry) (sns : list string)
    (w : Runner.RunnerWorld) :
  exists new,
    Runner.rw_events
      (snd (Runner.construct_and_run env timeout_s_default run_dir batch_id
              station_id stage run_id (Ok parsed) local_file packaged sns w))
    = Runner.rw_events w ++ new
    /\ Forall (fun ev =>
                 exists s, In s (Plan.tp_steps parsed)
                           /\ Logger.test_step ev = Plan.s_id s
                           /\ In (effective_stage parsed (Some stage))
                                 (Plan.s_stages s))
              new.
Proof.
  unfold Runner.construct_and_run, Runner.init.
  set (w0 := match Runner.rw_files _ !! _ with
             | Some _ => _ | None => _ end).
  assert (E0 : Runner.rw_events w0 = Runner.rw_events w).
  { subst w0. destruct (Runner.rw_files _ !! _); reflexivity. }
  assert (Hnone : exists new,
             Runner.rw_events w0 = Runner.rw_events w ++ new
             /\ Forall (fun ev =>
                          exists s, In s (Plan.tp_steps parsed)
                                    /\ Logger.test_step ev = Plan.s_id s
                                    /\ In (effective_stage parsed (Some stage))
                                          (Plan.s_stages s)) new).
  { exists []. rewrite app_nil_r. split; [exact E0|constructor]. }
  destruct (Plan.load_plan (Ok parsed) (Some stage)) as [p|e d] eqn:Hload;
    [|exact Hnone].
  destruct (load_plan_ok parsed (Some stage) p Hload) as [_ Hsteps].
  assert (Hrun : forall self w1,
             Runner.plan self = p ->
             Runner.rw_events w1 = Runner.rw_events w ->
             exists new,
               Runner.rw_events
                 (snd (Runner.run_batch env self run_id sns w1))
               = Runner.rw_events w ++ new
               /\ Forall (fun ev =>
                            exists s, In s (Plan.tp_steps parsed)
                                      /\ Logger.test_step ev = Plan.s_id s
                                      /\ In (effective_stage parsed (Some stage))
                                            (Plan.s_stages s)) new).
  { intros self w1 Hp E1. unfold Runner.run_batch.
    destruct (run_sns_events env self run_id sns true [] w1) as (new & E & F).
    exists new. rewrite E, E1. split; [reflexivity|].
    eapply List.Forall_impl; [|exact F].
    intros ev (s & Hin & Hem). rewrite Hp, Hsteps in Hin.
    apply In_gated_steps in Hin as (s0 & Hin0 & Hid & Hst & _).
    exists s0. split; [exact Hin0|]. split; [|exact Hst].
    destruct Hem as [Ht _]. congruence. }
  destruct (Runner.resolve_requirements local_file packaged) as [reqs|].
  - cbn [Plan.load_plan_raw].
    destruct (Coverage.validate_coverage reqs _); [|exact Hnone].
    apply Hrun; [reflexivity|exact E0].
  - apply Hrun; [reflexivity|exact E0].
Qed.

(** ** Analytics: what [stratify] counts *)

Section GroupingFacts.
Context `{PyBuiltins}.
Import Logger Stratification.

Lemma first_event_snoc (events : list StepEvent) (ev : StepEvent) (k : string) :
  first_event (events ++ [ev]) k
  = match first_event events k with
    | Some e => Some e
    | None => if String.eqb (ev_sn ev) k then Some ev else None
    end.
Proof.
  unfold first_event. induction events as [|e events IH]; cbn.
  - destruct (String.eqb (ev_sn ev) k); reflexivity.
  - destruct (String.eqb (ev_sn e) k); [reflexivity|exact IH].
Qed.

Lemma first_seen_lookup (field : StepEvent -> string)
    (events : list StepEvent) (k : string) :
  first_seen field events !! k = field <$> first_event events k.
Proof.
  induction events as [|ev events IH] using rev_ind.
  - reflexivity.
  - unfold first_seen in *. rewrite foldl_app, first_event_snoc. cbn [foldl].
    set (m := foldl _ ∅ events) in *.
    destruct (String.eqb (ev_sn ev) k) eqn:Ek.
    + apply String.eqb_eq in Ek. subst k.
      destruct (m !! ev_sn ev) as [g|] eqn:Em.
      * rewrite Em, IH. destruct (first_event events (ev_sn ev));
          [reflexivity|discriminate].
      * rewrite lookup_insert_eq.
        destruct (first_event events (ev_sn ev)); [discriminate|reflexivity].
    + apply String.eqb_neq in Ek.
      destruct (m !! ev_sn ev) as [g|] eqn:Em.
      * rewrite IH. destruct (first_event events k); reflexivity.
      * rewrite lookup_insert_ne by exact Ek. rewrite IH.
        destruct (first_event events k); reflexivity.
Qed.

Lemma first_event_some (events : list StepEvent) (k : string) :
  (exists ev, ev ∈ events /\ ev_sn ev = k) ->
  exists e, first_event events k = Some e /\ e ∈ events /\ ev_sn e = k.
Proof.
  intros (ev & Hin & Hk). unfold first_event.
  destruct (find (fun e => String.eqb (ev_sn e) k) events) as [e|] eqn:E.
  - apply find_some in E as [Hin' Hk']. exists e.
    split; [reflexivity|]. split; [apply list_elem_of_In; exact Hin'|].
    apply String.eqb_eq. exact Hk'.
  - exfalso. apply list_elem_of_In in Hin.
    pose proof (find_none _ _ E ev Hin) as Hn. cbn in Hn.
    apply String.eqb_neq in Hn. contradiction.
Qed.

Lemma list_sum_add {A : Type} (f g : A -> nat) (l : list A) :
  list_sum (map (fun x => f x + g x)%nat l)
  = (list_sum (map f l) + list_sum (map g l))%nat.
Proof.
  unfold list_sum. induction l as [|x l IH]; cbn [map fold_right];
    [reflexivity|]. rewrite IH. lia.
Qed.

Lemma count_none (g0 : string) (gs : list string) :
  g0 ∉ gs ->
  list_sum (map (fun g => if String.eqb g0 g then 1 else 0)%nat gs) = 0%nat.
Proof.
  unfold list_sum. induction gs as [|g gs IH]; intros Hg;
    cbn [map fold_right]; [reflexivity|].
  destruct (String.eqb g0 g) eqn:E.
  - apply String.eqb_eq in E. subst g. exfalso. apply Hg. left.
  - rewrite IH; [reflexivity|]. intros Hin. apply Hg. right. exact Hin.
Qed.

Lemma count_one (g0 : string) (gs : list string) :
  NoDup gs -> g0 ∈ gs ->
  list_sum (map (fun g => if String.eqb g0 g then 1 else 0)%nat gs) = 1%nat.
Proof.
  induction gs as [|g gs IH]; intros Hnd Hin; [inversion Hin|].
  apply NoDup_cons in Hnd as [Hg Hnd].
  change (((if String.eqb g0 g then 1 else 0)
           + list_sum (map (fun g => if String.eqb g0 g then 1 else 0)%nat gs))%nat
          = 1%nat).
  destruct (String.eqb g0 g) eqn:E.
  - apply String.eqb_eq in E. subst g. rewrite (count_none g0 gs Hg).
    reflexivity.
  - apply String.eqb_neq in E.
    apply elem_of_cons in Hin as [Hin|Hin]; [contradiction|].
    rewrite (IH Hnd Hin). reflexivity.
Qed.

(** Head counts add up: the members of the groups are the units, each in
    one group. *)
Lemma members_count (group_by_sn : gmap string string)
    (units : list (string * bool)) (gs : list string) :
  NoDup gs ->
  (forall u, In u units ->
             default "UNKNOWN"%string (group_by_sn !! fst u) ∈ gs) ->
  list_sum (map (fun g => length (members_of group_by_sn units g)) gs)
  = length units.
Proof.
  intros Hnd. induction units as [|u units IH]; intros Hall.
  - clear Hall Hnd. induction gs as [|g gs IHg]; cbn; [reflexivity|exact IHg].
  - cbn [length]. rewrite <- (IH (fun v Hv => Hall v (or_intror Hv))).
    specialize (Hall u (or_introl eq_refl)).
    rewrite <- Nat.add_1_l.
    rewrite <- (count_one _ gs Hnd Hall) at 1. rewrite <- list_sum_add.
    f_equal. apply map_ext. intros g. unfold members_of. cbn [List.filter].
    destruct (String.eqb _ g); reflexivity.
Qed.

Lemma strat_rows_units (key : string) (group_by_sn : gmap string string)
    (final_pass : gmap string bool) :
  let rows := strat_rows key (group_members group_by_sn final_pass)
                         final_pass in
  list_sum (map sr_units rows) = size final_pass
  /\ Forall (fun row => (1 <= sr_units row)%nat
                        /\ Stratification.key row = key) rows
  /\ map group rows
     = sorted (elements (dom (group_members group_by_sn final_pass))).
Proof.
  cbv zeta. unfold strat_rows. rewrite !map_map. cbn [sr_units group].
  rewrite map_id. split; [|split; [|reflexivity]].
  - set (gs := sorted (elements (dom (group_members group_by_sn final_pass)))).
    assert (Hgs : forall g, g ∈ gs
                  <-> members_of group_by_sn (map_to_list final_pass) g <> []).
    { intros g. subst gs.
      rewrite elem_of_sorted, elem_of_elements, elem_of_dom.
      unfold group_members. rewrite group_members_fold.
      destruct (members_of group_by_sn (map_to_list final_pass) g);
        split; try congruence; [intros []; discriminate|eauto]. }
    rewrite <- length_map_to_list.
    rewrite <- (members_count group_by_sn (map_to_list final_pass) gs).
    + f_equal. apply map_ext_in. intros g Hin.
      unfold group_members. rewrite group_members_fold.
      destruct (members_of group_by_sn (map_to_list final_pass) g) eqn:E;
        reflexivity.
    + subst gs. rewrite sorted_perm. apply NoDup_elements.
    + intros u Hin. apply Hgs. intros E.
      assert (Hm : fst u ∈ members_of group_by_sn (map_to_list final_pass)
                     (default "UNKNOWN"%string (group_by_sn !! fst u))).
      { apply elem_of_members_of. split; [|reflexivity].
        exists (snd u). apply list_elem_of_In. destruct u. exact Hin. }
      rewrite E in Hm. inversion Hm.
  - apply Forall_forall. intros row Hin.
    apply list_elem_of_In, in_map_iff in Hin as (g & <- & Hin).
    cbn. split; [|reflexivity].
    apply list_elem_of_In, elem_of_sorted, elem_of_elements, elem_of_dom in Hin
      as [ms Hms].
    rewrite Hms. cbn. unfold group_members in Hms.
    rewrite group_members_fold in Hms.
    destruct (members_of group_by_sn (map_to_list final_pass) g);
      [discriminate|]. injection Hms as <-. cbn. lia.
Qed.

End GroupingFacts.

(** X23.  Stratification by [fw_version], [stage] or [batch_id] puts every
    unit in the group named by that field of the unit's first event in the
    log, and in no other group, whatever its later events say. *)
Theorem units_are_grouped_by_their_first_event `{PyBuiltins}
    (events : list Logger.StepEvent) (key : string)
    (field : Logger.StepEvent -> string) (k : string) :
  In (key, field) [("fw_version"%string, Logger.fw_version);
                   ("stage"%string, Logger.stage);
                   ("batch_id"%string, Logger.batch_id)] ->
  is_Some (Stratification._final_pass_by_sn events !! k) ->
  let final_pass := Stratification._final_pass_by_sn events in
  let groups :=
    Stratification.group_members (Stratification.first_seen field events)
                                 final_pass in
  Stratification.stratify events key
  = Ok (Stratification.strat_rows key groups final_pass)
  /\ exists ev ms,
       first_event events k = Some ev
       /\ groups !! field ev = Some ms /\ k ∈ ms
       /\ forall g ms', groups !! g = Some ms' -> k ∈ ms' -> g = field ev.
Proof.
  intros Hkey Hu. cbv zeta. split.
  - unfold Stratification.stratify.
    destruct Hkey as [[= <- <-]|[[= <- <-]|[[= <- <-]|[]]]]; reflexivity.
  - pose proof Hu as Hu'. apply final_pass_units in Hu' as [_ Hex].
    apply first_event_some in Hex as (ev & Hfe & _ & _).
    assert (Hg : default "UNKNOWN"%string
                   (Stratification.first_seen field events !! k) = field ev).
    { rewrite first_seen_lookup, Hfe. reflexivity. }
    assert (Hs : exists ms,
               Stratification.group_members
                 (Stratification.first_seen field events)
                 (Stratification._final_pass_by_sn events) !! field ev
               = Some ms /\ k ∈ ms).
    { apply group_members_spec. split; [exact Hu|exact Hg]. }
    destruct Hs as (ms & Hms & Hk). exists ev, ms.
    split; [exact Hfe|]. split; [exact Hms|]. split; [exact Hk|].
    intros g ms' Hms' Hk'.
    assert (Hs' : exists ms,
               Stratification.group_members
                 (Stratification.first_seen field events)
                 (Stratification._final_pass_by_sn events) !! g
               = Some ms /\ k ∈ ms) by eauto.
    apply group_members_spec in Hs' as [_ Hg']. congruence.
Qed.

Lemma units_are_grouped_by_their_first_event_witness :
  let log := [log_event "SN1" "ping" 1 true None None;
              Logger.make "2026-01-01T00:00:05+00:00" "r1" "B2" "S1" "EVT"
                "SN1" "1.0.0" "read_temp" "READ_TEMP" 1 1 2 0 5 true None
                None None None "OK" []] in
  exists ev ms,
    first_event log "SN1" = Some ev
    /\ Logger.batch_id ev = "B1"%string
    /\ Stratification.group_members
         (Stratification.first_seen Logger.batch_id log)
         (Stratification._final_pass_by_sn log) !! "B1"%string = Some ms
    /\ "SN1"%string ∈ ms.
Proof.
  cbv zeta.
  set (log := [log_event "SN1" "ping" 1 true None None;
               Logger.make "2026-01-01T00:00:05+00:00" "r1" "B2" "S1" "EVT"
                 "SN1" "1.0.0" "read_temp" "READ_TEMP" 1 1 2 0 5 true None
                 None None None "OK" []]).
  assert (Hu : is_Some (Stratification._final_pass_by_sn log !! "SN1"%string)).
  { vm_compute. eexists. reflexivity. }
  destruct (@units_are_grouped_by_their_first_event decimal_builtins log
              "batch_id" Logger.batch_id "SN1"
              ltac:(right; right; left; reflexivity) Hu)
    as (_ & ev & ms & Hfe & Hms & Hk & _).
  assert (Hev : ev = log_event "SN1" "ping" 1 true None None).
  { cbn in Hfe. injection Hfe as <-. reflexivity. }
  exists ev, ms. split; [exact Hfe|].
  split; [rewrite Hev; reflexivity|].
  split; [|exact Hk]. rewrite Hev in Hms. exact Hms.
Defined.

(** X24.  The rows of a stratification partition the units.  For every key
    [stratify] accepts: the unit counts of the rows add up to the number of
    units (the distinct non-empty serial numbers of the log); every row has
    at least one unit, so the [units == 0] branch of the yield is never
    taken; the rows carry the key and come in ascending order of their
    group, one row per group. *)
Theorem strat_rows_partition_the_units `{PyBuiltins}
    (events : list Logger.StepEvent) (key : string)
    (rows : list Stratification.StratRow) :
  Stratification.stratify events key = Ok rows ->
  list_sum (map Stratification.sr_units rows)
  = size (filter (fun k => k <> ""%string)
                 (list_to_set (Logger.ev_sn <$> events) : gset string))
  /\ Forall (fun row => (1 <= Stratification.sr_units row)%nat
                        /\ Stratification.key row = key) rows
  /\ ascending (map Stratification.group rows)
  /\ NoDup (map Stratification.group rows).
Proof.
  intros Hrows.
  assert (Hgen : exists group_by_sn,
             rows = Stratification.strat_rows key
                      (Stratification.group_members group_by_sn
                         (Stratification._final_pass_by_sn events))
                      (Stratification._final_pass_by_sn events)).
  { unfold Stratification.stratify in Hrows.
    repeat match type of Hrows with
           | (if ?c then _ else _) = _ => destruct c
           end; try discriminate; injection Hrows as <-; eauto. }
  destruct Hgen as (group_by_sn & ->).
  destruct (strat_rows_units key group_by_sn
              (Stratification._final_pass_by_sn events)) as (Hsum & Hall & Hg).
  split; [|split; [exact Hall|]].
  - rewrite Hsum. rewrite <- size_dom.
    f_equal. apply set_eq. intros k. rewrite elem_of_dom, final_pass_units.
    rewrite elem_of_filter, elem_of_list_to_set, list_elem_of_fmap.
    split.
    + intros (Hne & ev & Hev & <-). split; [exact Hne|]. exists ev. auto.
    + intros (Hne & ev & -> & Hev). split; [exact Hne|]. exists ev. auto.
  - rewrite Hg. split; [apply sorted_ascending|].
    rewrite sorted_perm. apply NoDup_elements.
Qed.

Lemma strat_rows_partition_the_units_witness :
  exists rows,
    Stratification.stratify two_unit_log "temp_bin" = Ok rows
    /\ list_sum (map Stratification.sr_units rows) = 2%nat.
Proof.
  destruct (Stratification.stratify two_unit_log "temp_bin") as [rows|e d] eqn:E.
  - exists rows. split; [reflexivity|].
    destruct (@strat_rows_partition_the_units decimal_builtins two_unit_log
                "temp_bin" rows E) as (Hsum & _).
    rewrite Hsum. vm_compute. reflexivity.
  - exfalso. vm_compute in E. discriminate.
Defined.

(** ** Analytics: the final verdict of a unit *)

Section FinalPassFacts.
Import Logger Stratification.

(** The dictionary of [_final_pass_by_sn] holds, per (sn, step), an event of
    that pair with the highest attempt, and nothing for a pair without
    events. *)
Lemma keep_final_fold (events : list StepEvent) (key : string * string) :
  match foldl keep_final ∅ events !! key with
  | Some ev =>
      ev ∈ events /\ event_key ev = key
      /\ forall e, e ∈ events -> event_key e = key ->
                   (attempt_of e <= attempt_of ev)%Z
  | None => forall e, e ∈ events -> event_key e <> key
  end.
Proof.
  induction events as [|ev events IH] using rev_ind.
  - cbn [foldl]. rewrite lookup_empty. intros e He. inversion He.
  - rewrite foldl_app. cbn [foldl].
    set (per := foldl keep_final ∅ events) in *.
    unfold keep_final. fold (event_key ev).
    destruct (decide (event_key ev = key)) as [Ek|Ek].
    + rewrite Ek.
      destruct (per !! key) as [old|] eqn:Eold.
      * destruct IH as (Hin & Hk & Hmax).
        destruct (attempt_of old <=? attempt_of ev)%Z eqn:Ele.
        -- rewrite lookup_insert_eq. apply Z.leb_le in Ele.
           split; [apply elem_of_app; right; left|]. split; [exact Ek|].
           intros e He Hke. apply elem_of_app in He as [He|He].
           ++ specialize (Hmax e He Hke). lia.
           ++ apply list_elem_of_singleton in He. subst e. lia.
        -- rewrite Eold. apply Z.leb_gt in Ele.
           split; [apply elem_of_app; left; exact Hin|]. split; [exact Hk|].
           intros e He Hke. apply elem_of_app in He as [He|He].
           ++ exact (Hmax e He Hke).
           ++ apply list_elem_of_singleton in He. subst e. lia.
      * rewrite lookup_insert_eq.
        split; [apply elem_of_app; right; left|]. split; [exact Ek|].
        intros e He Hke. apply elem_of_app in He as [He|He].
        -- destruct (IH e He Hke).
        -- apply list_elem_of_singleton in He. subst e. lia.
    + assert (Hsame : match per !! event_key ev with
                      | Some old =>
                          if (attempt_of old <=? attempt_of ev)%Z
                          then <[event_key ev := ev]> per else per
                      | None => <[event_key ev := ev]> per
                      end !! key = per !! key).
      { destruct (per !! event_key ev) as [old|];
          [destruct (attempt_of old <=? attempt_of ev)%Z|];
          try reflexivity; apply lookup_insert_ne; exact Ek. }
      rewrite Hsame. destruct (per !! key) as [old|].
      * destruct IH as (Hin & Hk & Hmax).
        split; [apply elem_of_app; left; exact Hin|]. split; [exact Hk|].
        intros e He Hke. apply elem_of_app in He as [He|He].
        -- exact (Hmax e He Hke).
        -- apply list_elem_of_singleton in He. subst e. contradiction.
      * intros e He. apply elem_of_app in He as [He|He]; [exact (IH e He)|].
        apply list_elem_of_singleton in He. subst e. exact Ek.
Qed.

Lemma final_pass_lookup (events : list StepEvent) (k : string) :
  is_Some (_final_pass_by_sn events !! k) ->
  _final_pass_by_sn events !! k
  = Some (forallb (fun step =>
                     match foldl keep_final ∅ events !! (k, step) with
                     | None => false
                     | Some ev => passed ev
                     end)
                  (elements (filter (fun s => nonempty s = true)
                               (list_to_set (test_step <$> events)
                                : gset string)))).
Proof.
  intros [b Hb]. rewrite Hb. unfold _final_pass_by_sn in Hb.
  apply lookup_set_to_map in Hb; [|intros ? ? _ _ E; exact E].
  destruct Hb as (x & _ & [= -> <-]). reflexivity.
Qed.

Lemma elem_of_log_steps (events : list StepEvent) (s : string) :
  In s (elements (filter (fun s => nonempty s = true)
                    (list_to_set (test_step <$> events) : gset string)))
  <-> step_of_log events s.
Proof.
  rewrite <- list_elem_of_In, elem_of_elements, elem_of_filter.
  rewrite elem_of_list_to_set, list_elem_of_fmap. unfold step_of_log, nonempty.
  rewrite negb_true_iff, String.eqb_neq. split.
  - intros (Hne & e & -> & He). split; [exact Hne|]. exists e. auto.
  - intros (Hne & e & He & <-). split; [exact Hne|]. exists e. auto.
Qed.

End FinalPassFacts.

(** X25.  The final verdict of a unit is taken over the steps of the whole
    log.  A unit passes only if, for every non-empty step id that occurs
    anywhere in the log, it has a passing event at its highest attempt of
    that step.  A unit fails as soon as, for some step id of the log, none
    of its events passed: in particular when it has no event for a step
    that another unit ran. *)
Theorem unit_passes_only_with_every_step_of_the_log
    (events : list Logger.StepEvent) (k : string) :
  is_Some (Stratification._final_pass_by_sn events !! k) ->
  (Stratification._final_pass_by_sn events !! k = Some true ->
   forall s, step_of_log events s ->
     exists ev,
       ev ∈ events /\ Logger.ev_sn ev = k /\ Logger.test_step ev = s
       /\ Logger.passed ev = true
       /\ forall e, e ∈ events -> Logger.ev_sn e = k ->
                    Logger.test_step e = s ->
                    (Stratification.attempt_of e
                     <= Stratification.attempt_of ev)%Z)
  /\ (forall s, step_of_log events s ->
        (forall e, e ∈ events -> Logger.ev_sn e = k ->
                   Logger.test_step e = s -> Logger.passed e = false) ->
        Stratification._final_pass_by_sn events !! k = Some false).
Proof.
  intros Hu. rewrite (final_pass_lookup events k Hu). split.
  - intros [= Hall] s Hs. rewrite forallb_forall in Hall.
    apply elem_of_log_steps in Hs. specialize (Hall s Hs). cbn in Hall.
    pose proof (keep_final_fold events (k, s)) as Hf.
    destruct (foldl Stratification.keep_final ∅ events !! (k, s)) as [ev|];
      [|discriminate].
    destruct Hf as (Hin & [= Hk Hst] & Hmax).
    exists ev. repeat split; auto.
    intros e He Hke Hse. apply Hmax; [exact He|].
    unfold event_key. congruence.
  - intros s Hs Hfail. f_equal. apply not_true_is_false. intros Hall.
    rewrite forallb_forall in Hall.
    apply elem_of_log_steps in Hs. specialize (Hall s Hs). cbn in Hall.
    pose proof (keep_final_fold events (k, s)) as Hf.
    destruct (foldl Stratification.keep_final ∅ events !! (k, s)) as [ev|];
      [|discriminate].
    destruct Hf as (Hin & [= Hk Hst] & _).
    rewrite (Hfail ev Hin Hk Hst) in Hall. discriminate.
Qed.

Lemma unit_passes_only_with_every_step_of_the_log_witness :
  let log := [log_event "SN1" "ping" 1 true None None;
              log_event "SN2" "ping" 1 true None None;
              log_event "SN2" "read_temp" 1 true None None] in
  Stratification._final_pass_by_sn log !! "SN1"%string = Some false
  /\ Stratification._final_pass_by_sn log !! "SN2"%string = Some true.
Proof.
  cbv zeta.
  set (log := [log_event "SN1" "ping" 1 true None None;
               log_event "SN2" "ping" 1 true None None;
               log_event "SN2" "read_temp" 1 true None None]).
  assert (Hu : is_Some (Stratification._final_pass_by_sn log !! "SN1"%string)).
  { vm_compute. eexists. reflexivity. }
  split; [|vm_compute; reflexivity].
  apply (proj2 (unit_passes_only_with_every_step_of_the_log log "SN1" Hu)
           "read_temp"%string).
  - split; [discriminate|].
    exists (log_event "SN2" "read_temp" 1 true None None).
    split; [right; right; left|reflexivity].
  - intros e He Hk Hs. subst log.
    apply elem_of_cons in He as [->|He]; [discriminate Hs|].
    apply elem_of_cons in He as [->|He]; [discriminate Hk|].
    apply list_elem_of_singleton in He. subst e. discriminate Hk.
Defined.

Section ParetoFacts.
Import Logger Pareto.

Lemma list_sum_perm (l l' : list nat) : l ≡ₚ l' -> list_sum l = list_sum l'.
Proof.
  unfold list_sum. induction 1; cbn [fold_right]; lia.
Qed.

Lemma total_insert_fresh (m : gmap string nat) (k : string) (v : nat) :
  m !! k = None -> total (<[k := v]> m) = (v + total m)%nat.
Proof.
  intros Hk. unfold total.
  rewrite (list_sum_perm _ (snd <$> (k, v) :: map_to_list m)); [reflexivity|].
  apply fmap_Permutation, map_to_list_insert. exact Hk.
Qed.

Lemma total_count_up (m : gmap string nat) (k : string) :
  total (count_up m k) = S (total m).
Proof.
  unfold count_up. destruct (m !! k) as [v|] eqn:Ek; cbn [default].
  - rewrite <- (insert_delete_eq m k (v + 1)%nat).
    rewrite total_insert_fresh by apply lookup_delete_eq.
    rewrite <- (insert_delete_id m k v Ek) at 2.
    rewrite total_insert_fresh by apply lookup_delete_eq. lia.
  - rewrite total_insert_fresh by exact Ek. reflexivity.
Qed.

Lemma pareto_failures_tallies (events : list StepEvent) :
  by_step (pareto_failures events) = tally (failed_labels test_step events)
  /\ by_error (pareto_failures events)
     = tally (failed_labels error_label events)
  /\ by_batch (pareto_failures events) = tally (failed_labels batch_id events).
Proof.
  unfold pareto_failures, tally, failed_labels.
  induction events as [|ev events IH] using rev_ind; [repeat split|].
  rewrite !foldl_app, !List.filter_app, !fmap_app, !foldl_app.
  cbn [foldl List.filter]. destruct IH as (I1 & I2 & I3).
  destruct (passed ev); cbn [negb fmap list_fmap foldl];
    [repeat split; assumption|].
  cbn [by_step by_error by_batch]. rewrite I1, I2, I3. repeat split.
Qed.

Lemma tally_lookup (labels : list string) (k : string) :
  tally labels !! k = entry (count_occ string_dec labels k).
Proof.
  unfold tally. induction labels as [|l labels IH] using rev_ind;
    [reflexivity|].
  rewrite foldl_app, count_occ_app. cbn [foldl count_occ].
  set (m := foldl count_up ∅ labels) in *. unfold count_up.
  destruct (string_dec l k) as [->|Hne].
  - rewrite lookup_insert_eq, IH.
    destruct (count_occ string_dec labels k) as [|n]; cbn;
      rewrite ?Nat.add_0_r, ?Nat.add_1_r; reflexivity.
  - rewrite lookup_insert_ne by exact Hne. rewrite IH, Nat.add_0_r.
    reflexivity.
Qed.

Lemma tally_total (labels : list string) : total (tally labels) = length labels.
Proof.
  unfold tally. induction labels as [|l labels IH] using rev_ind;
    [reflexivity|].
  rewrite foldl_app, length_app. cbn [foldl length].
  rewrite total_count_up, IH. lia.
Qed.

Lemma count_failed_labels (label : StepEvent -> string)
    (events : list StepEvent) (k : string) :
  count_occ string_dec (failed_labels label events) k
  = length (failed_with label k events).
Proof.
  unfold failed_labels, failed_with.
  induction events as [|ev events IH]; [reflexivity|].
  cbn [List.filter]. destruct (passed ev); cbn [negb andb]; [exact IH|].
  cbn [fmap list_fmap count_occ]. fold (@fmap list _ _ _ label) in *.
  destruct (string_dec (label ev) k) as [E|E].
  - apply String.eqb_eq in E. rewrite E. cbn [length]. f_equal. exact IH.
  - apply String.eqb_neq in E. rewrite E. exact IH.
Qed.

End ParetoFacts.

(** X26.  The Pareto tables count failed attempts only, exactly: in each of
    [by_step], [by_error] and [by_batch] the entry of a label is the number
    of failed events that carry it (the step id, the error code, the batch
    id), passing events never count, and a label without a failed event has
    no entry, so no entry is zero.  A failed event without an error code is
    counted under the label [None]. *)
Theorem pareto_tables_count_the_failed_attempts
    (events : list Logger.StepEvent) :
  let c := Pareto.pareto_failures events in
  (forall k,
     Pareto.by_step c !! k
     = entry (length (failed_with Logger.test_step k events))
     /\ Pareto.by_error c !! k
        = entry (length (failed_with Pareto.error_label k events))
     /\ Pareto.by_batch c !! k
        = entry (length (failed_with Logger.batch_id k events)))
  /\ forall ev, ev ∈ events -> Logger.passed ev = false ->
                Logger.ev_error_code ev = None ->
                exists n, Pareto.by_error c !! "None"%string = Some (S n).
Proof.
  cbv zeta.
  destruct (pareto_failures_tallies events) as (E1 & E2 & E3).
  assert (Hk : forall k,
             Pareto.by_step (Pareto.pareto_failures events) !! k
             = entry (length (failed_with Logger.test_step k events))
             /\ Pareto.by_error (Pareto.pareto_failures events) !! k
                = entry (length (failed_with Pareto.error_label k events))
             /\ Pareto.by_batch (Pareto.pareto_failures events) !! k
                = entry (length (failed_with Logger.batch_id k events))).
  { intros k. rewrite E1, E2, E3, !tally_lookup, !count_failed_labels.
    repeat split. }
  split; [exact Hk|].
  intros ev Hin Hf Hc. destruct (Hk "None"%string) as (_ & -> & _).
  assert (Hev : In ev (failed_with Pareto.error_label "None" events)).
  { apply filter_In. split; [apply list_elem_of_In; exact Hin|].
    unfold Pareto.error_label. rewrite Hf, Hc. reflexivity. }
  destruct (failed_with Pareto.error_label "None" events) as [|e l];
    [destruct Hev|]. cbn [length]. eauto.
Qed.

Lemma pareto_tables_count_the_failed_attempts_witness :
  let log := [log_event "SN1" "ping" 1 true None None;
              Logger.make "2026-01-01T00:00:05+00:00" "r1" "B1" "S1" "EVT"
                "SN1" "1.0.0" "read_temp" "READ_TEMP" 1 1 2 0 5 false None
                None None None "no answer" []] in
  exists n, Pareto.by_error (Pareto.pareto_failures log) !! "None"%string
            = Some (S n).
Proof.
  cbv zeta.
  apply (proj2 (pareto_tables_count_the_failed_attempts _)
           (Logger.make "2026-01-01T00:00:05+00:00" "r1" "B1" "S1" "EVT"
              "SN1" "1.0.0" "read_temp" "READ_TEMP" 1 1 2 0 5 false None
              None None None "no answer" [])).
  - right. left.
  - reflexivity.
  - reflexivity.
Defined.

(** X27.  The three Pareto tables are three views of the same failures:
    the counts of each table add up to the number of failed events of the
    log. *)
Theorem pareto_tables_have_the_same_total (events : list Logger.StepEvent) :
  let c := Pareto.pareto_failures events in
  let failed := List.filter (fun ev => negb (Logger.passed ev)) events in
  total (Pareto.by_step c) = length failed
  /\ total (Pareto.by_error c) = length failed
  /\ total (Pareto.by_batch c) = length failed.
Proof.
  cbv zeta. destruct (pareto_failures_tallies events) as (-> & -> & ->).
  rewrite !tally_total. unfold failed_labels. rewrite !length_fmap.
  repeat split.
Qed.
